(** * EC2 cost optimizer: a shallow embedding and its verified properties

    The development embeds the two scripts of the repository,
    [ec2-cost-optimizer-enhanced.py] (module [Enhanced]) and
    [ec2-cost-optimizer.py] (module [Basic]).

    Conventions of the embedding:
    - Python floats (prices, utilization percentages) are exact rationals
      [Q]; binary rounding is not modelled. Comparisons of the source
      ([==], [<], [>]) are the boolean comparisons of [Q].
    - Python strings are [string]; [str.split], [str.startswith],
      [str.lower], the [in] substring test and the [:.1f] format are
      written out in module [Py].
    - Exceptions are explicit: a computation yields an [outcome], either
      [Return v] or [Raise e]; [try ... except Exception] is [try_except].
    - The mutable state of one run (the price cache, the lines printed, the
      requests sent to the external services) is the record [World],
      threaded by the monad [M]. *)

From Stdlib Require Import Ascii QArith Qround Qabs Lqa.
From stdpp Require Import gmap strings list fin_maps pretty.

(** ** Python primitives used by the scripts *)

Module Py.

(** Outcome of a Python computation: a value or a raised exception
    (carrying its message). *)
Inductive outcome (A : Type) : Type :=
| Return (a : A)
| Raise (e : string).
Arguments Return {A} a.
Arguments Raise {A} e.

Definition Qltb (a b : Q) : bool := negb (Qle_bool b a).

(** [a / b] raises ZeroDivisionError when [b == 0]. *)
Definition truediv (a b : Q) : outcome Q :=
  if Qeq_bool b 0 then Raise "float division by zero" else Return (a / b)%Q.

(** [s.split('.')] *)
Fixpoint split_dot (s : string) : list string :=
  match s with
  | EmptyString => [""]
  | String c rest =>
      if Ascii.eqb c "."%char then "" :: split_dot rest
      else match split_dot rest with
           | p :: ps => String c p :: ps
           | [] => [String c ""]
           end
  end.

(** [s.startswith(p)] *)
Definition startswith (s p : string) : bool := String.prefix p s.

(** [sub in s] *)
Fixpoint contains (sub s : string) : bool :=
  String.prefix sub s ||
  match s with
  | EmptyString => false
  | String _ rest => contains sub rest
  end.

Definition lower_ascii (c : Ascii.ascii) : Ascii.ascii :=
  let n := Ascii.nat_of_ascii c in
  if (65 <=? n)%nat && (n <=? 90)%nat then Ascii.ascii_of_nat (n + 32) else c.

(** [s.lower()], on ASCII letters *)
Fixpoint lower (s : string) : string :=
  match s with
  | EmptyString => EmptyString
  | String c rest => String (lower_ascii c) (lower rest)
  end.

(** Rounding of a non-negative rational to the nearest integer, ties to
    even, as the float formatter does on the exact value. *)
Definition round_half_even (q : Q) : Z :=
  let n := Qfloor q in
  match Qcompare (q - inject_Z n) (1 # 2) with
  | Lt => n
  | Gt => (n + 1)%Z
  | Eq => if Z.even n then n else (n + 1)%Z
  end.

(** [f'{q:.1f}'] *)
Definition format_1f (q : Q) : string :=
  let t := round_half_even (Qabs q * 10) in
  (if Qltb q 0 then "-" else "")
    +:+ pretty (t / 10)%Z +:+ "." +:+ pretty (t mod 10)%Z.

(** State and exceptions: a computation reads and updates a state [S] and
    returns or raises. *)
Definition M (S A : Type) : Type := S -> outcome A * S.

Definition ret {S A} (a : A) : M S A := fun s => (Return a, s).

Definition bind {S A B} (m : M S A) (k : A -> M S B) : M S B :=
  fun s =>
    match m s with
    | (Return a, s') => k a s'
    | (Raise e, s') => (Raise e, s')
    end.

Definition lift {S A} (o : outcome A) : M S A := fun s => (o, s).

Definition gets {S A} (f : S -> A) : M S A := fun s => (Return (f s), s).

Definition modify {S} (f : S -> S) : M S unit := fun s => (Return tt, f s).

(** [try: body except Exception as e: handler e] *)
Definition try_except {S A} (body : M S A) (handler : string -> M S A) : M S A :=
  fun s =>
    match body s with
    | (Return a, s') => (Return a, s')
    | (Raise e, s') => handler e s'
    end.

End Py.

(** [x ← c1; c2] and [c1;; c2] sequence computations of [M]. *)
#[global] Instance M_ret {S} : MRet (Py.M S) := @Py.ret S.
#[global] Instance M_bind {S} : MBind (Py.M S) := fun A B k m => Py.bind m k.

(** The same notation sequences computations that only return or raise. *)
#[global] Instance outcome_bind : MBind Py.outcome :=
  fun A B k o =>
    match o with
    | Py.Return a => k a
    | Py.Raise e => Py.Raise e
    end.

Import Py.

(** ** What the two scripts share *)

Module Common.

(** An element of [reservation['Instances']] in the answer of
    [describe_instances]: the fields the scripts read. *)
Record Instance : Type := {
  InstanceId : string;
  InstanceType : string;
  State_Name : string;
  Tags : option (list (string * string))
}.

(** [(savings_per_hour / current_price * 100) if current_price > 0 else 0],
    the same expression in both scripts. *)
Definition compute_savings_percent (savings_per_hour current_price : Q) : outcome Q :=
  if Qltb 0 current_price then
    match truediv savings_per_hour current_price with
    | Return q => Return (q * 100)%Q
    | Raise e => Raise e
    end
  else Return 0%Q.

End Common.

Import Common.

(** ** The enhanced script: [ec2-cost-optimizer-enhanced.py] *)

Module Enhanced.

(** The category tag of an alternative: the third component of the tuples
    built by [get_alternative_instances], one of the four literals
    ['graviton'], ['amd'], ['intel'], ['downsize']. *)
Inductive category : Set := graviton | amd | intel | downsize.

#[global] Instance category_eq_dec : EqDecision category.
Proof. solve_decision. Defined.

Definition category_to_nat (c : category) : nat :=
  match c with graviton => 0 | amd => 1 | intel => 2 | downsize => 3 end.

Definition category_of_nat (n : nat) : option category :=
  match n with
  | 0 => Some graviton | 1 => Some amd | 2 => Some intel | 3 => Some downsize
  | _ => None
  end.

#[global] Instance category_countable : Countable category.
Proof.
  refine (inj_countable category_to_nat category_of_nat _).
  intros []; reflexivity.
Defined.

(** [(alt_type, description, category)] *)
Definition alternative : Type := string * string * category.

Definition downsize_map : gmap string string :=
  list_to_map
    [ ("xlarge", "large");
      ("large", "medium");
      ("medium", "small");
      ("small", "micro");
      ("2xlarge", "xlarge");
      ("4xlarge", "2xlarge") ].

(** The family rules: the [if]/[elif] chain of the source. *)
Definition family_alternatives (family size : string) : list alternative :=
  if startswith family "t3" then
    [ ("t4g." +:+ size, "Graviton2 ARM - 20% cheaper", graviton);
      ("t3a." +:+ size, "AMD - 10% cheaper", amd) ]
  else if startswith family "t2" then
    [ ("t3." +:+ size, "Newer generation", intel);
      ("t4g." +:+ size, "Graviton2 ARM - 20% cheaper", graviton) ]
  else if String.eqb family "m5" then
    [ ("m7g." +:+ size, "Graviton3 - Latest gen", graviton);
      ("m6a." +:+ size, "AMD - 10% cheaper", amd);
      ("m6i." +:+ size, "Intel 6th gen", intel) ]
  else if String.eqb family "m6i" then
    [ ("m7g." +:+ size, "Graviton3 - Better price/perf", graviton);
      ("m6a." +:+ size, "AMD - 10% cheaper", amd) ]
  else if String.eqb family "m4" then
    [ ("m7g." +:+ size, "Graviton3 - Latest", graviton);
      ("m6i." +:+ size, "Intel 6th gen", intel);
      ("m5." +:+ size, "Intel 5th gen", intel) ]
  else if String.eqb family "c5" then
    [ ("c7g." +:+ size, "Graviton3 - Best price/perf", graviton);
      ("c6a." +:+ size, "AMD", amd);
      ("c6i." +:+ size, "Intel 6th gen", intel) ]
  else if String.eqb family "c4" then
    [ ("c7g." +:+ size, "Graviton3", graviton);
      ("c6i." +:+ size, "Intel 6th gen", intel) ]
  else if String.eqb family "r5" then
    [ ("r7g." +:+ size, "Graviton3", graviton);
      ("r6a." +:+ size, "AMD", amd);
      ("r6i." +:+ size, "Intel 6th gen", intel) ]
  else if String.eqb family "r4" then
    [ ("r7g." +:+ size, "Graviton3", graviton);
      ("r6i." +:+ size, "Intel 6th gen", intel) ]
  else [].

(** The downsize step: the block under
    [if cpu_avg is not None and cpu_avg < 20]. *)
Definition downsize_alternatives
    (family size : string) (cpu_avg : option Q) : list alternative :=
  match cpu_avg with
  | Some avg =>
      if Qltb avg 20 then
        match downsize_map !! size with
        | Some smaller_size =>
            [ (family +:+ "." +:+ smaller_size,
               "Downsize (low CPU: " +:+ format_1f avg +:+ "%)",
               downsize) ]
        | None => []
        end
      else []
  | None => []
  end.

Definition get_alternative_instances
    (current_type : string) (cpu_avg : option Q) : list alternative :=
  match split_dot current_type with
  | [family; size] =>
      family_alternatives family size
        ++ downsize_alternatives family size cpu_avg
  | _ => []
  end.

(** *** Mutable state of a run and the external services *)

Record savings_entry : Type := {
  alt_type : string;
  description : string;
  entry_category : category;
  alt_price : Q;
  savings_per_hour : Q;
  savings_per_month : Q;
  savings_percent : Q
}.

(** [pricing_cache] is [self.pricing_cache]. [stdout] holds the warning
    lines printed. [recommendations] holds the recommendation rows printed
    by [analyze_instances], kept as records instead of formatted text (the
    remaining report lines are display only and left out).
    [pricing_calls] and [metrics_calls] log the requests sent to the
    Pricing and CloudWatch clients. *)
Record World : Type := {
  pricing_cache : gmap string Q;
  stdout : list string;
  recommendations : list savings_entry;
  pricing_calls : list (string * string);
  metrics_calls : list (string * nat)
}.

Definition set_pricing_cache (f : gmap string Q -> gmap string Q) (w : World) : World :=
  {| pricing_cache := f (pricing_cache w); stdout := stdout w;
     recommendations := recommendations w;
     pricing_calls := pricing_calls w; metrics_calls := metrics_calls w |}.

Definition print (line : string) : M World unit :=
  modify (fun w =>
    {| pricing_cache := pricing_cache w; stdout := stdout w ++ [line];
       recommendations := recommendations w;
       pricing_calls := pricing_calls w; metrics_calls := metrics_calls w |}).

Definition print_recommendation (row : savings_entry) : M World unit :=
  modify (fun w =>
    {| pricing_cache := pricing_cache w; stdout := stdout w;
       recommendations := recommendations w ++ [row];
       pricing_calls := pricing_calls w; metrics_calls := metrics_calls w |}).

Record datapoint : Type := { Average : Q; Maximum : Q }.

(** The Pricing client: what [get_products] answers to the request for an
    instance type and a location, given the number of requests served
    before. It raises, or returns the price list; an element of the price
    list is the outcome of decoding it to the USD price per hour (lines
    80-83 of the source), which raises on an item of another shape. *)
Definition pricing_client : Type :=
  nat -> string -> string -> outcome (list (outcome Q)).

(** The CloudWatch client: what [get_metric_statistics] answers for an
    instance id and a number of days: it raises, or returns datapoints. *)
Definition cloudwatch_client : Type :=
  nat -> string -> nat -> outcome (list datapoint).

Record metrics : Type := {
  cpu_avg : option Q;
  cpu_max : option Q;
  has_data : bool
}.

(** The accumulators of [analyze_instances]. *)
Record Totals : Type := {
  instances_analyzed : nat;
  total_current_cost : Q;
  total_potential_savings : gmap category Q
}.

Definition region_map : gmap string string :=
  list_to_map
    [ ("us-east-1", "US East (N. Virginia)");
      ("us-east-2", "US East (Ohio)");
      ("us-west-1", "US West (N. California)");
      ("us-west-2", "US West (Oregon)");
      ("eu-west-1", "EU (Ireland)");
      ("eu-central-1", "EU (Frankfurt)");
      ("ap-southeast-1", "Asia Pacific (Singapore)");
      ("ap-northeast-1", "Asia Pacific (Tokyo)") ].

(** [f"{instance_type}_{region}"] *)
Definition cache_key (instance_type region : string) : string :=
  instance_type +:+ "_" +:+ region.

(** [region_map.get(region, region)] *)
Definition region_name (region : string) : string :=
  default region (region_map !! region).

(** The line printed by the handler of [get_instance_price]. *)
Definition price_warning (instance_type e : string) : string :=
  "Warning: Could not fetch price for " +:+ instance_type +:+ ": " +:+ e.

(** The line printed by the handler of [get_instance_metrics]. *)
Definition metrics_warning (instance_id e : string) : string :=
  "Warning: Could not fetch metrics for " +:+ instance_id +:+ ": " +:+ e.

(** [collections.defaultdict(float)]: an insertion-ordered dictionary. *)
Definition defaultdict : Type := list (category * Q).

Fixpoint dd_lookup (d : defaultdict) (k : category) : option Q :=
  match d with
  | [] => None
  | (k', v) :: rest => if decide (k = k') then Some v else dd_lookup rest k
  end.

(** [d[k]] on a defaultdict: a missing key is inserted with [float()]. *)
Definition dd_getitem (d : defaultdict) (k : category) : Q * defaultdict :=
  match dd_lookup d k with
  | Some v => (v, d)
  | None => (0%Q, d ++ [(k, 0%Q)])
  end.

(** [d[k] = v] *)
Fixpoint dd_setitem (d : defaultdict) (k : category) (v : Q) : defaultdict :=
  match d with
  | [] => [(k, v)]
  | (k', v') :: rest =>
      if decide (k = k') then (k, v) :: rest
      else (k', v') :: dd_setitem rest k v
  end.

(** The body of [if savings_per_month > best[category]: best[category] = ...] *)
Definition track_best (best : defaultdict) (c : category) (savings_per_month : Q)
    : defaultdict :=
  let '(current, best) := dd_getitem best c in
  if Qltb current savings_per_month then dd_setitem best c savings_per_month
  else best.

(** [total_potential_savings[category] += savings] *)
Definition add_to_total (totals : gmap category Q) (c : category) (savings : Q)
    : outcome (gmap category Q) :=
  match totals !! c with
  | Some t => Return (<[c := (t + savings)%Q]> totals)
  | None => Raise "KeyError"
  end.

(** [for category, savings in best_savings_by_type.items(): ...] *)
Fixpoint add_to_totals (totals : gmap category Q) (items : defaultdict)
    : outcome (gmap category Q) :=
  match items with
  | [] => Return totals
  | (c, savings) :: rest =>
      match add_to_total totals c savings with
      | Return totals' => add_to_totals totals' rest
      | Raise e => Raise e
      end
  end.

Definition initial_totals : Totals :=
  {| instances_analyzed := 0;
     total_current_cost := 0;
     total_potential_savings :=
       <[graviton := 0%Q]> (<[amd := 0%Q]> (<[intel := 0%Q]> (<[downsize := 0%Q]> ∅))) |}.

Definition no_metrics : metrics :=
  {| cpu_avg := None; cpu_max := None; has_data := false |}.

Definition sum_average (dps : list datapoint) : Q :=
  fold_left (fun acc d => (acc + Average d)%Q) dps 0%Q.

Definition max_maximum (first : datapoint) (rest : list datapoint) : Q :=
  fold_left (fun m d => if Qltb m (Maximum d) then Maximum d else m)
    rest (Maximum first).

Section Optimizer.

(** The attributes of [self] fixed by [__init__]. *)
Variable self_region : string.
Variable pricing : pricing_client.
Variable cloudwatch : cloudwatch_client.

Definition get_products (instance_type region_name : string)
    : M World (list (outcome Q)) :=
  fun w =>
    (pricing (length (pricing_calls w)) instance_type region_name,
     {| pricing_cache := pricing_cache w; stdout := stdout w;
        recommendations := recommendations w;
        pricing_calls := pricing_calls w ++ [(instance_type, region_name)];
        metrics_calls := metrics_calls w |}).

Definition get_metric_statistics (instance_id : string) (days : nat)
    : M World (list datapoint) :=
  fun w =>
    (cloudwatch (length (metrics_calls w)) instance_id days,
     {| pricing_cache := pricing_cache w; stdout := stdout w;
        recommendations := recommendations w;
        pricing_calls := pricing_calls w;
        metrics_calls := metrics_calls w ++ [(instance_id, days)] |}).

Definition get_instance_price (instance_type : string) (region : option string)
    : M World Q :=
  let region := default self_region region in
  let cache_key := cache_key instance_type region in
  cache ← gets pricing_cache;
  match cache !! cache_key with
  | Some price => ret price
  | None =>
      let region_name := region_name region in
      found ←
        try_except
          (response ← get_products instance_type region_name;
           match response with
           | price_item :: _ =>
               price_per_hour ← lift price_item;
               modify (set_pricing_cache (insert cache_key price_per_hour));;
               ret (Some price_per_hour)
           | [] => ret None
           end)
          (fun e => print (price_warning instance_type e);; ret None);
      match found with
      | Some price_per_hour => ret price_per_hour
      | None => ret 0%Q
      end
  end.

Definition get_instance_metrics (instance_id : string) (days : nat)
    : M World metrics :=
  try_except
    (datapoints ← get_metric_statistics instance_id days;
     match datapoints with
     | first :: rest =>
         avg ← lift (truediv (sum_average datapoints)
                        (inject_Z (Z.of_nat (length datapoints))));
         ret {| cpu_avg := Some avg;
                cpu_max := Some (max_maximum first rest);
                has_data := (0 <? length datapoints)%nat |}
     | [] =>
         ret {| cpu_avg := None; cpu_max := None;
                has_data := (0 <? length datapoints)%nat |}
     end)
    (fun e =>
       print (metrics_warning instance_id e);;
       ret {| cpu_avg := None; cpu_max := None; has_data := false |}).

(** The loop [for alt_type, description, category in alternatives]. *)
Fixpoint evaluate_alternatives (current_price : Q)
    (alternatives : list alternative) (best_savings_by_type : defaultdict)
    : M World defaultdict :=
  match alternatives with
  | [] => ret best_savings_by_type
  | (a_type, a_description, a_category) :: rest =>
      a_price ← get_instance_price a_type (Some self_region);
      if Qeq_bool a_price 0 then
        evaluate_alternatives current_price rest best_savings_by_type
      else
        let per_hour := (current_price - a_price)%Q in
        let per_month := (per_hour * 730)%Q in
        percent ← lift (compute_savings_percent per_hour current_price);
        let best := track_best best_savings_by_type a_category per_month in
        print_recommendation
          {| alt_type := a_type; description := a_description;
             entry_category := a_category; alt_price := a_price;
             savings_per_hour := per_hour; savings_per_month := per_month;
             savings_percent := percent |};;
        evaluate_alternatives current_price rest best
  end.

(** The block [metrics = {...}; if check_metrics and state == 'running':
    metrics = self.get_instance_metrics(instance_id)]. *)
Definition measure (check_metrics : bool) (instance : Instance)
    : M World metrics :=
  if check_metrics && String.eqb (State_Name instance) "running"
  then get_instance_metrics (InstanceId instance) 14
  else ret no_metrics.

(** One iteration of the loop over the instances. The second component
    of the result is [best_savings_by_type] when the instance reaches
    the aggregation, and [None] when it is skipped by a [continue]. *)
Definition analyze_instance (check_metrics : bool) (instance : Instance)
    (acc : Totals) : M World (Totals * option defaultdict) :=
  let instance_id := InstanceId instance in
  let instance_type := InstanceType instance in
  let state := State_Name instance in
  if String.eqb state "terminated" then ret (acc, None)
  else
    current_price ← get_instance_price instance_type (Some self_region);
    if Qeq_bool current_price 0 then ret (acc, None)
    else
      let current_monthly := (current_price * 730)%Q in
      metrics ← measure check_metrics instance;
      let alternatives :=
        get_alternative_instances instance_type (cpu_avg metrics) in
      match alternatives with
      | [] => ret (acc, None)
      | _ :: _ =>
          let analyzed := S (instances_analyzed acc) in
          let current_cost := (total_current_cost acc + current_monthly)%Q in
          best ← evaluate_alternatives current_price alternatives [];
          totals ← lift (add_to_totals (total_potential_savings acc) best);
          ret ({| instances_analyzed := analyzed;
                  total_current_cost := current_cost;
                  total_potential_savings := totals |}, Some best)
      end.

(** The two nested loops, over the instances of the reservations in
    order, from given accumulators. *)
Fixpoint analyze_loop (check_metrics : bool) (instances : list Instance)
    (acc : Totals) : M World Totals :=
  match instances with
  | [] => ret acc
  | instance :: rest =>
      r ← analyze_instance check_metrics instance acc;
      analyze_loop check_metrics rest (fst r)
  end.

(** [analyze_instances], for the answer [reservations] of
    [describe_instances]; the result is the arguments given to
    [print_summary], or [None] when no instance was analyzed. *)
Definition analyze_instances (check_metrics : bool)
    (reservations : list (list Instance)) : M World (option Totals) :=
  acc ← analyze_loop check_metrics (concat reservations) initial_totals;
  if (instances_analyzed acc =? 0)%nat then ret None else ret (Some acc).

End Optimizer.

Definition empty_world : World :=
  {| pricing_cache := ∅; stdout := []; recommendations := [];
     pricing_calls := []; metrics_calls := [] |}.

(** *** The region chosen by [__init__] *)

(** [bool(s)] for [s] a string or [None]. *)
Definition truthy (s : option string) : bool :=
  match s with
  | Some s => negb (String.eqb s "")
  | None => false
  end.

(** [a or b] *)
Definition py_or (a b : option string) : option string :=
  if truthy a then a else b.

(** The value of [self.region] after [__init__], from the [region]
    argument, [session.region_name] and the two environment variables
    (each a string or [None]). *)
Definition init_region
    (region session_region_name AWS_DEFAULT_REGION AWS_REGION : option string)
    : option string :=
  if truthy region then region
  else
    if negb (truthy session_region_name) then
      py_or (py_or AWS_DEFAULT_REGION AWS_REGION) (Some "us-east-1")
    else session_region_name.

(** *** The summary *)

(** One of the three savings blocks of [print_summary]: the savings, their
    percentage of the current cost and the new cost. *)
Record summary_line : Type := {
  line_savings : Q;
  line_percent : Q;
  line_new_cost : Q
}.

(** What [print_summary] prints, kept as numbers instead of formatted
    text: the two header values, the blocks printed (or [None] for a block
    that is not), and the maximum with its percentage. *)
Record summary : Type := {
  summary_count : nat;
  summary_current_cost : Q;
  graviton_block : option summary_line;
  amd_block : option summary_line;
  downsize_block : option summary_line;
  maximum_block : option (Q * Q)
}.

(** [savings[c]] *)
Definition getitem (savings : gmap category Q) (c : category) : outcome Q :=
  match savings !! c with
  | Some v => Return v
  | None => Raise "KeyError"
  end.

(** [if savings[c] > 0: pct = (savings[c] / current_cost * 100); print(...)] *)
Definition savings_block (savings : gmap category Q) (c : category)
    (current_cost : Q) : outcome (option summary_line) :=
  v ← getitem savings c;
  if Qltb 0 v then
    q ← truediv v current_cost;
    Return (Some {| line_savings := v; line_percent := (q * 100)%Q;
                    line_new_cost := (current_cost - v)%Q |})
  else Return None.

(** [savings.values()]: the values of the keys present, in the order of
    the literal that creates the dictionary. *)
Definition values (savings : gmap category Q) : list Q :=
  omap (fun c => savings !! c) [graviton; amd; intel; downsize].

(** [max(xs)] *)
Definition py_max (xs : list Q) : outcome Q :=
  match xs with
  | [] => Raise "max() arg is an empty sequence"
  | x :: rest =>
      Return (fold_left (fun m y => if Qltb m y then y else m) rest x)
  end.

Definition print_summary (count : nat) (current_cost : Q)
    (savings : gmap category Q) : outcome summary :=
  g ← savings_block savings graviton current_cost;
  a ← savings_block savings amd current_cost;
  d ← savings_block savings downsize current_cost;
  max_savings ← py_max (values savings);
  m ← (if Qltb 0 max_savings then
         q ← truediv max_savings current_cost;
         Return (Some (max_savings, (q * 100)%Q))
       else Return None);
  Return {| summary_count := count; summary_current_cost := current_cost;
            graviton_block := g; amd_block := a; downsize_block := d;
            maximum_block := m |}.

(** [analyze_instances] with its last statement: the summary is printed
    unless no instance was analyzed. *)
Definition analyze_instances_summary
    (self_region : string) (pricing : pricing_client)
    (cloudwatch : cloudwatch_client) (check_metrics : bool)
    (reservations : list (list Instance)) : M World (option summary) :=
  r ← analyze_instances self_region pricing cloudwatch check_metrics reservations;
  match r with
  | None => ret None
  | Some acc =>
      report ← lift (print_summary (instances_analyzed acc)
                       (total_current_cost acc) (total_potential_savings acc));
      ret (Some report)
  end.

End Enhanced.


(** ** The basic script: [ec2-cost-optimizer.py] *)

Module Basic.

Definition pricing_map : gmap string Q :=
  list_to_map
    [ ("t3.nano", 0.0052%Q); ("t3.micro", 0.0104%Q); ("t3.small", 0.0208%Q);
      ("t3.medium", 0.0416%Q); ("t3.large", 0.0832%Q); ("t3.xlarge", 0.1664%Q);
      ("t3.2xlarge", 0.3328%Q);
      ("t3a.nano", 0.0047%Q); ("t3a.micro", 0.0094%Q); ("t3a.small", 0.0188%Q);
      ("t3a.medium", 0.0376%Q); ("t3a.large", 0.0752%Q); ("t3a.xlarge", 0.1504%Q);
      ("t3a.2xlarge", 0.3008%Q);
      ("t4g.nano", 0.0042%Q); ("t4g.micro", 0.0084%Q); ("t4g.small", 0.0168%Q);
      ("t4g.medium", 0.0336%Q); ("t4g.large", 0.0672%Q); ("t4g.xlarge", 0.1344%Q);
      ("t4g.2xlarge", 0.2688%Q);
      ("m5.large", 0.096%Q); ("m5.xlarge", 0.192%Q); ("m5.2xlarge", 0.384%Q);
      ("m6i.large", 0.096%Q); ("m6i.xlarge", 0.192%Q); ("m6i.2xlarge", 0.384%Q);
      ("m6a.large", 0.0864%Q); ("m6a.xlarge", 0.1728%Q); ("m6a.2xlarge", 0.3456%Q);
      ("m7g.medium", 0.0408%Q); ("m7g.large", 0.0816%Q); ("m7g.xlarge", 0.1632%Q) ].

Definition get_instance_pricing_estimate (instance_type : string) : Q :=
  default 0%Q (pricing_map !! instance_type).

(** [(alt_type, description)] *)
Definition alternative : Type := string * string.

Definition t3_to_alternatives : gmap string (list alternative) :=
  list_to_map
    [ ("t3.nano", [("t4g.nano", "Graviton2 ARM"); ("t3a.nano", "AMD")]);
      ("t3.micro", [("t4g.micro", "Graviton2 ARM"); ("t3a.micro", "AMD")]);
      ("t3.small", [("t4g.small", "Graviton2 ARM"); ("t3a.small", "AMD")]);
      ("t3.medium", [("t4g.medium", "Graviton2 ARM"); ("t3a.medium", "AMD")]);
      ("t3.large", [("t4g.large", "Graviton2 ARM"); ("t3a.large", "AMD")]);
      ("t3.xlarge", [("t4g.xlarge", "Graviton2 ARM"); ("t3a.xlarge", "AMD")]);
      ("t3.2xlarge", [("t4g.2xlarge", "Graviton2 ARM"); ("t3a.2xlarge", "AMD")]) ].

Definition m5_to_alternatives : gmap string (list alternative) :=
  list_to_map
    [ ("m5.large",
       [("m7g.large", "Graviton3"); ("m6a.large", "AMD"); ("m6i.large", "Intel 6th gen")]);
      ("m5.xlarge",
       [("m7g.xlarge", "Graviton3"); ("m6a.xlarge", "AMD"); ("m6i.xlarge", "Intel 6th gen")]);
      ("m5.2xlarge",
       [("m7g.2xlarge", "Graviton3"); ("m6a.2xlarge", "AMD");
        ("m6i.2xlarge", "Intel 6th gen")]) ].

Definition get_alternative_instances (current_type : string) : list alternative :=
  match t3_to_alternatives !! current_type with
  | Some alternatives => alternatives
  | None =>
      match m5_to_alternatives !! current_type with
      | Some alternatives => alternatives
      | None => []
      end
  end.

(** ['graviton' in description.lower() or 'arm' in description.lower()] *)
Definition is_graviton (description : string) : bool :=
  contains "graviton" (lower description) || contains "arm" (lower description).

(** The accumulators of [main]. *)
Record Totals : Type := {
  instances_analyzed : nat;
  total_current_cost : Q;
  total_graviton_savings : Q;
  total_non_graviton_savings : Q
}.

Definition initial_totals : Totals :=
  {| instances_analyzed := 0; total_current_cost := 0;
     total_graviton_savings := 0; total_non_graviton_savings := 0 |}.

(** The loop [for alt_type, description in alternatives]; the result is
    [(best_graviton_savings, best_non_graviton_savings)]. *)
Fixpoint evaluate_alternatives (current_price : Q) (alternatives : list alternative)
    (best_graviton_savings best_non_graviton_savings : Q) : outcome (Q * Q) :=
  match alternatives with
  | [] => Return (best_graviton_savings, best_non_graviton_savings)
  | (alt_type, description) :: rest =>
      let alt_price := get_instance_pricing_estimate alt_type in
      if Qeq_bool alt_price 0 then
        evaluate_alternatives current_price rest
          best_graviton_savings best_non_graviton_savings
      else
        let savings_per_hour := (current_price - alt_price)%Q in
        let savings_per_month := (savings_per_hour * 730)%Q in
        match compute_savings_percent savings_per_hour current_price with
        | Raise e => Raise e
        | Return savings_percent =>
            if is_graviton description then
              evaluate_alternatives current_price rest
                (if Qltb best_graviton_savings savings_per_month
                 then savings_per_month else best_graviton_savings)
                best_non_graviton_savings
            else
              evaluate_alternatives current_price rest
                best_graviton_savings
                (if Qltb best_non_graviton_savings savings_per_month
                 then savings_per_month else best_non_graviton_savings)
        end
  end.

(** One iteration of the loop over the instances. The second component of
    the result is the pair of best savings when the instance reaches the
    aggregation, and [None] when it is skipped by the [continue]. *)
Definition analyze_instance (instance : Instance) (acc : Totals)
    : outcome (Totals * option (Q * Q)) :=
  let instance_type := InstanceType instance in
  let current_price := get_instance_pricing_estimate instance_type in
  let current_monthly := (current_price * 730)%Q in
  let alternatives := get_alternative_instances instance_type in
  match alternatives with
  | [] => Return (acc, None)
  | _ :: _ =>
      match evaluate_alternatives current_price alternatives 0%Q 0%Q with
      | Raise e => Raise e
      | Return (best_graviton_savings, best_non_graviton_savings) =>
          Return
            ({| instances_analyzed := S (instances_analyzed acc);
                total_current_cost := (total_current_cost acc + current_monthly)%Q;
                total_graviton_savings :=
                  (total_graviton_savings acc + best_graviton_savings)%Q;
                total_non_graviton_savings :=
                  (total_non_graviton_savings acc + best_non_graviton_savings)%Q |},
             Some (best_graviton_savings, best_non_graviton_savings))
      end
  end.

(** The two nested loops of [main], over the instances of the
    reservations in order, from given accumulators. *)
Fixpoint analyze_loop (instances : list Instance) (acc : Totals) : outcome Totals :=
  match instances with
  | [] => Return acc
  | instance :: rest =>
      match analyze_instance instance acc with
      | Raise e => Raise e
      | Return r => analyze_loop rest (fst r)
      end
  end.

Definition main_totals (reservations : list (list Instance)) : outcome Totals :=
  analyze_loop (concat reservations) initial_totals.

(** One of the two savings blocks of the summary of [main]: the savings,
    their percentage of the current cost and the new cost. *)
Record summary_line : Type := {
  line_savings : Q;
  line_percent : Q;
  line_new_cost : Q
}.

(** [if total > 0: pct = (total / total_current_cost * 100) if
    total_current_cost > 0 else 0; new_cost = total_current_cost - total] *)
Definition savings_block (total total_current_cost : Q)
    : outcome (option summary_line) :=
  if Qltb 0 total then
    pct ← (if Qltb 0 total_current_cost then
             q ← truediv total total_current_cost;
             Return (q * 100)%Q
           else Return 0%Q);
    Return (Some {| line_savings := total; line_percent := pct;
                    line_new_cost := (total_current_cost - total)%Q |})
  else Return None.

(** The end of [main]: [None] stands for the message that no recommendation
    is available, otherwise the two blocks of the summary. *)
Definition main_summary (reservations : list (list Instance))
    : outcome (option (Totals * option summary_line * option summary_line)) :=
  acc ← main_totals reservations;
  if (instances_analyzed acc =? 0)%nat then Return None
  else
    g ← savings_block (total_graviton_savings acc) (total_current_cost acc);
    n ← savings_block (total_non_graviton_savings acc) (total_current_cost acc);
    Return (Some (acc, g, n)).

End Basic.

(** ** Notions used in the statements *)

Module Spec.

(** The [family.size] pattern in its weakest reading: exactly two parts
    around one separator, neither of them empty. *)
Definition matches_family_size (s : string) : bool :=
  match split_dot s with
  | [family; size] => negb (String.eqb family "") && negb (String.eqb size "")
  | _ => false
  end.

(** The price found in an answer of the Pricing client, if any: the
    first item of the price list, when it decodes. There is none when the
    call raises, when no SKU matches (the price list is empty) or when the
    first item does not decode. *)
Definition first_price (response : outcome (list (outcome Q))) : option Q :=
  match response with
  | Return (Return price :: _) => Some price
  | _ => None
  end.

(** What the resolver prints for an answer without a price: a warning for
    an exception, nothing for an empty price list. *)
Definition failure_report (instance_type : string)
    (response : outcome (list (outcome Q))) : list string :=
  match response with
  | Raise e => [Enhanced.price_warning instance_type e]
  | Return (Raise e :: _) => [Enhanced.price_warning instance_type e]
  | _ => []
  end.

(** A Pricing client whose first call times out and which then answers
    every request with one price. *)
Definition flaky_pricing : Enhanced.pricing_client :=
  fun served _ _ =>
    match served with
    | O => Raise "timeout"
    | S _ => Return [Return 0.0832%Q]
    end.

(** A terminated instance, as [describe_instances] lists it for a while
    after its termination. *)
Definition terminated_t3_large : Instance :=
  {| InstanceId := "i-0123456789abcdef0"; InstanceType := "t3.large";
     State_Name := "terminated"; Tags := None |}.

(** A small fleet: a running [m5.large] and a stopped [t3a.large]. *)
Definition m5_large_running : Instance :=
  {| InstanceId := "i-0aaaaaaaaaaaaaaa1"; InstanceType := "m5.large";
     State_Name := "running"; Tags := Some [("Name", "api")] |}.

Definition t3a_large_stopped : Instance :=
  {| InstanceId := "i-0aaaaaaaaaaaaaaa2"; InstanceType := "t3a.large";
     State_Name := "stopped"; Tags := None |}.

(** A CloudWatch client that reports two hourly buckets of low load. *)
Definition idle_cloudwatch : Enhanced.cloudwatch_client :=
  fun _ _ _ =>
    Return [ {| Enhanced.Average := 10; Enhanced.Maximum := 30 |};
             {| Enhanced.Average := 14; Enhanced.Maximum := 50 |} ].

(** A Pricing client that answers with the estimates of the basic
    script. *)
Definition table_pricing : Enhanced.pricing_client :=
  fun _ instance_type _ =>
    match Basic.pricing_map !! instance_type with
    | Some price => Return [Return price]
    | None => Return []
    end.

(** A Pricing client that finds no SKU. *)
Definition no_sku_pricing : Enhanced.pricing_client :=
  fun _ _ _ => Return [].

(** A Pricing client that always raises. *)
Definition failing_pricing : Enhanced.pricing_client :=
  fun _ _ _ => Raise "timeout".

(** The number written by the decimal digits at the front of a string,
    read from left to right onto [acc], and the rest of the string. *)
Fixpoint read_nat (s : string) (acc : N) : N * string :=
  match s with
  | EmptyString => (acc, EmptyString)
  | String c rest =>
      match Ascii.is_nat c with
      | Some d => read_nat rest (acc * 10 + N.of_nat d)%N
      | None => (acc, s)
      end
  end.

(** Whether the first character of a string is a minus sign. *)
Definition starts_with_dash (s : string) : bool :=
  match s with
  | String c _ => Ascii.eqb c "-"%char
  | EmptyString => false
  end.

(** The value of a numeral with one decimal: an optional minus sign, decimal
    digits, a point and one digit; [None] for a string of another shape. *)
Definition read_1f (s : string) : option Q :=
  let negative := starts_with_dash s in
  let body :=
    if negative
    then match s with String _ rest => rest | EmptyString => EmptyString end
    else s in
  let '(whole, rest) := read_nat body 0%N in
  match rest with
  | String point (String c EmptyString) =>
      if Ascii.eqb point "."%char then
        match Ascii.is_nat c with
        | Some d =>
            let v := (inject_Z (Z.of_N whole) + inject_Z (Z.of_nat d) / 10)%Q in
            Some (if negative then (- v)%Q else v)
        | None => None
        end
      else None
  | _ => None
  end.

(** The state [w] with other recommendation rows. *)
Definition set_recommendations (rows : list Enhanced.savings_entry)
    (w : Enhanced.World) : Enhanced.World :=
  {| Enhanced.pricing_cache := Enhanced.pricing_cache w;
     Enhanced.stdout := Enhanced.stdout w;
     Enhanced.recommendations := rows;
     Enhanced.pricing_calls := Enhanced.pricing_calls w;
     Enhanced.metrics_calls := Enhanced.metrics_calls w |}.

(** The prices the resolver returns for a list of instance types, each one
    resolved in the state that the resolution before it left, and the
    state after the last one. *)
Fixpoint resolve_prices (self_region : string) (pricing : Enhanced.pricing_client)
    (types : list string) (w : Enhanced.World) : list Q * Enhanced.World :=
  match types with
  | [] => ([], w)
  | instance_type :: rest =>
      let resolved :=
        Enhanced.get_instance_price self_region pricing instance_type
          (Some self_region) w in
      let others := resolve_prices self_region pricing rest (snd resolved) in
      (match fst resolved with Return price => price | Raise _ => 0%Q end
         :: fst others,
       snd others)
  end.

(** The row of an alternative whose price resolved to [price]: none when
    the price is 0. *)
Definition row_of (current_price : Q) (a : Enhanced.alternative) (price : Q)
    : option Enhanced.savings_entry :=
  if Qeq_bool price 0 then None
  else
    Some {| Enhanced.alt_type := a.1.1;
            Enhanced.description := a.1.2;
            Enhanced.entry_category := a.2;
            Enhanced.alt_price := price;
            Enhanced.savings_per_hour := (current_price - price)%Q;
            Enhanced.savings_per_month := ((current_price - price) * 730)%Q;
            Enhanced.savings_percent :=
              if Qltb 0 current_price
              then ((current_price - price) / current_price * 100)%Q
              else 0%Q |}.

(** The rows of a list of alternatives, given the price resolved for each
    of them. *)
Definition rows_of (current_price : Q) (alternatives : list Enhanced.alternative)
    (prices : list Q) : list Enhanced.savings_entry :=
  omap (λ priced, row_of current_price priced.1 priced.2)
    (zip alternatives prices).

(** The best savings tracked over a list of rows, from [best]. *)
Definition track_rows (rows : list Enhanced.savings_entry)
    (best : Enhanced.defaultdict) : Enhanced.defaultdict :=
  fold_left
    (λ b row,
       Enhanced.track_best b (Enhanced.entry_category row)
         (Enhanced.savings_per_month row))
    rows best.

End Spec.

(** ** Strings *)

Section Strings.

Lemma split_dot_not_nil (s : string) : split_dot s ≠ [].
Proof.
  destruct s as [|c rest]; simpl; [discriminate|].
  destruct (Ascii.eqb c "."); [discriminate|].
  destruct (split_dot rest); discriminate.
Qed.

Lemma split_dot_one (s part : string) : split_dot s = [part] → s = part.
Proof.
  revert part. induction s as [|c rest IH]; intros part; simpl.
  - congruence.
  - destruct (Ascii.eqb c ".").
    + intros H. injection H as _ H. by apply split_dot_not_nil in H.
    + destruct (split_dot rest) as [|p ps] eqn:E;
        [by apply split_dot_not_nil in E|].
      intros H. injection H as <- ->. by rewrite (IH p eq_refl).
Qed.

Lemma split_dot_two (s family size : string) :
  split_dot s = [family; size] → s = family +:+ "." +:+ size.
Proof.
  revert family. induction s as [|c rest IH]; intros family; simpl.
  - congruence.
  - destruct (Ascii.eqb_spec c ".") as [->|_].
    + intros H. injection H as <- H. by rewrite (split_dot_one _ _ H).
    + destruct (split_dot rest) as [|p ps] eqn:E;
        [by apply split_dot_not_nil in E|].
      intros H. injection H as <- ->. by rewrite (IH p eq_refl).
Qed.

(** A string without separator is one part. *)
Lemma split_dot_no_dot (s : string) :
  contains "." s = false → split_dot s = [s].
Proof.
  induction s as [|c rest IH]; [done|].
  change (contains "." (String c rest))
    with (String.prefix "." (String c rest) || contains "." rest).
  intros [Hhead Hrest]%orb_false_elim.
  cbn [split_dot]. destruct (Ascii.eqb_spec c ".") as [->|_].
  - by destruct rest.
  - by rewrite (IH Hrest).
Qed.

Lemma prefix_append (sub post : string) : String.prefix sub (sub +:+ post) = true.
Proof.
  induction sub as [|c sub IH]; simpl.
  - by destruct post.
  - destruct (ascii_dec c c) as [_|Hne]; [exact IH|by destruct Hne].
Qed.

Lemma contains_prefix (sub s : string) :
  String.prefix sub s = true → contains sub s = true.
Proof. destruct s; simpl; intros ->; done. Qed.

Lemma contains_append (pre sub post : string) :
  contains sub (pre +:+ sub +:+ post) = true.
Proof.
  induction pre as [|c pre IH].
  - apply contains_prefix. exact (prefix_append sub post).
  - change (String.prefix sub (String c (pre +:+ sub +:+ post))
            || contains sub (pre +:+ sub +:+ post) = true).
    rewrite IH. apply orb_true_r.
Qed.

End Strings.

(** ** Arithmetic on prices *)

Section Prices.

Lemma Qltb_lt (a b : Q) : Qltb a b = true ↔ (a < b)%Q.
Proof.
  unfold Qltb. rewrite negb_true_iff, <- not_true_iff_false, Qle_bool_iff.
  split; [apply Qnot_le_lt | apply Qlt_not_le].
Qed.

Lemma Qltb_ge (a b : Q) : Qltb a b = false ↔ (b <= a)%Q.
Proof. unfold Qltb. rewrite negb_false_iff. apply Qle_bool_iff. Qed.

End Prices.

(** ** Numbers written with one decimal *)

Section Formatting.

Lemma is_nat_pretty_N_char (d : N) :
  (d < 10)%N → Ascii.is_nat (pretty_N_char d) = Some (N.to_nat d).
Proof.
  intros Hd.
  assert (d = 0 ∨ d = 1 ∨ d = 2 ∨ d = 3 ∨ d = 4 ∨ d = 5 ∨ d = 6 ∨ d = 7
          ∨ d = 8 ∨ d = 9)%N as Hcases by lia.
  repeat (destruct Hcases as [-> | Hcases]; [reflexivity|]).
  subst d. reflexivity.
Qed.

Lemma pretty_N_go_app (x : N) (s r : string) :
  pretty_N_go x s +:+ r = pretty_N_go x (s +:+ r).
Proof.
  revert s. induction (N.lt_wf_0 x) as [x _ IH]; intros s.
  assert (x = 0 ∨ 0 < x)%N as [-> | Hpos] by lia.
  - by rewrite !pretty_N_go_0.
  - rewrite (pretty_N_go_step x s), (pretty_N_go_step x (s +:+ r)) by done.
    rewrite IH by (by apply N.div_lt). reflexivity.
Qed.

Lemma read_nat_pretty_N_go (x : N) (s : string) :
  Spec.read_nat (pretty_N_go x s) 0 = Spec.read_nat s x.
Proof.
  revert s. induction (N.lt_wf_0 x) as [x _ IH]; intros s.
  assert (x = 0 ∨ 0 < x)%N as [-> | Hpos] by lia.
  - by rewrite pretty_N_go_0.
  - rewrite pretty_N_go_step by done.
    rewrite IH by (by apply N.div_lt).
    cbn [Spec.read_nat].
    rewrite is_nat_pretty_N_char by (by apply N.mod_lt).
    f_equal. pose proof (N.div_mod x 10). lia.
Qed.

Lemma read_nat_pretty (n : N) (rest : string) :
  (∀ acc, Spec.read_nat rest acc = (acc, rest)) →
  Spec.read_nat (pretty n +:+ rest) 0 = (n, rest).
Proof.
  intros Hrest. unfold pretty, pretty_N. case_decide as Hn.
  - subst n. change ("0" +:+ rest) with (String "0" rest).
    cbn [Spec.read_nat]. apply Hrest.
  - by rewrite pretty_N_go_app, read_nat_pretty_N_go.
Qed.

Lemma dash_pretty (n : N) (rest : string) :
  Spec.starts_with_dash rest = false →
  Spec.starts_with_dash (pretty n +:+ rest) = false.
Proof.
  intros Hrest. unfold pretty, pretty_N. case_decide as Hn; [reflexivity|].
  rewrite pretty_N_go_app. change ("" +:+ rest) with rest.
  destruct (pretty_N_go n rest) as [|c s] eqn:Hs; [reflexivity|].
  cbn [Spec.starts_with_dash]. destruct (Ascii.eqb_spec c "-") as [-> | Hc]; [|done].
  exfalso. apply (pretty_N_go_ne_dash n rest s); [|exact Hs].
  intros Heq. change ("-" +:+ s) with (String "-" s) in Heq.
  rewrite Heq in Hrest. discriminate Hrest.
Qed.

Lemma pretty_Z_nonneg (z : Z) : (0 ≤ z)%Z → pretty z = pretty (Z.to_N z).
Proof. destruct z; [reflexivity | reflexivity | lia]. Qed.

Lemma pretty_digit (m : Z) :
  (0 ≤ m < 10)%Z → pretty m = String (pretty_N_char (Z.to_N m)) "".
Proof.
  intros Hm.
  assert (m = 0 ∨ m = 1 ∨ m = 2 ∨ m = 3 ∨ m = 4 ∨ m = 5 ∨ m = 6 ∨ m = 7
          ∨ m = 8 ∨ m = 9)%Z as Hcases by lia.
  repeat (destruct Hcases as [-> | Hcases]; [reflexivity|]).
  subst m. reflexivity.
Qed.

(** Rounding a number that is not negative gives an integer that is not
    negative, at most a half away from it. *)
Lemma round_half_even_near (q : Q) :
  (0 <= q)%Q →
  (0 ≤ round_half_even q)%Z
  ∧ (inject_Z (round_half_even q) - q <= 1 # 2)%Q
  ∧ (q - inject_Z (round_half_even q) <= 1 # 2)%Q.
Proof.
  intros Hq. unfold round_half_even.
  pose proof (Qfloor_le q) as Hlo. pose proof (Qlt_floor q) as Hhi.
  assert (0 ≤ Qfloor q)%Z as Hn.
  { change 0%Z with (Qfloor 0). by apply Qfloor_resp_le. }
  rewrite inject_Z_plus in Hhi. change (inject_Z 1) with 1%Q in Hhi.
  cbv zeta.
  destruct (Qcompare_spec (q - inject_Z (Qfloor q)) (1 # 2)) as [He | Hl | Hg].
  - destruct (Z.even (Qfloor q)).
    + split; [done|]. split; lra.
    + split; [lia|]. rewrite inject_Z_plus. change (inject_Z 1) with 1%Q.
      split; lra.
  - split; [done|]. split; lra.
  - split; [lia|]. rewrite inject_Z_plus. change (inject_Z 1) with 1%Q.
    split; lra.
Qed.

#[local] Ltac near_tenth :=
  match goal with
  | Hup : (inject_Z ?t - ?a * 10 <= 1 # 2)%Q,
    Hdown : (?a * 10 - inject_Z ?t <= 1 # 2)%Q,
    Habs : (?a == _)%Q |- _ =>
      revert Hup Hdown Habs; unfold Qdiv; change (/ 10)%Q with (1 # 10)%Q;
      generalize (inject_Z t); generalize a; intros; split; lra
  end.

(** The text [format_1f] writes is a numeral with one decimal, and the
    number it denotes is at most a twentieth away from the formatted one. *)
Lemma format_1f_value (q : Q) :
  ∃ shown : Q,
    Spec.read_1f (format_1f q) = Some shown
    ∧ (Qabs (shown - q) <= 1 # 20)%Q.
Proof.
  assert (0 <= Qabs q * 10)%Q as Hnn.
  { pose proof (Qabs_nonneg q). lra. }
  destruct (round_half_even_near _ Hnn) as (Ht & Hup & Hdown).
  unfold format_1f. cbv zeta.
  set (t := round_half_even (Qabs q * 10)) in *.
  assert (0 ≤ t / 10)%Z as Hhi by (apply Z.div_pos; lia).
  pose proof (Z.mod_pos_bound t 10 eq_refl) as Hlo.
  pose proof (Z.div_mod t 10 ltac:(lia)) as Ht10.
  rewrite (pretty_Z_nonneg _ Hhi), (pretty_digit _ Hlo).
  set (rest := "." +:+ String (pretty_N_char (Z.to_N (t `mod` 10))) "").
  assert (∀ acc, Spec.read_nat rest acc = (acc, rest)) as Hrest by done.
  assert (inject_Z (Z.of_N (Z.to_N (t / 10)))
          + inject_Z (Z.of_nat (N.to_nat (Z.to_N (t `mod` 10)))) / 10
          == inject_Z t / 10)%Q as Hvalue.
  { rewrite N_nat_Z, !Z2N.id by lia. rewrite Ht10 at 3.
    rewrite inject_Z_plus, inject_Z_mult. change (inject_Z 10) with 10%Q.
    field. }
  destruct (Qltb q 0) eqn:Hsign.
  - apply Qltb_lt in Hsign.
    eexists. split.
    + unfold Spec.read_1f.
      change ("-" +:+ pretty (Z.to_N (t / 10)) +:+ rest)
        with (String "-" (pretty (Z.to_N (t / 10)) +:+ rest)).
      cbv zeta. change (Spec.starts_with_dash (String "-" ?s)) with true.
      cbv iota. rewrite (read_nat_pretty _ _ Hrest).
      subst rest. change ("." +:+ ?s) with (String "." s).
      cbv iota. change (Ascii.eqb "." ".") with true. cbv iota.
      rewrite is_nat_pretty_N_char by lia. reflexivity.
    + cbv zeta. rewrite Hvalue.
      assert (Qabs q == - q)%Q as Habs by (apply Qabs_neg; lra).
      apply Qabs_Qle_condition. near_tenth.
  - apply Qltb_ge in Hsign.
    eexists. split.
    + unfold Spec.read_1f.
      change ("" +:+ pretty (Z.to_N (t / 10)) +:+ rest)
        with (pretty (Z.to_N (t / 10)) +:+ rest).
      rewrite (dash_pretty _ rest eq_refl). cbv zeta iota.
      rewrite (read_nat_pretty _ _ Hrest).
      subst rest. change ("." +:+ ?s) with (String "." s).
      cbv iota. change (Ascii.eqb "." ".") with true. cbv iota.
      rewrite is_nat_pretty_N_char by lia. reflexivity.
    + cbv zeta. rewrite Hvalue.
      assert (Qabs q == q)%Q as Habs by (apply Qabs_pos; lra).
      apply Qabs_Qle_condition. near_tenth.
Qed.

Example format_1f_rounds :
  format_1f (37 # 3) = "12.3"
  ∧ Spec.read_1f "12.3" = Some (123 # 10)%Q
  ∧ format_1f (- (1 # 4)) = "-0.2"
  ∧ Spec.read_1f "-0.2" = Some (- (2 # 10))%Q
  ∧ format_1f (1999 # 100) = "20.0".
Proof. vm_compute. repeat split; reflexivity. Qed.

Example read_1f_rejects :
  Spec.read_1f "12" = None
  ∧ Spec.read_1f "12.34" = None
  ∧ Spec.read_1f "low" = None.
Proof. vm_compute. repeat split; reflexivity. Qed.

End Formatting.

(** ** The alternative generator *)

Section Generator.

Import Enhanced.

(** C2, as stated, fails: a type with two parts of which one is not a
    family or a size (here the size is empty) still gets alternatives. *)
Lemma C2_counterexample :
  ¬ (∀ (s : string) (cpu_avg : option Q),
       Spec.matches_family_size s = false →
       get_alternative_instances s cpu_avg = []).
Proof.
  intros H. specialize (H "t3." None eq_refl). discriminate H.
Qed.

(** A family absent from the rules is not rejected either: with a low
    utilization the downsize rule still applies to it. *)
Lemma unknown_family_downsized :
  get_alternative_instances "x9.large" (Some 5%Q)
  = [ ("x9.medium", "Downsize (low CPU: 5.0%)", downsize) ].
Proof. vm_compute. reflexivity. Qed.

(** C2 (amended): an instance type that [split('.')] does not cut into
    exactly two parts gets no alternative, whatever the utilization
    average is. *)
Theorem C2_not_two_parts_no_alternatives (s : string) (cpu_avg : option Q) :
  length (split_dot s) ≠ 2 →
  get_alternative_instances s cpu_avg = [].
Proof.
  unfold get_alternative_instances.
  destruct (split_dot s) as [|family [|size [|extra parts]]]; simpl; try done.
Qed.

Lemma C2_not_two_parts_witness :
  length (split_dot "m5.x.large") ≠ 2
  ∧ get_alternative_instances "m5.x.large" (Some 5%Q) = [].
Proof.
  split; [simpl; lia|].
  apply (C2_not_two_parts_no_alternatives "m5.x.large" (Some 5%Q)).
  simpl; lia.
Defined.

(** C7: for a type of two parts, a utilization average below 20 and a size
    with an entry in the downsize table, the alternatives are not empty,
    the last one is the same family at the smaller size in the downsize
    category, and its rationale contains the average formatted with one
    decimal: a numeral with one decimal whose value is at most 0.05 away
    from the average. *)
Theorem C7_low_utilization_downsize
    (current_type family size smaller_size : string) (avg : Q) :
  split_dot current_type = [family; size] →
  (avg < 20)%Q →
  downsize_map !! size = Some smaller_size →
  get_alternative_instances current_type (Some avg) ≠ []
  ∧ last (get_alternative_instances current_type (Some avg))
    = Some (family +:+ "." +:+ smaller_size,
            "Downsize (low CPU: " +:+ format_1f avg +:+ "%)",
            downsize)
  ∧ contains (format_1f avg)
      ("Downsize (low CPU: " +:+ format_1f avg +:+ "%)") = true
  ∧ ∃ shown : Q,
      Spec.read_1f (format_1f avg) = Some shown
      ∧ (Qabs (shown - avg) <= 1 # 20)%Q.
Proof.
  intros Hparts Hlow Hsize.
  unfold get_alternative_instances, downsize_alternatives.
  rewrite Hparts, Hsize. apply Qltb_lt in Hlow. rewrite Hlow.
  split; [|split; [|split]].
  - destruct (family_alternatives family size); discriminate.
  - apply last_snoc.
  - apply contains_append.
  - apply format_1f_value.
Qed.

Lemma C7_low_utilization_witness :
  get_alternative_instances "t3.large" (Some 12%Q) ≠ []
  ∧ last (get_alternative_instances "t3.large" (Some 12%Q))
    = Some ("t3" +:+ "." +:+ "medium",
            "Downsize (low CPU: " +:+ format_1f 12%Q +:+ "%)",
            downsize)
  ∧ contains (format_1f 12%Q)
      ("Downsize (low CPU: " +:+ format_1f 12%Q +:+ "%)") = true
  ∧ ∃ shown : Q,
      Spec.read_1f (format_1f 12%Q) = Some shown
      ∧ (Qabs (shown - 12) <= 1 # 20)%Q.
Proof.
  apply (C7_low_utilization_downsize "t3.large" "t3" "large" "medium" 12%Q).
  - reflexivity.
  - reflexivity.
  - vm_compute. reflexivity.
Defined.

Example downsize_rationale_12 :
  last (get_alternative_instances "t3.large" (Some 12%Q))
  = Some ("t3.medium", "Downsize (low CPU: 12.0%)", downsize).
Proof. vm_compute. reflexivity. Qed.

(** C10: an instance type that parses to the family [t3a] and a size
    falls under the prefix rule of the [t3] family, and the second
    alternative generated for it is the instance type itself. *)
Theorem C10_t3a_offered_itself
    (current_type size : string) (cpu_avg : option Q) :
  split_dot current_type = ["t3a"; size] →
  startswith "t3a" "t3" = true
  ∧ get_alternative_instances current_type cpu_avg !! 1%nat
    = Some (current_type, "AMD - 10% cheaper", amd).
Proof.
  intros Hparts. split; [reflexivity|].
  unfold get_alternative_instances. rewrite Hparts.
  by rewrite (split_dot_two _ _ _ Hparts).
Qed.

Lemma C10_t3a_witness :
  startswith "t3a" "t3" = true
  ∧ get_alternative_instances "t3a.large" None !! 1%nat
    = Some ("t3a.large", "AMD - 10% cheaper", amd).
Proof.
  apply (C10_t3a_offered_itself "t3a.large" "large" None). reflexivity.
Defined.

(** The same for every size written without a separator; with one more
    separator the type has three parts and gets no alternative. *)
Lemma t3a_every_size (size : string) (cpu_avg : option Q) :
  contains "." size = false →
  get_alternative_instances ("t3a." +:+ size) cpu_avg !! 1%nat
  = Some ("t3a." +:+ size, "AMD - 10% cheaper", amd).
Proof.
  intros Hsize. unfold get_alternative_instances.
  assert (split_dot ("t3a." +:+ size) = ["t3a"; size]) as ->.
  { simpl. change ("" +:+ size) with size.
    by rewrite (split_dot_no_dot size Hsize). }
  reflexivity.
Qed.

Example t3a_three_parts :
  get_alternative_instances "t3a.x.large" (Some 5%Q) = [].
Proof. reflexivity. Qed.

End Generator.

(** ** The price resolver *)

Section PriceResolver.

Import Enhanced.

Variable self_region : string.
Variable pricing : pricing_client.

(** What one call of the resolver does, by cases on the cache and on the
    answer of the Pricing client. *)
Lemma get_instance_price_unfold
    (instance_type : string) (region : option string) (w : World) :
  get_instance_price self_region pricing instance_type region w
  = let r := default self_region region in
    match pricing_cache w !! cache_key instance_type r with
    | Some price => (Return price, w)
    | None =>
        let response :=
          pricing (length (pricing_calls w)) instance_type (region_name r) in
        (Return (default 0%Q (Spec.first_price response)),
         {| pricing_cache :=
              match Spec.first_price response with
              | Some price =>
                  <[cache_key instance_type r := price]> (pricing_cache w)
              | None => pricing_cache w
              end;
            stdout := stdout w ++ Spec.failure_report instance_type response;
            recommendations := recommendations w;
            pricing_calls :=
              pricing_calls w ++ [(instance_type, region_name r)];
            metrics_calls := metrics_calls w |})
    end.
Proof.
  unfold get_instance_price, mbind, M_bind, bind, gets, try_except,
    get_products, lift, print, modify, ret; simpl.
  destruct (pricing_cache w !! _) as [price|]; [reflexivity|].
  destruct (pricing _ _ _) as [[|[price|e] items]|e]; simpl;
    rewrite ?app_nil_r; reflexivity.
Qed.

(** The resolver never raises. *)
Lemma get_instance_price_returns
    (instance_type : string) (region : option string) (w : World) :
  ∃ price w',
    get_instance_price self_region pricing instance_type region w
    = (Return price, w')
    ∧ recommendations w' = recommendations w
    ∧ metrics_calls w' = metrics_calls w.
Proof.
  rewrite get_instance_price_unfold; simpl.
  destruct (pricing_cache w !! _); eauto.
Qed.

(** C5 (amended): when the price is not cached and the Pricing client
    raises, or returns a first item that does not decode, the resolver
    prints a warning and returns 0; when the client finds no matching SKU
    the resolver returns 0 and prints nothing. In no case does it raise. *)
Theorem C5_failed_lookup_returns_zero
    (instance_type : string) (region : option string) (w : World) :
  pricing_cache w !! cache_key instance_type (default self_region region) = None →
  Spec.first_price
    (pricing (length (pricing_calls w)) instance_type
       (region_name (default self_region region))) = None →
  ∃ w',
    get_instance_price self_region pricing instance_type region w
    = (Return 0%Q, w')
    ∧ stdout w'
      = stdout w
          ++ Spec.failure_report instance_type
               (pricing (length (pricing_calls w)) instance_type
                  (region_name (default self_region region))).
Proof.
  intros Hmiss Hfail. rewrite get_instance_price_unfold; simpl.
  rewrite Hmiss, Hfail. eauto.
Qed.

(** C9: a lookup that yields no price leaves the cache as it was, and the
    next resolution of the same type and region sends the request to the
    Pricing client again. *)
Theorem C9_failed_lookup_not_cached
    (instance_type : string) (region : option string) (w : World) :
  pricing_cache w !! cache_key instance_type (default self_region region) = None →
  Spec.first_price
    (pricing (length (pricing_calls w)) instance_type
       (region_name (default self_region region))) = None →
  ∃ w' price' w'',
    get_instance_price self_region pricing instance_type region w
    = (Return 0%Q, w')
    ∧ pricing_cache w' = pricing_cache w
    ∧ get_instance_price self_region pricing instance_type region w'
      = (Return price', w'')
    ∧ pricing_calls w''
      = pricing_calls w'
          ++ [(instance_type, region_name (default self_region region))].
Proof.
  intros Hmiss Hfail.
  rewrite get_instance_price_unfold; simpl. rewrite Hmiss, Hfail; simpl.
  eexists _, _, _. split; [reflexivity|]. split; [reflexivity|].
  rewrite get_instance_price_unfold; simpl. rewrite Hmiss.
  split; reflexivity.
Qed.

(** C3 (amended): when the first resolution finds a price, in the cache
    or at the Pricing client, a second resolution of the same type and
    region returns the same price and changes nothing: it sends no
    request to the Pricing client. *)
Theorem C3_second_resolution_cached
    (instance_type : string) (region : option string) (w : World) :
  is_Some (pricing_cache w !! cache_key instance_type (default self_region region))
  ∨ is_Some
      (Spec.first_price
         (pricing (length (pricing_calls w)) instance_type
            (region_name (default self_region region)))) →
  ∃ price w',
    get_instance_price self_region pricing instance_type region w
    = (Return price, w')
    ∧ get_instance_price self_region pricing instance_type region w'
      = (Return price, w')
    ∧ pricing_calls
        (snd (get_instance_price self_region pricing instance_type region w'))
      = pricing_calls w'.
Proof.
  intros Hfound.
  rewrite get_instance_price_unfold; simpl.
  destruct (pricing_cache w !! _) as [price|] eqn:Hcache.
  - exists price, w.
    rewrite get_instance_price_unfold; simpl. by rewrite Hcache.
  - destruct Hfound as [[? ?]|[price Hprice]]; [done|].
    rewrite Hprice; simpl. eexists _, _. split; [reflexivity|].
    rewrite get_instance_price_unfold; simpl.
    by rewrite lookup_insert_eq.
Qed.

End PriceResolver.

Section PriceResolverExamples.

Import Enhanced.

(** C5, as stated, fails: when no SKU matches, the resolver returns 0 and
    reports nothing. *)
Lemma C5_counterexample :
  ¬ (∀ (self_region : string) (pricing : pricing_client)
       (instance_type : string) (region : option string) (w : World),
       pricing_cache w !! cache_key instance_type (default self_region region)
       = None →
       Spec.first_price
         (pricing (length (pricing_calls w)) instance_type
            (region_name (default self_region region))) = None →
       ∃ w',
         get_instance_price self_region pricing instance_type region w
         = (Return 0%Q, w')
         ∧ stdout w' ≠ stdout w).
Proof.
  intros H.
  destruct (H "us-east-1" Spec.no_sku_pricing "m5.large" None empty_world
              eq_refl eq_refl) as (w' & Hrun & Hout).
  injection Hrun as <-. by apply Hout.
Qed.

Lemma C5_failed_lookup_witness :
  ∃ w',
    get_instance_price "us-east-1" Spec.failing_pricing "m5.large" None
      empty_world
    = (Return 0%Q, w')
    ∧ stdout w'
      = stdout empty_world
          ++ Spec.failure_report "m5.large"
               (Spec.failing_pricing (length (pricing_calls empty_world))
                  "m5.large" (region_name (default "us-east-1" None))).
Proof.
  apply (C5_failed_lookup_returns_zero "us-east-1" Spec.failing_pricing
           "m5.large" None empty_world); reflexivity.
Defined.

Example failing_pricing_warning :
  stdout
    (snd (get_instance_price "us-east-1" Spec.failing_pricing "m5.large" None
            empty_world))
  = ["Warning: Could not fetch price for m5.large: timeout"].
Proof. vm_compute. reflexivity. Qed.

Lemma C9_failed_lookup_witness :
  ∃ w' price' w'',
    get_instance_price "us-east-1" Spec.flaky_pricing "t3.large" None
      empty_world
    = (Return 0%Q, w')
    ∧ pricing_cache w' = pricing_cache empty_world
    ∧ get_instance_price "us-east-1" Spec.flaky_pricing "t3.large" None w'
      = (Return price', w'')
    ∧ pricing_calls w''
      = pricing_calls w'
          ++ [("t3.large", region_name (default "us-east-1" None))].
Proof.
  apply (C9_failed_lookup_not_cached "us-east-1" Spec.flaky_pricing
           "t3.large" None empty_world); reflexivity.
Defined.

(** C3, as stated, fails: after a first resolution that found no price,
    the second one asks the Pricing client again and may return another
    price. *)
Lemma C3_counterexample :
  ¬ (∀ (self_region : string) (pricing : pricing_client)
       (instance_type : string) (region : option string) (w : World),
       let first := get_instance_price self_region pricing instance_type region w in
       let second :=
         get_instance_price self_region pricing instance_type region (snd first) in
       fst second = fst first
       ∧ pricing_calls (snd second) = pricing_calls (snd first)).
Proof.
  intros H.
  destruct (H "us-east-1" Spec.flaky_pricing "t3.large" None empty_world)
    as [Hprice _].
  vm_compute in Hprice. discriminate Hprice.
Qed.

Lemma C3_second_resolution_witness :
  ∃ price w',
    get_instance_price "us-east-1" Spec.flaky_pricing "t3.large" None
      (snd (get_instance_price "us-east-1" Spec.flaky_pricing "t3.large" None
              empty_world))
    = (Return price, w')
    ∧ get_instance_price "us-east-1" Spec.flaky_pricing "t3.large" None w'
      = (Return price, w')
    ∧ pricing_calls
        (snd (get_instance_price "us-east-1" Spec.flaky_pricing "t3.large"
                None w'))
      = pricing_calls w'.
Proof.
  apply (C3_second_resolution_cached "us-east-1" Spec.flaky_pricing
           "t3.large" None).
  right. exists 0.0832%Q. reflexivity.
Defined.

End PriceResolverExamples.

(** ** The utilization summary *)

Section Metrics.

Import Enhanced.

(** C6: when the CloudWatch client raises, [get_instance_metrics] returns
    what it returns for an answer without datapoints: no average, no
    maximum, and [has_data] false. *)
Theorem C6_metrics_failure_like_no_samples
    (failing empty : cloudwatch_client) (instance_id : string) (days : nat)
    (w1 w2 : World) (e : string) :
  failing (length (metrics_calls w1)) instance_id days = Raise e →
  empty (length (metrics_calls w2)) instance_id days = Return [] →
  fst (get_instance_metrics failing instance_id days w1)
  = fst (get_instance_metrics empty instance_id days w2)
  ∧ fst (get_instance_metrics failing instance_id days w1)
    = Return {| cpu_avg := None; cpu_max := None; has_data := false |}.
Proof.
  intros Hfail Hempty.
  unfold get_instance_metrics, try_except, mbind, M_bind, bind,
    get_metric_statistics; simpl.
  rewrite Hfail, Hempty; simpl. split; reflexivity.
Qed.

Lemma C6_metrics_failure_witness :
  fst (get_instance_metrics (λ _ _ _, Raise "throttled") "i-0abc" 14 empty_world)
  = fst (get_instance_metrics (λ _ _ _, Return []) "i-0abc" 14 empty_world)
  ∧ fst (get_instance_metrics (λ _ _ _, Raise "throttled") "i-0abc" 14 empty_world)
    = Return {| cpu_avg := None; cpu_max := None; has_data := false |}.
Proof.
  apply (C6_metrics_failure_like_no_samples
           (λ _ _ _, Raise "throttled") (λ _ _ _, Return [])
           "i-0abc" 14 empty_world empty_world "throttled");
    reflexivity.
Defined.

(** The summary never raises and touches neither the cache nor the
    recommendation rows. *)
Lemma get_instance_metrics_returns
    (cloudwatch : cloudwatch_client) (instance_id : string) (days : nat)
    (w : World) :
  ∃ m w',
    get_instance_metrics cloudwatch instance_id days w = (Return m, w')
    ∧ recommendations w' = recommendations w.
Proof.
  unfold get_instance_metrics, try_except, mbind, M_bind, bind,
    get_metric_statistics, lift, print, modify, ret; simpl.
  destruct (cloudwatch _ _ _) as [[|first rest]|e]; simpl; eauto.
Qed.

End Metrics.

(** ** The savings percentage *)

Section SavingsPercent.

(** C8: the savings percentage is defined for every current price: it is
    0 when the current price is 0, without a division, and
    [savings_per_hour / current_price * 100] when the current price is
    positive. *)
Theorem C8_savings_percent_guarded (savings_per_hour current_price : Q) :
  (∃ percent, compute_savings_percent savings_per_hour current_price = Return percent)
  ∧ ((current_price == 0)%Q →
     compute_savings_percent savings_per_hour current_price = Return 0%Q)
  ∧ ((0 < current_price)%Q →
     compute_savings_percent savings_per_hour current_price
     = Return (savings_per_hour / current_price * 100)%Q).
Proof.
  unfold compute_savings_percent, truediv.
  destruct (Qltb 0 current_price) eqn:Hpos.
  - apply Qltb_lt in Hpos.
    destruct (Qeq_bool current_price 0) eqn:Hzero.
    + apply Qeq_bool_eq in Hzero. rewrite Hzero in Hpos.
      by apply Qlt_irrefl in Hpos.
    + split; [eauto|]. split; [|done].
      intros Hz. rewrite Hz in Hpos. by apply Qlt_irrefl in Hpos.
  - apply Qltb_ge in Hpos. split; [eauto|]. split; [done|].
    intros Hlt. destruct (Qlt_not_le _ _ Hlt Hpos).
Qed.

Lemma C8_savings_percent_witness :
  compute_savings_percent 0.0288%Q 0%Q = Return 0%Q
  ∧ compute_savings_percent 0.0288%Q 0.192%Q
    = Return (0.0288 / 0.192 * 100)%Q.
Proof.
  split.
  - apply (C8_savings_percent_guarded 0.0288%Q 0%Q). reflexivity.
  - apply (C8_savings_percent_guarded 0.0288%Q 0.192%Q). reflexivity.
Defined.

Lemma compute_savings_percent_returns (savings_per_hour current_price : Q) :
  ∃ percent, compute_savings_percent savings_per_hour current_price = Return percent.
Proof.
  unfold compute_savings_percent, truediv.
  destruct (Qltb 0 current_price) eqn:Hpos; [|eauto].
  apply Qltb_lt in Hpos.
  destruct (Qeq_bool current_price 0) eqn:Hzero; [|eauto].
  apply Qeq_bool_eq in Hzero. rewrite Hzero in Hpos.
  by apply Qlt_irrefl in Hpos.
Qed.

Example savings_percent_scenario :
  exists percent,
    compute_savings_percent (0.192 - 0.1632)%Q 0.192%Q = Return percent
    ∧ (percent == 15)%Q.
Proof. eexists. split; [vm_compute; reflexivity|reflexivity]. Qed.

End SavingsPercent.

(** ** Best savings per category and the fleet totals (enhanced script) *)

Section Aggregation.

Import Enhanced.

Lemma dd_lookup_elem (d : defaultdict) (k : category) (v : Q) :
  dd_lookup d k = Some v → (k, v) ∈ d.
Proof.
  induction d as [|[k' v'] d IH]; simpl; [done|].
  case_decide as Hk.
  - intros [= ->]. subst k'. constructor.
  - intros Hd. constructor. by apply IH.
Qed.

Lemma dd_setitem_Forall (P : category * Q → Prop)
    (d : defaultdict) (k : category) (v : Q) :
  Forall P d → P (k, v) → Forall P (dd_setitem d k v).
Proof.
  intros Hd Hkv. induction Hd as [|[k' v'] d Hx Hd IH]; simpl.
  - by constructor.
  - case_decide; constructor; auto.
Qed.

(** One update of the best savings keeps every value non-negative, and
    keeps at 0 the categories [Z] in which the tracked saving is not
    positive. *)
Lemma track_best_invariant (Z : category → Prop)
    (d : defaultdict) (c : category) (s : Q) :
  (Z c → (s <= 0)%Q) →
  Forall (λ kv : category * Q, (0 <= kv.2)%Q ∧ (Z kv.1 → (kv.2 == 0)%Q)) d →
  Forall (λ kv : category * Q, (0 <= kv.2)%Q ∧ (Z kv.1 → (kv.2 == 0)%Q))
    (track_best d c s).
Proof.
  intros Hs Hd. unfold track_best, dd_getitem.
  destruct (dd_lookup d c) as [v|] eqn:Hlookup.
  - destruct (Qltb v s) eqn:Hlt; [|done].
    apply dd_setitem_Forall; [done|]. simpl.
    apply Qltb_lt in Hlt. apply dd_lookup_elem in Hlookup.
    rewrite Forall_forall in Hd. destruct (Hd _ Hlookup) as [Hv _]. simpl in Hv.
    split; [lra|]. intros Hz. specialize (Hs Hz). lra.
  - assert (Forall (λ kv : category * Q,
                      (0 <= kv.2)%Q ∧ (Z kv.1 → (kv.2 == 0)%Q))
              (d ++ [(c, 0%Q)])) as Hd'.
    { apply Forall_app. split; [done|]. constructor; [|constructor].
      simpl. split; [lra|]. intros _. reflexivity. }
    destruct (Qltb 0 s) eqn:Hlt; [|done].
    apply dd_setitem_Forall; [done|]. simpl.
    apply Qltb_lt in Hlt. split; [lra|]. intros Hz. specialize (Hs Hz). lra.
Qed.

Lemma fold_track_best_invariant (Z : category → Prop)
    (rows : list savings_entry) (d : defaultdict) :
  (∀ row, row ∈ rows → Z (entry_category row) → (savings_per_month row <= 0)%Q) →
  Forall (λ kv : category * Q, (0 <= kv.2)%Q ∧ (Z kv.1 → (kv.2 == 0)%Q)) d →
  Forall (λ kv : category * Q, (0 <= kv.2)%Q ∧ (Z kv.1 → (kv.2 == 0)%Q))
    (fold_left
       (λ best row, track_best best (entry_category row) (savings_per_month row))
       rows d).
Proof.
  revert d. induction rows as [|row rows IH]; intros d Hrows Hd; simpl; [done|].
  apply IH.
  - intros row' Hin. apply Hrows. by constructor.
  - apply track_best_invariant; [|done]. apply Hrows. constructor.
Qed.

(** Adding the best savings of one instance to the totals: no [KeyError]
    when the totals hold every category, and each total moves by the
    values added to it. *)
Lemma add_to_totals_spec (items : defaultdict) (totals : gmap category Q) :
  (∀ c, is_Some (totals !! c)) →
  ∃ totals',
    add_to_totals totals items = Return totals'
    ∧ (∀ c, is_Some (totals' !! c))
    ∧ ∀ c t, totals !! c = Some t →
        ∃ t', totals' !! c = Some t'
          ∧ (Forall (λ kv : category * Q, (0 <= kv.2)%Q) items → (t <= t')%Q)
          ∧ (Forall (λ kv : category * Q, kv.1 = c → (kv.2 == 0)%Q) items →
             (t' == t)%Q).
Proof.
  revert totals. induction items as [|[c0 s0] items IH]; intros totals Hall; simpl.
  - exists totals. split; [done|]. split; [done|]. intros c t Ht.
    exists t. split; [done|]. split; intros _; [lra|reflexivity].
  - unfold add_to_total. destruct (Hall c0) as [t0 Ht0]. rewrite Ht0.
    destruct (IH (<[c0 := (t0 + s0)%Q]> totals)) as (totals' & Hrun & Hall' & Hrel).
    { intros c. destruct (decide (c0 = c)) as [->|Hne].
      - rewrite lookup_insert_eq. eauto.
      - rewrite lookup_insert_ne; auto. }
    exists totals'. split; [done|]. split; [done|]. intros c t Ht.
    destruct (decide (c0 = c)) as [->|Hne].
    + destruct (Hrel c (t0 + s0)%Q) as (t' & Ht' & Hmono & Hzero).
      { by rewrite lookup_insert_eq. }
      assert (t = t0) as -> by congruence.
      exists t'. split; [done|]. split.
      * intros [Hs HF]%Forall_cons. simpl in Hs. specialize (Hmono HF). lra.
      * intros [Hs HF]%Forall_cons. simpl in Hs.
        specialize (Hzero HF). specialize (Hs eq_refl). lra.
    + destruct (Hrel c t) as (t' & Ht' & Hmono & Hzero).
      { by rewrite lookup_insert_ne. }
      exists t'. split; [done|]. split.
      * intros [_ HF]%Forall_cons. auto.
      * intros [_ HF]%Forall_cons. auto.
Qed.

Lemma initial_totals_complete (c : category) :
  is_Some (total_potential_savings initial_totals !! c).
Proof. destruct c; vm_compute; eauto. Qed.

End Aggregation.

(** ** The per-instance evaluation (enhanced script) *)

Section PerInstance.

Import Enhanced.

Variable self_region : string.
Variable pricing : pricing_client.
Variable cloudwatch : cloudwatch_client.

(** The loop over the alternatives returns; the rows it prints are the
    priced alternatives, and the best savings are these rows tracked in
    order. *)
Lemma evaluate_alternatives_spec
    (current_price : Q) (alternatives : list alternative)
    (best : defaultdict) (w : World) :
  ∃ rows w',
    evaluate_alternatives self_region pricing current_price alternatives best w
    = (Return
         (fold_left
            (λ b row, track_best b (entry_category row) (savings_per_month row))
            rows best),
       w')
    ∧ recommendations w' = recommendations w ++ rows.
Proof.
  revert best w.
  induction alternatives as [|[[a_type a_description] a_category] rest IH];
    intros best w.
  - exists [], w. simpl. by rewrite app_nil_r.
  - simpl. unfold mbind, M_bind, bind at 1.
    destruct (get_instance_price_returns self_region pricing a_type
                (Some self_region) w) as (a_price & w1 & -> & Hrows1 & _).
    destruct (Qeq_bool a_price 0).
    + destruct (IH best w1) as (rows & w' & -> & Hrows).
      exists rows, w'. split; [done|]. by rewrite Hrows, Hrows1.
    + unfold bind at 1, lift.
      destruct (compute_savings_percent_returns
                  (current_price - a_price) current_price) as [percent ->].
      unfold bind at 1, print_recommendation, modify.
      match goal with
      | |- context [evaluate_alternatives _ _ _ rest ?b ?w2] =>
          destruct (IH b w2) as (rows & w' & -> & Hrows)
      end.
      exists ({| alt_type := a_type; description := a_description;
                 entry_category := a_category; alt_price := a_price;
                 savings_per_hour := (current_price - a_price)%Q;
                 savings_per_month := ((current_price - a_price) * 730)%Q;
                 savings_percent := percent |} :: rows), w'.
      split; [reflexivity|].
      rewrite Hrows; simpl. by rewrite Hrows1, <- app_assoc.
Qed.

Lemma measure_returns (check_metrics : bool) (instance : Instance) (w : World) :
  ∃ m w',
    measure cloudwatch check_metrics instance w = (Return m, w')
    ∧ recommendations w' = recommendations w.
Proof.
  unfold measure. destruct (_ && _).
  - apply get_instance_metrics_returns.
  - by exists no_metrics, w.
Qed.

(** One iteration returns, keeps the totals complete and non-decreasing,
    and tracks non-negative best savings. [rows] are the recommendation
    rows the iteration prints. *)
Lemma analyze_instance_spec
    (check_metrics : bool) (instance : Instance) (acc : Totals) (w : World) :
  (∀ c, is_Some (total_potential_savings acc !! c)) →
  ∃ acc' best rows w',
    analyze_instance self_region pricing cloudwatch check_metrics instance acc w
    = (Return (acc', best), w')
    ∧ recommendations w' = recommendations w ++ rows
    ∧ (∀ c, is_Some (total_potential_savings acc' !! c))
    ∧ (∀ d, best = Some d → Forall (λ kv : category * Q, (0 <= kv.2)%Q) d)
    ∧ ∀ c, ∃ t t',
        total_potential_savings acc !! c = Some t
        ∧ total_potential_savings acc' !! c = Some t'
        ∧ (t <= t')%Q
        ∧ ((∀ row, row ∈ rows → entry_category row = c →
              (savings_per_month row <= 0)%Q) →
           (t' == t)%Q).
Proof.
  intros Hall.
  assert (∀ w', recommendations w' = recommendations w →
    ∃ acc' best rows w'0,
      (Return (acc, @None defaultdict), w') = (Return (acc', best), w'0)
      ∧ recommendations w'0 = recommendations w ++ rows
      ∧ (∀ c, is_Some (total_potential_savings acc' !! c))
      ∧ (∀ d, best = Some d → Forall (λ kv : category * Q, (0 <= kv.2)%Q) d)
      ∧ ∀ c, ∃ t t',
          total_potential_savings acc !! c = Some t
          ∧ total_potential_savings acc' !! c = Some t'
          ∧ (t <= t')%Q
          ∧ ((∀ row, row ∈ rows → entry_category row = c →
                (savings_per_month row <= 0)%Q) →
             (t' == t)%Q)) as Hskip.
  { intros w' Hw'. exists acc, None, [], w'. split; [done|].
    split; [by rewrite app_nil_r|]. split; [done|]. split; [done|].
    intros c. destruct (Hall c) as [t Ht]. exists t, t.
    split; [done|]. split; [done|]. split; [lra|]. intros _. reflexivity. }
  unfold analyze_instance.
  destruct (String.eqb (State_Name instance) "terminated"); [by apply Hskip|].
  unfold mbind, M_bind, bind at 1.
  destruct (get_instance_price_returns self_region pricing
              (InstanceType instance) (Some self_region) w)
    as (current_price & w1 & -> & Hrows1 & _).
  destruct (Qeq_bool current_price 0); [by apply Hskip|].
  unfold bind at 1.
  destruct (measure_returns check_metrics instance w1) as (m & w2 & -> & Hrows2).
  destruct (get_alternative_instances (InstanceType instance) (cpu_avg m))
    as [|alternative alternatives] eqn:Halts;
    [apply Hskip; congruence|].
  unfold bind at 1.
  destruct (evaluate_alternatives_spec current_price
              (alternative :: alternatives) [] w2) as (rows & w3 & -> & Hrows3).
  unfold bind at 1, lift.
  destruct (add_to_totals_spec
              (fold_left
                 (λ b row, track_best b (entry_category row) (savings_per_month row))
                 rows [])
              (total_potential_savings acc) Hall)
    as (totals' & -> & Hall' & Hrel).
  eexists _, _, rows, w3. split; [reflexivity|].
  split; [congruence|]. split; [done|]. split.
  - intros d [= <-].
    eapply Forall_impl;
      [apply (fold_track_best_invariant (λ _, False)); [done|constructor]|].
    by intros kv [Hkv _].
  - intros c. destruct (Hall c) as [t Ht].
    destruct (Hrel c t Ht) as (t' & Ht' & Hmono & Hzero).
    exists t, t'. split; [done|]. split; [done|]. split.
    + apply Hmono.
      eapply Forall_impl;
        [apply (fold_track_best_invariant (λ _, False)); [done|constructor]|].
      by intros kv [Hkv _].
    + intros Hrows. apply Hzero.
      eapply Forall_impl;
        [apply (fold_track_best_invariant (λ k, k = c)); [|constructor]|].
      * intros row Hin Hc. by apply Hrows.
      * by intros kv [_ Hkv].
Qed.

(** The three [continue] statements: a terminated instance, an instance
    whose price resolves to 0 and an instance without alternatives leave
    the accumulators as they were. *)
Lemma analyze_instance_skips
    (check_metrics : bool) (instance : Instance) (acc : Totals) (w : World) :
  (State_Name instance = "terminated" →
   analyze_instance self_region pricing cloudwatch check_metrics instance acc w
   = (Return (acc, None), w))
  ∧ (∀ price w1,
       get_instance_price self_region pricing (InstanceType instance)
         (Some self_region) w = (Return price, w1) →
       (price == 0)%Q →
       fst (analyze_instance self_region pricing cloudwatch check_metrics
              instance acc w)
       = Return (acc, None))
  ∧ (∀ price w1 m w2,
       get_instance_price self_region pricing (InstanceType instance)
         (Some self_region) w = (Return price, w1) →
       measure cloudwatch check_metrics instance w1 = (Return m, w2) →
       get_alternative_instances (InstanceType instance) (cpu_avg m) = [] →
       fst (analyze_instance self_region pricing cloudwatch check_metrics
              instance acc w)
       = Return (acc, None)).
Proof.
  unfold analyze_instance. split; [|split].
  - intros ->. reflexivity.
  - intros price w1 Hprice Hzero.
    destruct (String.eqb _ "terminated"); [done|].
    unfold mbind, M_bind, bind at 1. rewrite Hprice.
    apply Qeq_bool_iff in Hzero. by rewrite Hzero.
  - intros price w1 m w2 Hprice Hm Halts.
    destruct (String.eqb _ "terminated"); [done|].
    unfold mbind, M_bind, bind at 1. rewrite Hprice.
    destruct (Qeq_bool price 0); [done|].
    unfold bind at 1. rewrite Hm, Halts. reflexivity.
Qed.

(** The loop returns and keeps the totals complete. *)
Lemma analyze_loop_returns
    (check_metrics : bool) (instances : list Instance) (acc : Totals) (w : World) :
  (∀ c, is_Some (total_potential_savings acc !! c)) →
  ∃ acc' w',
    analyze_loop self_region pricing cloudwatch check_metrics instances acc w
    = (Return acc', w')
    ∧ ∀ c, is_Some (total_potential_savings acc' !! c).
Proof.
  revert acc w. induction instances as [|instance rest IH]; intros acc w Hall.
  - by exists acc, w.
  - simpl. unfold mbind, M_bind, bind at 1.
    destruct (analyze_instance_spec check_metrics instance acc w Hall)
      as (acc1 & best & rows & w1 & -> & _ & Hall1 & _).
    by apply IH.
Qed.

(** One more instance at the end of the fleet is one more iteration. *)
Lemma analyze_loop_snoc
    (check_metrics : bool) (instances : list Instance) (instance : Instance)
    (acc acc1 acc2 : Totals) (best : option defaultdict) (w w1 w2 : World) :
  analyze_loop self_region pricing cloudwatch check_metrics instances acc w
  = (Return acc1, w1) →
  analyze_instance self_region pricing cloudwatch check_metrics instance acc1 w1
  = (Return (acc2, best), w2) →
  analyze_loop self_region pricing cloudwatch check_metrics
    (instances ++ [instance]) acc w
  = (Return acc2, w2).
Proof.
  revert acc w. induction instances as [|first rest IH]; intros acc w; simpl.
  - intros [= -> ->] Hstep.
    unfold mbind, M_bind, bind, ret. by rewrite Hstep.
  - unfold mbind, M_bind, bind.
    destruct (analyze_instance _ _ _ _ first acc w) as [[r|e] w'];
      [|discriminate].
    apply IH.
Qed.

End PerInstance.

(** ** The per-instance evaluation (basic script) *)

Section BasicPerInstance.

Import Basic.

#[local] Arguments get_instance_pricing_estimate : simpl never.
#[local] Arguments get_alternative_instances : simpl never.
#[local] Arguments is_graviton : simpl never.
#[local] Arguments compute_savings_percent : simpl never.

(** The loop over the alternatives returns; each best saving only grows,
    and stays as it is when no priced alternative of its group saves more
    than it. *)
Lemma basic_evaluate_alternatives_spec
    (current_price : Q) (alternatives : list alternative) (g n : Q) :
  ∃ g' n',
    evaluate_alternatives current_price alternatives g n = Return (g', n')
    ∧ (g <= g')%Q ∧ (n <= n')%Q
    ∧ ((∀ alt_type description,
          (alt_type, description) ∈ alternatives →
          is_graviton description = true →
          ¬ (get_instance_pricing_estimate alt_type == 0)%Q →
          ((current_price - get_instance_pricing_estimate alt_type) * 730 <= g)%Q) →
       g' = g)
    ∧ ((∀ alt_type description,
          (alt_type, description) ∈ alternatives →
          is_graviton description = false →
          ¬ (get_instance_pricing_estimate alt_type == 0)%Q →
          ((current_price - get_instance_pricing_estimate alt_type) * 730 <= n)%Q) →
       n' = n).
Proof.
  revert g n.
  induction alternatives as [|[alt_type description] rest IH]; intros g n; cbn [evaluate_alternatives].
  - exists g, n. repeat (split; [done || lra|]). done.
  - destruct (Qeq_bool (get_instance_pricing_estimate alt_type) 0) eqn:Hzero.
    + destruct (IH g n) as (g' & n' & Hrun & Hg & Hn & Hgz & Hnz).
      exists g', n'. split; [done|]. split; [done|]. split; [done|].
      split; intros Hall; [apply Hgz|apply Hnz];
        intros a d Hin; apply Hall; by constructor.
    + apply Qeq_bool_neq in Hzero.
      destruct (compute_savings_percent_returns
                  (current_price - get_instance_pricing_estimate alt_type)
                  current_price) as [percent ->].
      destruct (is_graviton description) eqn:Hgroup.
      * destruct (IH (if Qltb g
                           ((current_price
                             - get_instance_pricing_estimate alt_type) * 730)
                      then ((current_price
                             - get_instance_pricing_estimate alt_type) * 730)%Q
                      else g) n)
          as (g' & n' & Hrun & Hg & Hn & Hgz & Hnz).
        exists g', n'. split; [done|]. split; [|split; [done|split]].
        -- destruct (Qltb g _) eqn:Hlt; [apply Qltb_lt in Hlt; lra|done].
        -- intros Hall.
           assert (Qltb g ((current_price
                            - get_instance_pricing_estimate alt_type) * 730)
                   = false) as Hkeep.
           { apply Qltb_ge. apply (Hall alt_type description); [constructor|done..]. }
           rewrite Hkeep in Hgz. apply Hgz.
           intros a d Hin. apply Hall. by constructor.
        -- intros Hall. apply Hnz. intros a d Hin. apply Hall. by constructor.
      * destruct (IH g (if Qltb n
                             ((current_price
                               - get_instance_pricing_estimate alt_type) * 730)
                        then ((current_price
                               - get_instance_pricing_estimate alt_type) * 730)%Q
                        else n))
          as (g' & n' & Hrun & Hg & Hn & Hgz & Hnz).
        exists g', n'. split; [done|]. split; [done|split; [|split]].
        -- destruct (Qltb n _) eqn:Hlt; [apply Qltb_lt in Hlt; lra|done].
        -- intros Hall. apply Hgz. intros a d Hin. apply Hall. by constructor.
        -- intros Hall.
           assert (Qltb n ((current_price
                            - get_instance_pricing_estimate alt_type) * 730)
                   = false) as Hkeep.
           { apply Qltb_ge. apply (Hall alt_type description); [constructor|done..]. }
           rewrite Hkeep in Hnz. apply Hnz.
           intros a d Hin. apply Hall. by constructor.
Qed.

(** One iteration returns; the best savings it adds are non-negative, so
    the two totals do not decrease, and a group without a priced saving
    above 0 adds exactly 0. *)
Lemma basic_analyze_instance_spec (instance : Instance) (acc : Totals) :
  ∃ acc' best,
    analyze_instance instance acc = Return (acc', best)
    ∧ (∀ g n, best = Some (g, n) → (0 <= g)%Q ∧ (0 <= n)%Q)
    ∧ (total_graviton_savings acc <= total_graviton_savings acc')%Q
    ∧ (total_non_graviton_savings acc <= total_non_graviton_savings acc')%Q
    ∧ ((∀ alt_type description,
          (alt_type, description)
            ∈ get_alternative_instances (InstanceType instance) →
          is_graviton description = true →
          ¬ (get_instance_pricing_estimate alt_type == 0)%Q →
          ((get_instance_pricing_estimate (InstanceType instance)
            - get_instance_pricing_estimate alt_type) * 730 <= 0)%Q) →
       (total_graviton_savings acc' == total_graviton_savings acc)%Q)
    ∧ ((∀ alt_type description,
          (alt_type, description)
            ∈ get_alternative_instances (InstanceType instance) →
          is_graviton description = false →
          ¬ (get_instance_pricing_estimate alt_type == 0)%Q →
          ((get_instance_pricing_estimate (InstanceType instance)
            - get_instance_pricing_estimate alt_type) * 730 <= 0)%Q) →
       (total_non_graviton_savings acc' == total_non_graviton_savings acc)%Q).
Proof.
  unfold analyze_instance.
  destruct (get_alternative_instances (InstanceType instance))
    as [|alternative alternatives] eqn:Halts.
  - exists acc, None. split; [done|]. split; [done|].
    split; [lra|]. split; [lra|]. split; intros _; reflexivity.
  - destruct (basic_evaluate_alternatives_spec
                (get_instance_pricing_estimate (InstanceType instance))
                (alternative :: alternatives) 0%Q 0%Q)
      as (g' & n' & -> & Hg & Hn & Hgz & Hnz).
    eexists _, _. split; [reflexivity|].
    cbn [total_graviton_savings total_non_graviton_savings].
    split; [by intros g n [= <- <-]|].
    split; [lra|]. split; [lra|].
    split; intros Hall; [rewrite (Hgz Hall)|rewrite (Hnz Hall)]; lra.
Qed.

Lemma basic_analyze_loop_returns (instances : list Instance) (acc : Totals) :
  ∃ acc', analyze_loop instances acc = Return acc'.
Proof.
  revert acc. induction instances as [|instance rest IH]; intros acc;
    cbn [analyze_loop].
  - by exists acc.
  - destruct (basic_analyze_instance_spec instance acc) as (acc1 & best & -> & _).
    apply IH.
Qed.

Lemma basic_analyze_loop_snoc
    (instances : list Instance) (instance : Instance)
    (acc acc1 acc2 : Totals) (best : option (Q * Q)) :
  analyze_loop instances acc = Return acc1 →
  analyze_instance instance acc1 = Return (acc2, best) →
  analyze_loop (instances ++ [instance]) acc = Return acc2.
Proof.
  revert acc. induction instances as [|first rest IH]; intros acc;
    cbn [analyze_loop app].
  - intros [= ->] Hstep. by rewrite Hstep.
  - destruct (analyze_instance first acc) as [r|e]; [|discriminate].
    apply IH.
Qed.

End BasicPerInstance.

(** ** The fleet totals *)

Section FleetTotals.

(** C1: in both scripts, for every fleet and every instance added at its
    end, the run returns; the best savings tracked for the instance are
    non-negative in every category; no category total decreases; and a
    category in which no priced alternative of the instance has a
    positive monthly saving adds exactly 0 to its total. For the enhanced
    script [rows] are the recommendation rows of the added instance, one
    per priced alternative. *)
Theorem C1_category_totals_non_decreasing :
  (∀ (self_region : string) (pricing : Enhanced.pricing_client)
     (cloudwatch : Enhanced.cloudwatch_client) (check_metrics : bool)
     (instances : list Instance) (instance : Instance) (w : Enhanced.World),
     ∃ acc w1 acc' best rows w2,
       Enhanced.analyze_loop self_region pricing cloudwatch check_metrics
         instances Enhanced.initial_totals w = (Return acc, w1)
       ∧ Enhanced.analyze_loop self_region pricing cloudwatch check_metrics
           (instances ++ [instance]) Enhanced.initial_totals w
         = (Return acc', w2)
       ∧ Enhanced.analyze_instance self_region pricing cloudwatch check_metrics
           instance acc w1 = (Return (acc', best), w2)
       ∧ Enhanced.recommendations w2 = Enhanced.recommendations w1 ++ rows
       ∧ (∀ d c v, best = Some d → Enhanced.dd_lookup d c = Some v → (0 <= v)%Q)
       ∧ ∀ c, ∃ t t',
           Enhanced.total_potential_savings acc !! c = Some t
           ∧ Enhanced.total_potential_savings acc' !! c = Some t'
           ∧ (t <= t')%Q
           ∧ ((∀ row, row ∈ rows → Enhanced.entry_category row = c →
                 (Enhanced.savings_per_month row <= 0)%Q) →
              (t' == t)%Q))
  ∧ (∀ (instances : list Instance) (instance : Instance),
       ∃ acc acc' best,
         Basic.analyze_loop instances Basic.initial_totals = Return acc
         ∧ Basic.analyze_loop (instances ++ [instance]) Basic.initial_totals
           = Return acc'
         ∧ Basic.analyze_instance instance acc = Return (acc', best)
         ∧ (∀ g n, best = Some (g, n) → (0 <= g)%Q ∧ (0 <= n)%Q)
         ∧ (Basic.total_graviton_savings acc
            <= Basic.total_graviton_savings acc')%Q
         ∧ (Basic.total_non_graviton_savings acc
            <= Basic.total_non_graviton_savings acc')%Q
         ∧ ((∀ alt_type description,
               (alt_type, description)
                 ∈ Basic.get_alternative_instances (InstanceType instance) →
               Basic.is_graviton description = true →
               ¬ (Basic.get_instance_pricing_estimate alt_type == 0)%Q →
               ((Basic.get_instance_pricing_estimate (InstanceType instance)
                 - Basic.get_instance_pricing_estimate alt_type) * 730 <= 0)%Q) →
            (Basic.total_graviton_savings acc'
             == Basic.total_graviton_savings acc)%Q)
         ∧ ((∀ alt_type description,
               (alt_type, description)
                 ∈ Basic.get_alternative_instances (InstanceType instance) →
               Basic.is_graviton description = false →
               ¬ (Basic.get_instance_pricing_estimate alt_type == 0)%Q →
               ((Basic.get_instance_pricing_estimate (InstanceType instance)
                 - Basic.get_instance_pricing_estimate alt_type) * 730 <= 0)%Q) →
            (Basic.total_non_graviton_savings acc'
             == Basic.total_non_graviton_savings acc)%Q)).
Proof.
  split.
  - intros self_region pricing cloudwatch check_metrics instances instance w.
    destruct (analyze_loop_returns self_region pricing cloudwatch check_metrics
                instances Enhanced.initial_totals w initial_totals_complete)
      as (acc & w1 & Hloop & Hall).
    destruct (analyze_instance_spec self_region pricing cloudwatch check_metrics
                instance acc w1 Hall)
      as (acc' & best & rows & w2 & Hstep & Hrows & _ & Hbest & Htotals).
    exists acc, w1, acc', best, rows, w2.
    split; [done|]. split; [by eapply analyze_loop_snoc|].
    split; [done|]. split; [done|]. split; [|done].
    intros d c v Hd Hlookup. apply dd_lookup_elem in Hlookup.
    specialize (Hbest d Hd). rewrite Forall_forall in Hbest.
    apply (Hbest _ Hlookup).
  - intros instances instance.
    destruct (basic_analyze_loop_returns instances Basic.initial_totals)
      as (acc & Hloop).
    destruct (basic_analyze_instance_spec instance acc)
      as (acc' & best & Hstep & Hrest).
    exists acc, acc', best.
    split; [done|]. split; [by eapply basic_analyze_loop_snoc|].
    split; done.
Qed.

(** A run of the enhanced script on the small fleet. The downsize
    candidate [m5.medium] of the idle [m5.large] has no price and is left
    out; [t3a.large] is offered itself at a saving of 0, from the cache. *)
Example enhanced_fleet_scenario :
  ∃ acc w' g a i d,
    Enhanced.analyze_instances "us-east-1" Spec.table_pricing
      Spec.idle_cloudwatch true
      [[Spec.m5_large_running]; [Spec.t3a_large_stopped]] Enhanced.empty_world
    = (Return (Some acc), w')
    ∧ Enhanced.instances_analyzed acc = 2%nat
    ∧ (Enhanced.total_current_cost acc == 124.976)%Q
    ∧ Enhanced.total_potential_savings acc !! Enhanced.graviton = Some g
    ∧ Enhanced.total_potential_savings acc !! Enhanced.amd = Some a
    ∧ Enhanced.total_potential_savings acc !! Enhanced.intel = Some i
    ∧ Enhanced.total_potential_savings acc !! Enhanced.downsize = Some d
    ∧ (g == 16.352)%Q ∧ (a == 7.008)%Q ∧ (i == 0)%Q ∧ (d == 0)%Q
    ∧ map Enhanced.alt_type (Enhanced.recommendations w')
      = ["m7g.large"; "m6a.large"; "m6i.large"; "t4g.large"; "t3a.large"]
    ∧ map fst (Enhanced.pricing_calls w')
      = ["m5.large"; "m7g.large"; "m6a.large"; "m6i.large"; "m5.medium";
         "t3a.large"; "t4g.large"].
Proof.
  eexists _, _, _, _, _, _.
  split; [vm_compute; reflexivity|].
  repeat (split; [vm_compute; reflexivity|]).
  vm_compute; reflexivity.
Qed.

(** The same fleet in the basic script, which knows no alternative for
    [t3a.large]. *)
Example basic_fleet_scenario :
  ∃ acc,
    Basic.main_totals [[Spec.m5_large_running]; [Spec.t3a_large_stopped]]
    = Return acc
    ∧ Basic.instances_analyzed acc = 1%nat
    ∧ (Basic.total_current_cost acc == 70.08)%Q
    ∧ (Basic.total_graviton_savings acc == 10.512)%Q
    ∧ (Basic.total_non_graviton_savings acc == 7.008)%Q.
Proof.
  eexists. split; [vm_compute; reflexivity|].
  repeat split; reflexivity.
Qed.

End FleetTotals.

(** ** Skipped instances *)

Section Skipped.

#[local] Arguments Basic.get_instance_pricing_estimate : simpl never.

(** C4 fails on the basic script: its loop has no test of the state, so a
    terminated instance of a type with alternatives is counted, its cost
    is added to the current cost and its best savings to both totals. *)
Theorem C4_basic_counts_terminated_instance :
  ∃ acc,
    Basic.main_totals [[Spec.terminated_t3_large]] = Return acc
    ∧ Basic.instances_analyzed acc = 1%nat
    ∧ (Basic.total_current_cost acc == 60.736)%Q
    ∧ (Basic.total_graviton_savings acc == 11.68)%Q
    ∧ (Basic.total_non_graviton_savings acc == 5.84)%Q.
Proof.
  eexists. split; [vm_compute; reflexivity|].
  repeat split; reflexivity.
Qed.

(** The enhanced script skips the same instance, whatever the services
    answer: nothing is analyzed and no summary is produced. *)
Lemma enhanced_skips_terminated_instance
    (self_region : string) (pricing : Enhanced.pricing_client)
    (cloudwatch : Enhanced.cloudwatch_client) (check_metrics : bool)
    (w : Enhanced.World) :
  Enhanced.analyze_instances self_region pricing cloudwatch check_metrics
    [[Spec.terminated_t3_large]] w
  = (Return None, w).
Proof. reflexivity. Qed.

(** In the basic script a type without a price estimate has no
    alternatives, so an instance whose price is 0 is skipped by the test
    of the alternatives. *)
Lemma basic_unpriced_type_skipped (instance : Instance) (acc : Basic.Totals) :
  (Basic.get_instance_pricing_estimate (InstanceType instance) == 0)%Q →
  Basic.analyze_instance instance acc = Return (acc, None).
Proof.
  unfold Basic.analyze_instance, Basic.get_alternative_instances.
  intros Hzero.
  destruct (Basic.t3_to_alternatives !! InstanceType instance)
    as [alternatives|] eqn:Ht3.
  - exfalso. apply elem_of_list_to_map_2 in Ht3.
    repeat (apply elem_of_cons in Ht3 as [Ht3|Ht3];
            [injection Ht3 as Hty _; rewrite Hty in Hzero;
             vm_compute in Hzero; discriminate Hzero|]).
    by apply elem_of_nil in Ht3.
  - destruct (Basic.m5_to_alternatives !! InstanceType instance)
      as [alternatives|] eqn:Hm5; [|reflexivity].
    exfalso. apply elem_of_list_to_map_2 in Hm5.
    repeat (apply elem_of_cons in Hm5 as [Hm5|Hm5];
            [injection Hm5 as Hty _; rewrite Hty in Hzero;
             vm_compute in Hzero; discriminate Hzero|]).
    by apply elem_of_nil in Hm5.
Qed.

End Skipped.

(** * Further properties of the scripts *)

(** ** The region of a run *)

Section Region.

Import Enhanced.

(** X1: The region chosen by [__init__] is the first non-empty value among the
    [region] argument, the region of the session and the two environment
    variables, and [us-east-1] when there is none; it is never empty. *)
Theorem init_region_first_non_empty
    (region session_region_name AWS_DEFAULT_REGION AWS_REGION : option string) :
  init_region region session_region_name AWS_DEFAULT_REGION AWS_REGION
  = default (Some "us-east-1")
      (List.find truthy
         [region; session_region_name; AWS_DEFAULT_REGION; AWS_REGION])
  ∧ ∃ r,
      init_region region session_region_name AWS_DEFAULT_REGION AWS_REGION
      = Some r
      ∧ r ≠ "".
Proof.
  assert (∀ o, truthy o = true → ∃ r, o = Some r ∧ r ≠ "") as Hsome.
  { intros [r|]; simpl; [|discriminate]. intros Hr. exists r. split; [done|].
    intros ->. discriminate Hr. }
  unfold init_region, py_or; simpl.
  destruct (truthy region) eqn:H1; [by split; [|apply Hsome]|].
  destruct (truthy session_region_name) eqn:H2; simpl; [by split; [|apply Hsome]|].
  destruct (truthy AWS_DEFAULT_REGION) eqn:H3; simpl.
  { rewrite H3. by split; [|apply Hsome]. }
  destruct (truthy AWS_REGION) eqn:H4; simpl.
  { by split; [|apply Hsome]. }
  split; [done|]. by exists "us-east-1".
Qed.

Example init_region_empty_argument :
  init_region (Some "") None (Some "") (Some "eu-west-1") = Some "eu-west-1".
Proof. reflexivity. Qed.

End Region.

(** ** The keys of the price cache *)

Section CacheKeys.

Import Enhanced.

Lemma contains_char_cons (x c : Ascii.ascii) (s : string) :
  contains (String x "") (String c s) = false →
  c ≠ x ∧ contains (String x "") s = false.
Proof.
  change (contains (String x "") (String c s))
    with (String.prefix (String x "") (String c s) || contains (String x "") s).
  intros [Hhead Hrest]%orb_false_elim. split; [|done].
  intros ->. simpl in Hhead. destruct (ascii_dec x x); [|done].
  by destruct s.
Qed.

Lemma append_nil_l (s : string) : "" +:+ s = s.
Proof. reflexivity. Qed.

Lemma append_cons (c : Ascii.ascii) (s t : string) :
  String c s +:+ t = String c (s +:+ t).
Proof. reflexivity. Qed.

(** X2: Two requests whose instance types hold no underscore share a cache key
    only when they are for the same instance type and the same region. *)
Theorem cache_key_injective (t1 r1 t2 r2 : string) :
  contains "_" t1 = false →
  contains "_" t2 = false →
  cache_key t1 r1 = cache_key t2 r2 →
  t1 = t2 ∧ r1 = r2.
Proof.
  unfold cache_key. revert t2.
  induction t1 as [|c t1 IH]; intros [|c' t2] H1 H2 Hkey;
    rewrite ?append_cons, ?append_nil_l in Hkey.
  - by injection Hkey as ->.
  - injection Hkey as <- _. apply contains_char_cons in H2 as [Hc _]. done.
  - injection Hkey as -> _. apply contains_char_cons in H1 as [Hc _]. done.
  - injection Hkey as <- Hkey.
    apply contains_char_cons in H1 as [_ H1].
    apply contains_char_cons in H2 as [_ H2].
    destruct (IH t2 H1 H2 Hkey) as [-> ->]. done.
Qed.

Lemma cache_key_injective_witness :
  "m5.large" = "m5.large" ∧ "us-east-1" = "us-east-1".
Proof.
  apply (cache_key_injective "m5.large" "us-east-1" "m5.large" "us-east-1");
    reflexivity.
Defined.

(** With an underscore in the instance type two different requests can
    share a key. *)
Example cache_key_collision :
  cache_key "a_b" "c" = cache_key "a" "b_c".
Proof. reflexivity. Qed.

End CacheKeys.

(** ** The shape of the generated alternatives *)

Section GeneratorShape.

Import Enhanced.

#[local] Ltac family_cases :=
  unfold family_alternatives;
  repeat match goal with
         | |- context [if ?b then _ else _] => destruct b eqn:?
         end.

Lemma downsize_map_strict (size smaller_size : string) :
  downsize_map !! size = Some smaller_size → smaller_size ≠ size.
Proof.
  intros Hsize Heq. subst smaller_size.
  apply elem_of_list_to_map_2 in Hsize.
  repeat (apply elem_of_cons in Hsize as [Hsize|Hsize];
          [injection Hsize as Hk Hv; rewrite Hk in Hv; discriminate Hv|]).
  by apply elem_of_nil in Hsize.
Qed.

Lemma family_alternatives_length (family size : string) :
  length (family_alternatives family size) ≤ 3.
Proof. family_cases; cbn [length]; lia. Qed.

Lemma family_alternatives_no_downsize (family size : string) :
  Forall (λ a : alternative, a.2 ≠ downsize) (family_alternatives family size).
Proof. family_cases; repeat constructor; discriminate. Qed.

Lemma downsize_alternatives_cases
    (family size : string) (cpu_avg : option Q) :
  downsize_alternatives family size cpu_avg = []
  ∨ ∃ avg smaller_size,
      cpu_avg = Some avg ∧ (avg < 20)%Q
      ∧ downsize_map !! size = Some smaller_size
      ∧ downsize_alternatives family size cpu_avg
        = [ (family +:+ "." +:+ smaller_size,
             "Downsize (low CPU: " +:+ format_1f avg +:+ "%)", downsize) ].
Proof.
  unfold downsize_alternatives.
  destruct cpu_avg as [avg|]; [|by left].
  destruct (Qltb avg 20) eqn:Hlow; [|by left].
  destruct (downsize_map !! size) as [smaller_size|] eqn:Hsize; [|by left].
  right. exists avg, smaller_size. by apply Qltb_lt in Hlow.
Qed.

(** X3: The generator returns at most four alternatives: at most three from
    the family rules and at most one downsize. *)
Theorem alternatives_at_most_four (current_type : string) (cpu_avg : option Q) :
  length (get_alternative_instances current_type cpu_avg) ≤ 4.
Proof.
  unfold get_alternative_instances.
  destruct (split_dot current_type) as [|family [|size [|extra parts]]];
    cbn [length]; try lia.
  rewrite length_app.
  pose proof (family_alternatives_length family size).
  destruct (downsize_alternatives_cases family size cpu_avg)
    as [->|(avg & smaller & _ & _ & _ & ->)]; cbn [length]; lia.
Qed.

(** X4: The utilization average only decides whether one downsize entry is
    appended: the alternatives generated without an average hold no
    downsize entry, and those generated with an average are the same list
    followed by nothing or by one downsize entry. *)
Theorem utilization_only_appends_downsize
    (current_type : string) (cpu_avg : option Q) :
  Forall (λ a : alternative, a.2 ≠ downsize)
    (get_alternative_instances current_type None)
  ∧ ∃ extra,
      get_alternative_instances current_type cpu_avg
      = get_alternative_instances current_type None ++ extra
      ∧ (extra = [] ∨ ∃ target rationale, extra = [(target, rationale, downsize)]).
Proof.
  unfold get_alternative_instances.
  destruct (split_dot current_type) as [|family [|size [|more parts]]];
    try (split; [constructor|exists []; split; [reflexivity|by left]]).
  change (downsize_alternatives family size None) with (@nil alternative).
  rewrite app_nil_r. split; [apply family_alternatives_no_downsize|].
  exists (downsize_alternatives family size cpu_avg). split; [reflexivity|].
  destruct (downsize_alternatives_cases family size cpu_avg)
    as [->|(avg & smaller & _ & _ & _ & ->)]; [by left|right; eauto].
Qed.

(** X5: An average of 20 or more gives the alternatives generated without an
    average. *)
Theorem no_downsize_from_twenty_percent (current_type : string) (avg : Q) :
  (20 <= avg)%Q →
  get_alternative_instances current_type (Some avg)
  = get_alternative_instances current_type None.
Proof.
  intros Hhigh. apply Qltb_ge in Hhigh.
  unfold get_alternative_instances, downsize_alternatives.
  by rewrite Hhigh.
Qed.

Lemma no_downsize_from_twenty_percent_witness :
  get_alternative_instances "t3.large" (Some 20%Q)
  = get_alternative_instances "t3.large" None.
Proof.
  apply (no_downsize_from_twenty_percent "t3.large" 20%Q). discriminate.
Defined.

(** X6: Every alternative of another category than downsize is a family at the
    size of the instance, and a downsize alternative is the family of the
    instance at the size the downsize table gives. *)
Theorem alternatives_keep_size_or_family
    (current_type family size : string) (cpu_avg : option Q)
    (target rationale : string) (c : category) :
  split_dot current_type = [family; size] →
  (target, rationale, c) ∈ get_alternative_instances current_type cpu_avg →
  (c ≠ downsize ∧ ∃ other, target = other +:+ "." +:+ size)
  ∨ (c = downsize
     ∧ ∃ smaller_size,
         downsize_map !! size = Some smaller_size
         ∧ target = family +:+ "." +:+ smaller_size).
Proof.
  intros Hparts. unfold get_alternative_instances. rewrite Hparts.
  intros [Hin|Hin]%elem_of_app.
  - left. revert Hin. family_cases; intros Hin;
      repeat (apply elem_of_cons in Hin as [Hin|Hin];
              [injection Hin as -> -> ->; split; [discriminate|];
               first [ by exists "t4g" | by exists "t3a" | by exists "t3"
                     | by exists "m7g" | by exists "m6a" | by exists "m6i"
                     | by exists "m5" | by exists "c7g" | by exists "c6a"
                     | by exists "c6i" | by exists "r7g" | by exists "r6a"
                     | by exists "r6i" ]|]);
      by apply elem_of_nil in Hin.
  - right.
    destruct (downsize_alternatives_cases family size cpu_avg)
      as [Hnone|(avg & smaller & _ & _ & Hsize & Hone)].
    + rewrite Hnone in Hin. by apply elem_of_nil in Hin.
    + rewrite Hone in Hin. apply list_elem_of_singleton in Hin.
      injection Hin as -> -> ->. eauto.
Qed.

Lemma alternatives_keep_size_or_family_witness :
  (downsize ≠ downsize ∧ ∃ other, "t3.medium" = other +:+ "." +:+ "large")
  ∨ (downsize = downsize
     ∧ ∃ smaller_size,
         downsize_map !! "large" = Some smaller_size
         ∧ "t3.medium" = "t3" +:+ "." +:+ smaller_size).
Proof.
  apply (alternatives_keep_size_or_family "t3.large" "t3" "large" (Some 12%Q)
           "t3.medium" "Downsize (low CPU: 12.0%)" downsize).
  - reflexivity.
  - vm_compute. do 2 constructor. constructor.
Defined.

(** X7: An instance type of two parts is among its own alternatives exactly
    when its family is [t3a]; in particular a downsize alternative is never
    the instance type itself. *)
Theorem offered_itself_iff_t3a
    (current_type family size : string) (cpu_avg : option Q) :
  split_dot current_type = [family; size] →
  (∃ rationale c,
     (current_type, rationale, c)
       ∈ get_alternative_instances current_type cpu_avg)
  ↔ family = "t3a".
Proof.
  intros Hparts. pose proof (split_dot_two _ _ _ Hparts) as Htype.
  unfold get_alternative_instances. rewrite Hparts. split.
  - intros (rationale & c & [Hin|Hin]%elem_of_app).
    + revert Hin. family_cases; intros Hin;
        repeat (apply elem_of_cons in Hin as [Hin|Hin];
                [injection Hin as Htarget _ _; rewrite Htarget in Hparts;
                 simpl in Hparts; injection Hparts as <- _;
                 first [reflexivity | discriminate]|]);
        by apply elem_of_nil in Hin.
    + destruct (downsize_alternatives_cases family size cpu_avg)
        as [Hnone|(avg & smaller & _ & _ & Hsize & Hone)].
      * rewrite Hnone in Hin. by apply elem_of_nil in Hin.
      * rewrite Hone in Hin. apply list_elem_of_singleton in Hin.
        injection Hin as Htarget _ _. rewrite Htype in Htarget.
        apply String.app_inj in Htarget. injection Htarget as Hsame.
        symmetry in Hsame. by apply downsize_map_strict in Hsize.
  - intros ->. exists "AMD - 10% cheaper", amd.
    apply elem_of_app. left. rewrite Htype.
    apply list_elem_of_further, list_elem_of_here.
Qed.

Lemma offered_itself_iff_t3a_witness :
  (∃ rationale c,
     ("m5.large", rationale, c) ∈ get_alternative_instances "m5.large" None)
  ↔ "m5" = "t3a".
Proof.
  apply (offered_itself_iff_t3a "m5.large" "m5" "large" None). reflexivity.
Defined.

End GeneratorShape.

(** ** The utilization statistics *)

Section MetricsStatistics.

Import Enhanced.

Lemma max_maximum_spec (rest : list datapoint) (m0 : Q) :
  (m0 <= fold_left (λ m d, if Qltb m (Maximum d) then Maximum d else m) rest m0)%Q
  ∧ (∀ d, d ∈ rest →
       (Maximum d
        <= fold_left (λ m d, if Qltb m (Maximum d) then Maximum d else m) rest m0)%Q)
  ∧ (fold_left (λ m d, if Qltb m (Maximum d) then Maximum d else m) rest m0 = m0
     ∨ ∃ d, d ∈ rest
         ∧ fold_left (λ m d, if Qltb m (Maximum d) then Maximum d else m) rest m0
           = Maximum d).
Proof.
  revert m0. induction rest as [|d rest IH]; intros m0; cbn [fold_left].
  - split; [lra|]. split; [|by left]. intros d Hd. by apply elem_of_nil in Hd.
  - destruct (IH (if Qltb m0 (Maximum d) then Maximum d else m0))
      as (Hge & Hall & Hattained).
    assert (m0 <= (if Qltb m0 (Maximum d) then Maximum d else m0)
            ∧ Maximum d <= (if Qltb m0 (Maximum d) then Maximum d else m0))%Q
      as [Hm0 Hd].
    { destruct (Qltb m0 (Maximum d)) eqn:Hlt.
      - apply Qltb_lt in Hlt. split; lra.
      - apply Qltb_ge in Hlt. split; lra. }
    split; [lra|]. split.
    + intros d' [->|Hd']%elem_of_cons; [lra|by apply Hall].
    + destruct Hattained as [Hsame|(d' & Hd' & Hsame)].
      * rewrite Hsame. destruct (Qltb m0 (Maximum d)); [right|by left].
        exists d. split; [constructor|done].
      * right. exists d'. split; [by constructor|done].
Qed.

(** X8: Whatever the CloudWatch client answers, the summary returned has an
    average exactly when it has a maximum, and exactly when [has_data] is
    true. *)
Theorem metrics_present_together
    (cloudwatch : cloudwatch_client) (instance_id : string) (days : nat)
    (w : World) :
  ∃ m w',
    get_instance_metrics cloudwatch instance_id days w = (Return m, w')
    ∧ (has_data m = true ↔ is_Some (cpu_avg m))
    ∧ (is_Some (cpu_avg m) ↔ is_Some (cpu_max m)).
Proof.
  unfold get_instance_metrics, try_except, mbind, M_bind, bind,
    get_metric_statistics, lift, print, modify, ret; simpl.
  destruct (cloudwatch _ _ _) as [[|first rest]|e]; simpl;
    eexists _, _; (split; [reflexivity|]); simpl;
    split; split; (by eauto) || (by intros [? ?]).
Qed.

(** X9: For an answer with datapoints, the summary has [has_data] true and
    both statistics; the maximum returned is the [Maximum] of one of the
    buckets and no bucket exceeds it; the request is logged and nothing is
    printed. *)
Theorem metrics_maximum_of_buckets
    (cloudwatch : cloudwatch_client) (instance_id : string) (days : nat)
    (w : World) (first : datapoint) (rest : list datapoint) :
  cloudwatch (length (metrics_calls w)) instance_id days = Return (first :: rest) →
  ∃ avg mx w',
    get_instance_metrics cloudwatch instance_id days w
    = (Return {| cpu_avg := Some avg; cpu_max := Some mx; has_data := true |},
       w')
    ∧ (∀ d, d ∈ first :: rest → (Maximum d <= mx)%Q)
    ∧ (∃ d, d ∈ first :: rest ∧ mx = Maximum d)
    ∧ metrics_calls w' = metrics_calls w ++ [(instance_id, days)]
    ∧ stdout w' = stdout w.
Proof.
  intros Hanswer.
  assert (0 < inject_Z (Z.of_nat (length (first :: rest))))%Q as Hpos.
  { change 0%Q with (inject_Z 0). rewrite <- Zlt_Qlt. cbn [length]. lia. }
  unfold get_instance_metrics, try_except, mbind, M_bind, bind,
    get_metric_statistics, lift, print, modify, ret.
  cbn [fst snd]. rewrite Hanswer. unfold truediv.
  destruct (Qeq_bool (inject_Z (Z.of_nat (length (first :: rest)))) 0) eqn:Hzero.
  { apply Qeq_bool_eq in Hzero. rewrite Hzero in Hpos. by apply Qlt_irrefl in Hpos. }
  eexists _, _, _. split; [reflexivity|]. split; [|split; [|split]].
  - unfold max_maximum. destruct (max_maximum_spec rest (Maximum first))
      as (Hge & Hall & _).
    intros d [->|Hd]%elem_of_cons; [done|by apply Hall].
  - unfold max_maximum. destruct (max_maximum_spec rest (Maximum first))
      as (_ & _ & [Hsame|(d & Hd & Hsame)]).
    + exists first. split; [constructor|done].
    + exists d. split; [by constructor|done].
  - reflexivity.
  - reflexivity.
Qed.

Lemma metrics_maximum_of_buckets_witness :
  ∃ avg mx w',
    get_instance_metrics Spec.idle_cloudwatch "i-0aaaaaaaaaaaaaaa1" 14
      empty_world
    = (Return {| cpu_avg := Some avg; cpu_max := Some mx; has_data := true |},
       w')
    ∧ (∀ d, d ∈ [ {| Average := 10; Maximum := 30 |};
                  {| Average := 14; Maximum := 50 |} ] →
            (Maximum d <= mx)%Q)
    ∧ (∃ d, d ∈ [ {| Average := 10; Maximum := 30 |};
                  {| Average := 14; Maximum := 50 |} ] ∧ mx = Maximum d)
    ∧ metrics_calls w'
      = metrics_calls empty_world ++ [("i-0aaaaaaaaaaaaaaa1", 14%nat)]
    ∧ stdout w' = stdout empty_world.
Proof.
  apply (metrics_maximum_of_buckets Spec.idle_cloudwatch "i-0aaaaaaaaaaaaaaa1"
           14 empty_world). reflexivity.
Defined.

Example idle_metrics :
  fst (get_instance_metrics Spec.idle_cloudwatch "i-0aaaaaaaaaaaaaaa1" 14
         empty_world)
  = Return {| cpu_avg := Some (24 # 2); cpu_max := Some 50%Q; has_data := true |}.
Proof. vm_compute. reflexivity. Qed.

End MetricsStatistics.

(** ** Invariants of a run (enhanced script) *)

Section RunInvariant.

Import Enhanced.

Variable self_region : string.
Variable pricing : pricing_client.
Variable cloudwatch : cloudwatch_client.
Variable check_metrics : bool.

(** The utilization step sends at most one request, to CloudWatch, for a
    running instance when the metrics are enabled, and touches nothing
    else; otherwise it returns the summary without data. *)
Lemma measure_frame (instance : Instance) (w : World) :
  ∃ m w',
    measure cloudwatch check_metrics instance w = (Return m, w')
    ∧ pricing_cache w' = pricing_cache w
    ∧ pricing_calls w' = pricing_calls w
    ∧ recommendations w' = recommendations w
    ∧ (check_metrics && String.eqb (State_Name instance) "running" = false →
       m = no_metrics ∧ w' = w)
    ∧ (check_metrics && String.eqb (State_Name instance) "running" = true →
       metrics_calls w' = metrics_calls w ++ [(InstanceId instance, 14%nat)]).
Proof.
  unfold measure. destruct (_ && _).
  - unfold get_instance_metrics, try_except, mbind, M_bind, bind,
      get_metric_statistics, lift, print, modify, ret; simpl.
    destruct (cloudwatch _ _ _) as [[|first rest]|e]; simpl;
      eexists _, _; (split; [reflexivity|]); simpl; by repeat split.
  - exists no_metrics, w. by repeat split.
Qed.

(** A property [I] of the state kept by the price resolver, the
    utilization step and the printing of a row, and a property [P] of the
    prices the resolver returns from such a state. *)
Variable I : World → Prop.
Variable P : Q → Prop.

Hypothesis I_price :
  ∀ instance_type region w price w',
    I w →
    get_instance_price self_region pricing instance_type region w
    = (Return price, w') →
    I w' ∧ P price.

Hypothesis I_measure :
  ∀ instance w m w',
    I w →
    measure cloudwatch check_metrics instance w = (Return m, w') →
    I w'.

Hypothesis I_row :
  ∀ row w, I w → I (snd (print_recommendation row w)).

(** The rows printed for an instance are priced alternatives of it: each
    has a price other than 0 and the monthly saving computed from it. *)
Lemma evaluate_alternatives_rows
    (current_price : Q) (alternatives : list alternative)
    (best : defaultdict) (w : World) :
  I w →
  ∃ rows w',
    evaluate_alternatives self_region pricing current_price alternatives best w
    = (Return
         (fold_left
            (λ b row, track_best b (entry_category row) (savings_per_month row))
            rows best),
       w')
    ∧ I w'
    ∧ recommendations w' = recommendations w ++ rows
    ∧ Forall
        (λ row,
           P (alt_price row) ∧ ¬ (alt_price row == 0)%Q
           ∧ savings_per_month row = ((current_price - alt_price row) * 730)%Q
           ∧ (alt_type row, description row, entry_category row) ∈ alternatives)
        rows.
Proof.
  revert best w.
  induction alternatives as [|[[a_type a_description] a_category] rest IH];
    intros best w Hw.
  - exists [], w. simpl. rewrite app_nil_r. by repeat split.
  - simpl. unfold mbind, M_bind, bind at 1.
    destruct (get_instance_price_returns self_region pricing a_type
                (Some self_region) w) as (a_price & w1 & Hprice & Hrows1 & _).
    rewrite Hprice. destruct (I_price _ _ _ _ _ Hw Hprice) as [Hw1 Hp].
    destruct (Qeq_bool a_price 0) eqn:Hzero.
    + destruct (IH best w1 Hw1) as (rows & w' & -> & Hw' & Hrows & Hall).
      exists rows, w'. split; [done|]. split; [done|].
      split; [by rewrite Hrows, Hrows1|].
      eapply Forall_impl; [exact Hall|].
      intros row (? & ? & ? & ?). repeat split; try done. by constructor.
    + apply Qeq_bool_neq in Hzero. unfold bind at 1, lift.
      destruct (compute_savings_percent_returns
                  (current_price - a_price) current_price) as [percent ->].
      unfold bind at 1, modify.
      pose proof (I_row
                    {| alt_type := a_type; description := a_description;
                       entry_category := a_category; alt_price := a_price;
                       savings_per_hour := (current_price - a_price)%Q;
                       savings_per_month := ((current_price - a_price) * 730)%Q;
                       savings_percent := percent |} w1 Hw1) as Hw2.
      unfold print_recommendation, modify in *. cbn [snd] in Hw2.
      match goal with
      | |- context [evaluate_alternatives _ _ _ rest ?b ?w2] =>
          destruct (IH b w2 Hw2) as (rows & w' & -> & Hw' & Hrows & Hall)
      end.
      exists ({| alt_type := a_type; description := a_description;
                 entry_category := a_category; alt_price := a_price;
                 savings_per_hour := (current_price - a_price)%Q;
                 savings_per_month := ((current_price - a_price) * 730)%Q;
                 savings_percent := percent |} :: rows), w'.
      split; [reflexivity|]. split; [done|]. split.
      * rewrite Hrows; simpl. by rewrite Hrows1, <- app_assoc.
      * constructor.
        -- simpl. repeat split; try done. constructor.
        -- eapply Forall_impl; [exact Hall|].
           intros row (? & ? & ? & ?). repeat split; try done. by constructor.
Qed.

(** One iteration, in full: either the instance is skipped and nothing but
    the state of the services changes, or it is analyzed at a price other
    than 0, its cost is added, its rows are priced alternatives of it, and
    the totals receive the best savings tracked over these rows. *)
Lemma analyze_instance_run (instance : Instance) (acc : Totals) (w : World) :
  (∀ c, is_Some (total_potential_savings acc !! c)) →
  I w →
  ∃ acc' best rows w',
    analyze_instance self_region pricing cloudwatch check_metrics instance acc w
    = (Return (acc', best), w')
    ∧ I w'
    ∧ recommendations w' = recommendations w ++ rows
    ∧ (∀ c, is_Some (total_potential_savings acc' !! c))
    ∧ (best = None → acc' = acc ∧ rows = [])
    ∧ (∀ d, best = Some d →
         ∃ current_price cpu,
           P current_price ∧ ¬ (current_price == 0)%Q
           ∧ State_Name instance ≠ "terminated"
           ∧ (check_metrics && String.eqb (State_Name instance) "running" = false →
              cpu = None)
           ∧ instances_analyzed acc' = S (instances_analyzed acc)
           ∧ total_current_cost acc'
             = (total_current_cost acc + current_price * 730)%Q
           ∧ d = fold_left
                   (λ b row,
                      track_best b (entry_category row) (savings_per_month row))
                   rows []
           ∧ add_to_totals (total_potential_savings acc) d
             = Return (total_potential_savings acc')
           ∧ Forall
               (λ row,
                  P (alt_price row) ∧ ¬ (alt_price row == 0)%Q
                  ∧ savings_per_month row
                    = ((current_price - alt_price row) * 730)%Q
                  ∧ (alt_type row, description row, entry_category row)
                      ∈ get_alternative_instances (InstanceType instance) cpu)
               rows).
Proof.
  intros Hall Hw.
  assert (∀ w', I w' → recommendations w' = recommendations w →
    ∃ acc' best rows w'0,
      (Return (acc, @None defaultdict), w') = (Return (acc', best), w'0)
      ∧ I w'0
      ∧ recommendations w'0 = recommendations w ++ rows
      ∧ (∀ c, is_Some (total_potential_savings acc' !! c))
      ∧ (best = None → acc' = acc ∧ rows = [])
      ∧ (∀ d, best = Some d →
           ∃ current_price cpu,
             P current_price ∧ ¬ (current_price == 0)%Q
             ∧ State_Name instance ≠ "terminated"
             ∧ (check_metrics && String.eqb (State_Name instance) "running"
                = false → cpu = None)
             ∧ instances_analyzed acc' = S (instances_analyzed acc)
             ∧ total_current_cost acc'
               = (total_current_cost acc + current_price * 730)%Q
             ∧ d = fold_left
                     (λ b row,
                        track_best b (entry_category row) (savings_per_month row))
                     rows []
             ∧ add_to_totals (total_potential_savings acc) d
               = Return (total_potential_savings acc')
             ∧ Forall
                 (λ row,
                    P (alt_price row) ∧ ¬ (alt_price row == 0)%Q
                    ∧ savings_per_month row
                      = ((current_price - alt_price row) * 730)%Q
                    ∧ (alt_type row, description row, entry_category row)
                        ∈ get_alternative_instances (InstanceType instance) cpu)
                 rows)) as Hskip.
  { intros w' Hw' Hrows. exists acc, None, [], w'. split; [done|].
    split; [done|]. split; [by rewrite app_nil_r|]. split; [done|].
    split; [done|]. intros d [=]. }
  unfold analyze_instance.
  destruct (String.eqb (State_Name instance) "terminated") eqn:Hstate;
    [by apply Hskip|].
  apply String.eqb_neq in Hstate.
  unfold mbind, M_bind, bind at 1.
  destruct (get_instance_price_returns self_region pricing
              (InstanceType instance) (Some self_region) w)
    as (current_price & w1 & Hprice & Hrows1 & _).
  rewrite Hprice. destruct (I_price _ _ _ _ _ Hw Hprice) as [Hw1 Hp].
  destruct (Qeq_bool current_price 0) eqn:Hzero; [by apply Hskip|].
  apply Qeq_bool_neq in Hzero. unfold bind at 1.
  destruct (measure_frame instance w1)
    as (m & w2 & Hm & _ & _ & Hrows2 & Hoff & _).
  rewrite Hm. pose proof (I_measure _ _ _ _ Hw1 Hm) as Hw2.
  destruct (get_alternative_instances (InstanceType instance) (cpu_avg m))
    as [|alternative alternatives] eqn:Halts;
    [apply Hskip; [done|congruence]|].
  unfold bind at 1.
  destruct (evaluate_alternatives_rows current_price
              (alternative :: alternatives) [] w2 Hw2)
    as (rows & w3 & -> & Hw3 & Hrows3 & Hpriced).
  unfold bind at 1, lift.
  destruct (add_to_totals_spec
              (fold_left
                 (λ b row, track_best b (entry_category row) (savings_per_month row))
                 rows [])
              (total_potential_savings acc) Hall)
    as (totals' & Hadd & Hall' & _).
  rewrite Hadd.
  eexists _, _, rows, w3. split; [reflexivity|]. split; [done|].
  split; [congruence|]. split; [done|]. split; [done|].
  intros d [= <-]. exists current_price, (cpu_avg m).
  split; [done|]. split; [done|]. split; [done|].
  split; [intros Hno; by destruct (Hoff Hno) as [-> _]|].
  split; [done|]. split; [done|]. split; [done|]. split; [done|].
  by rewrite Halts.
Qed.

End RunInvariant.

(** The rule of the loop over the instances: a property of the
    accumulators and the state that every iteration carries from step [n]
    to step [n + 1] holds at the end of the loop. *)
Lemma analyze_loop_rule
    (self_region : string) (pricing : Enhanced.pricing_client)
    (cloudwatch : Enhanced.cloudwatch_client) (check_metrics : bool)
    (J : nat → Enhanced.Totals → Enhanced.World → Prop)
    (instances : list Instance) :
  Forall
    (λ instance,
       ∀ n acc w, J n acc w →
         ∃ acc' best w',
           Enhanced.analyze_instance self_region pricing cloudwatch
             check_metrics instance acc w
           = (Return (acc', best), w')
           ∧ J (S n) acc' w')
    instances →
  ∀ n acc w, J n acc w →
    ∃ acc' w',
      Enhanced.analyze_loop self_region pricing cloudwatch check_metrics
        instances acc w
      = (Return acc', w')
      ∧ J (n + length instances)%nat acc' w'.
Proof.
  induction 1 as [|instance rest Hstep _ IH]; intros n acc w HJ.
  - exists acc, w. split; [done|]. by rewrite Nat.add_0_r.
  - cbn [Enhanced.analyze_loop length]. unfold mbind, M_bind, bind at 1.
    destruct (Hstep n acc w HJ) as (acc1 & best & w1 & -> & HJ1).
    destruct (IH (S n) acc1 w1 HJ1) as (acc' & w' & Hrun & HJ').
    exists acc', w'. split; [done|].
    by replace (n + S (length rest))%nat with (S n + length rest)%nat by lia.
Qed.

(** ** What a run does to the price cache and to CloudWatch *)

Section RunEffects.

Import Enhanced.

Variable self_region : string.
Variable pricing : pricing_client.
Variable cloudwatch : cloudwatch_client.

Lemma get_instance_price_cache_grows
    (instance_type : string) (region : option string) (w : World) :
  pricing_cache w
  ⊆ pricing_cache
      (snd (get_instance_price self_region pricing instance_type region w)).
Proof.
  rewrite get_instance_price_unfold; simpl.
  destruct (pricing_cache w !! _) as [price|] eqn:Hcache; [done|]. simpl.
  destruct (Spec.first_price _); [|done].
  by apply insert_subseteq.
Qed.

(** The loop over the instances completes, whatever the clients answer, and
    keeps every price of the cache. *)
Lemma analyze_instances_cache_grows
    (check_metrics : bool) (reservations : list (list Instance)) (w : World) :
  ∃ result w',
    analyze_instances self_region pricing cloudwatch check_metrics
      reservations w
    = (Return result, w')
    ∧ pricing_cache w ⊆ pricing_cache w'.
Proof.
  unfold analyze_instances, mbind, M_bind, bind.
  destruct (analyze_loop_rule self_region pricing cloudwatch check_metrics
              (λ _ acc w',
                 (∀ c, is_Some (total_potential_savings acc !! c))
                 ∧ pricing_cache w ⊆ pricing_cache w')
              (concat reservations)) with (n := 0%nat) (acc := initial_totals) (w := w)
    as (acc & w' & -> & _ & Hcache).
  - apply Forall_forall. intros instance _ n acc w1 [Hall Hw1].
    destruct (analyze_instance_run self_region pricing cloudwatch check_metrics
                (λ w', pricing_cache w ⊆ pricing_cache w') (λ _, True))
      with (instance := instance) (acc := acc) (w := w1)
      as (acc' & best & rows & w2 & Hrun & Hw2 & _ & Hall' & _); try done.
    + intros instance_type region w2 price w3 Hw2 Hprice. split; [|done].
      etrans; [exact Hw2|].
      pose proof (get_instance_price_cache_grows instance_type region w2) as Hgrow.
      by rewrite Hprice in Hgrow.
    + intros instance' w2 m w3 Hw2 Hm.
      destruct (measure_frame cloudwatch check_metrics instance' w2)
        as (m' & w3' & Hm' & Hsame & _).
      rewrite Hm in Hm'. injection Hm' as _ <-. by rewrite Hsame.
    + exists acc', best, w2. by repeat split.
  - split; [apply initial_totals_complete|done].
  - destruct (instances_analyzed acc =? 0)%nat; eauto.
Qed.

(** X13: Whatever the clients answer, and whether the method returns or its
    summary raises, every price that is in the cache when [analyze_instances]
    starts is in the cache, unchanged, when it ends: the loop over the
    instances completes, and the state it leaves is the final one. *)
Theorem price_cache_only_grows
    (check_metrics : bool) (reservations : list (list Instance)) (w : World) :
  ∃ result w',
    analyze_instances self_region pricing cloudwatch check_metrics
      reservations w
    = (Return result, w')
    ∧ snd (analyze_instances_summary self_region pricing cloudwatch
             check_metrics reservations w) = w'
    ∧ pricing_cache w
      ⊆ pricing_cache
          (snd (analyze_instances_summary self_region pricing cloudwatch
                  check_metrics reservations w)).
Proof.
  destruct (analyze_instances_cache_grows check_metrics reservations w)
    as (result & w' & Hloop & Hcache).
  assert (snd (analyze_instances_summary self_region pricing cloudwatch
                 check_metrics reservations w) = w') as Hend.
  { unfold analyze_instances_summary, mbind, M_bind, bind. rewrite Hloop.
    destruct result as [acc|]; [|reflexivity].
    unfold lift, ret. by destruct (print_summary _ _ _). }
  exists result, w'. split; [exact Hloop|]. split; [exact Hend|].
  by rewrite Hend.
Qed.

(** A client that answers a negative price for one type: the cost of the
    fleet sums to 0, the method raises in its summary, and the prices it
    resolved are in the cache all the same. *)
Example negative_price_run :
  let run :=
    analyze_instances_summary "us-east-1"
      (λ _ instance_type _,
         Return [Return (if String.eqb instance_type "t3a.large"
                         then (- 0.096)%Q
                         else if String.eqb instance_type "m5.large"
                              then 0.096%Q else 0.05%Q)])
      Spec.idle_cloudwatch false
      [[Spec.m5_large_running; Spec.t3a_large_stopped]] empty_world in
  fst run = Raise "float division by zero"
  ∧ pricing_cache (snd run) !! "t3a.large_us-east-1" = Some (- 0.096)%Q.
Proof. vm_compute. split; reflexivity. Qed.

Lemma alternatives_without_average
    (current_type target rationale : string) (c : category) :
  (target, rationale, c) ∈ get_alternative_instances current_type None →
  c ≠ downsize.
Proof.
  unfold get_alternative_instances.
  destruct (split_dot current_type) as [|family [|size [|more parts]]];
    try (intros Hin; by apply elem_of_nil in Hin).
  change (downsize_alternatives family size None) with (@nil alternative).
  rewrite app_nil_r. intros Hin.
  pose proof (family_alternatives_no_downsize family size) as Hno.
  rewrite Forall_forall in Hno. apply (Hno _ Hin).
Qed.

(** X14: With the metrics disabled, a run sends no request to CloudWatch,
    prints no downsize row, and leaves the downsize total at 0. *)
Theorem no_metrics_no_downsize
    (reservations : list (list Instance)) (w : World) :
  ∃ result w' rows,
    analyze_instances self_region pricing cloudwatch false reservations w
    = (Return result, w')
    ∧ metrics_calls w' = metrics_calls w
    ∧ recommendations w' = recommendations w ++ rows
    ∧ Forall (λ row, entry_category row ≠ downsize) rows
    ∧ ∀ acc, result = Some acc →
        ∃ d, total_potential_savings acc !! downsize = Some d ∧ (d == 0)%Q.
Proof.
  unfold analyze_instances, mbind, M_bind, bind.
  destruct (analyze_loop_rule self_region pricing cloudwatch false
              (λ _ acc w',
                 (∀ c, is_Some (total_potential_savings acc !! c))
                 ∧ (∃ d, total_potential_savings acc !! downsize = Some d
                         ∧ (d == 0)%Q)
                 ∧ metrics_calls w' = metrics_calls w
                 ∧ ∃ rows, recommendations w' = recommendations w ++ rows
                           ∧ Forall (λ row, entry_category row ≠ downsize) rows)
              (concat reservations)) with (n := 0%nat) (acc := initial_totals) (w := w)
    as (acc & w' & -> & _ & Hdown & Hcalls & rows & Hrows & Hcats).
  - apply Forall_forall.
    intros instance _ n acc w1 (Hall & (d0 & Hd0 & Hzero) & Hcalls & rows & Hrows & Hcats).
    destruct (analyze_instance_run self_region pricing cloudwatch false
                (λ w', metrics_calls w' = metrics_calls w) (λ _, True))
      with (instance := instance) (acc := acc) (w := w1)
      as (acc' & best & rows' & w2 & Hrun & Hw2 & Hrows' & Hall' & Hskip & Hdone);
      try done.
    + intros instance_type region w2 price w3 Hw2 Hprice. split; [|done].
      destruct (get_instance_price_returns self_region pricing instance_type
                  region w2) as (price' & w3' & Hprice' & _ & Hsame).
      rewrite Hprice in Hprice'. injection Hprice' as _ <-. congruence.
    + intros instance' w2 m w3 Hw2 Hm.
      destruct (measure_frame cloudwatch false instance' w2)
        as (m' & w3' & Hm' & _ & _ & _ & Hoff & _).
      rewrite Hm in Hm'. injection Hm' as _ <-.
      destruct (Hoff eq_refl) as [_ ->]. done.
    + exists acc', best, w2. split; [done|]. split; [done|].
      destruct best as [d|].
      * destruct (Hdone d eq_refl)
          as (cp & cpu & _ & _ & _ & Hcpu & _ & _ & Hd & Hadd & Hpriced).
        rewrite (Hcpu eq_refl) in Hpriced.
        assert (Forall (λ row, entry_category row ≠ downsize) rows') as Hcats'.
        { eapply Forall_impl; [exact Hpriced|].
          intros row (_ & _ & _ & Hin).
          by apply alternatives_without_average in Hin. }
        split; [|split; [done|]].
        -- destruct (add_to_totals_spec d (total_potential_savings acc) Hall)
             as (totals' & Hadd' & _ & Hrel).
           rewrite Hadd in Hadd'. injection Hadd' as <-.
           destruct (Hrel downsize d0 Hd0) as (d1 & Hd1 & _ & Hsame).
           exists d1. split; [done|]. rewrite Hsame; [done|].
           eapply Forall_impl;
             [rewrite Hd; apply (fold_track_best_invariant (λ k, k = downsize));
              [|constructor]|].
           ++ intros row Hin Hcat. rewrite Forall_forall in Hcats'.
              by destruct (Hcats' row Hin).
           ++ by intros kv [_ Hkv].
        -- exists (rows ++ rows'). split.
           ++ by rewrite Hrows', Hrows, <- app_assoc.
           ++ by apply Forall_app.
      * destruct (Hskip eq_refl) as [-> ->].
        split; [eauto|]. split; [done|].
        exists rows. split; [by rewrite Hrows', app_nil_r|done].
  - split; [apply initial_totals_complete|].
    split; [exists 0%Q; split; [reflexivity|reflexivity]|].
    split; [done|]. exists []. split; [by rewrite app_nil_r|constructor].
  - exists (if (instances_analyzed acc =? 0)%nat then None else Some acc), w', rows.
    split; [by destruct (instances_analyzed acc =? 0)%nat|].
    split; [done|]. split; [done|]. split; [done|].
    intros acc0 Hacc0. destruct (instances_analyzed acc =? 0)%nat; [done|].
    by injection Hacc0 as <-.
Qed.

End RunEffects.

(** ** The best savings of an instance, category by category *)

Section BestSavings.

Import Enhanced.

Lemma dd_lookup_snoc (d : defaultdict) (k c : category) (v : Q) :
  dd_lookup (d ++ [(k, v)]) c
  = match dd_lookup d c with
    | Some x => Some x
    | None => if decide (c = k) then Some v else None
    end.
Proof.
  induction d as [|[k' v'] d IH]; simpl; [done|].
  by destruct (decide (c = k')).
Qed.

Lemma dd_lookup_setitem (d : defaultdict) (k c : category) (v : Q) :
  dd_lookup (dd_setitem d k v) c
  = if decide (c = k) then Some v else dd_lookup d c.
Proof.
  induction d as [|[k' v'] d IH]; simpl.
  - by destruct (decide (c = k)).
  - destruct (decide (k = k')) as [->|Hk]; simpl.
    + by destruct (decide (c = k')).
    + destruct (decide (c = k')) as [->|Hc].
      * by destruct (decide (k' = k)).
      * exact IH.
Qed.

(** The value tracked for a category after one update: the larger of the
    value tracked before (0 when there was none) and the new saving; the
    other categories are as before. *)
Lemma dd_lookup_track_best (d : defaultdict) (c c' : category) (s : Q) :
  dd_lookup (track_best d c s) c'
  = if decide (c' = c)
    then Some (if Qltb (default 0%Q (dd_lookup d c)) s then s
               else default 0%Q (dd_lookup d c))
    else dd_lookup d c'.
Proof.
  unfold track_best, dd_getitem.
  destruct (dd_lookup d c) as [v|] eqn:Hlookup; simpl.
  - destruct (Qltb v s).
    + rewrite dd_lookup_setitem. by destruct (decide (c' = c)).
    + destruct (decide (c' = c)) as [->|]; [done|done].
  - destruct (Qltb 0 s).
    + rewrite dd_lookup_setitem, dd_lookup_snoc.
      destruct (decide (c' = c)) as [->|]; [done|]. by destruct (dd_lookup d c').
    + rewrite dd_lookup_snoc.
      destruct (decide (c' = c)) as [->|]; [by rewrite Hlookup|].
      by destruct (dd_lookup d c').
Qed.

Lemma dd_lookup_None (d : defaultdict) (k : category) :
  dd_lookup d k = None ↔ k ∉ d.*1.
Proof.
  induction d as [|[k' v'] d IH]; simpl.
  - split; [intros _; apply not_elem_of_nil|done].
  - rewrite not_elem_of_cons. destruct (decide (k = k')); [|tauto].
    split; [done|]. by intros [? _].
Qed.

Lemma dd_setitem_keys (d : defaultdict) (k : category) (v : Q) :
  k ∈ d.*1 → (dd_setitem d k v).*1 = d.*1.
Proof.
  induction d as [|[k' v'] d IH]; cbn [dd_setitem].
  - intros Hin. by apply elem_of_nil in Hin.
  - destruct (decide (k = k')) as [->|Hk]; [done|].
    rewrite !fmap_cons. cbn [fst].
    intros [?|Hin]%elem_of_cons; [done|]. by rewrite IH.
Qed.

(** The dictionary of the best savings never holds a category twice. *)
Lemma track_best_NoDup (d : defaultdict) (c : category) (s : Q) :
  NoDup d.*1 → NoDup (track_best d c s).*1.
Proof.
  intros Hd. unfold track_best, dd_getitem.
  destruct (dd_lookup d c) as [v|] eqn:Hlookup.
  - destruct (Qltb v s); [|done].
    rewrite dd_setitem_keys; [done|].
    apply dd_lookup_elem in Hlookup.
    apply (list_elem_of_fmap_2 fst) in Hlookup. done.
  - apply dd_lookup_None in Hlookup.
    assert (NoDup (d ++ [(c, 0%Q)]).*1) as Hd'.
    { rewrite fmap_app. apply NoDup_app. split; [done|]. split.
      - intros k Hk [->|Hin]%elem_of_cons; [done|]. by apply elem_of_nil in Hin.
      - apply NoDup_singleton. }
    destruct (Qltb 0 s); [|done].
    rewrite dd_setitem_keys; [done|].
    rewrite fmap_app. apply elem_of_app. right. constructor.
Qed.

Lemma fold_track_best_NoDup (rows : list savings_entry) (d : defaultdict) :
  NoDup d.*1 →
  NoDup (fold_left
           (λ b row, track_best b (entry_category row) (savings_per_month row))
           rows d).*1.
Proof.
  revert d. induction rows as [|row rows IH]; intros d Hd; simpl; [done|].
  by apply IH, track_best_NoDup.
Qed.

(** After the rows of an instance, the value tracked for a category is at
    least the value tracked before and at least every saving of the
    category; it is the value tracked before or one of these savings. A
    category is tracked when it was before or when it has a row. *)
Lemma fold_track_best_max
    (rows : list savings_entry) (d : defaultdict) (c : category) :
  match dd_lookup
          (fold_left
             (λ b row, track_best b (entry_category row) (savings_per_month row))
             rows d) c with
  | Some v =>
      (default 0%Q (dd_lookup d c) <= v)%Q
      ∧ (∀ row, row ∈ rows → entry_category row = c →
           (savings_per_month row <= v)%Q)
      ∧ (v = default 0%Q (dd_lookup d c)
         ∨ ∃ row, row ∈ rows ∧ entry_category row = c
                  ∧ v = savings_per_month row)
      ∧ (is_Some (dd_lookup d c) ∨ ∃ row, row ∈ rows ∧ entry_category row = c)
  | None =>
      dd_lookup d c = None ∧ ∀ row, row ∈ rows → entry_category row ≠ c
  end.
Proof.
  revert d. induction rows as [|row rows IH]; intros d; cbn [fold_left].
  - destruct (dd_lookup d c) as [v|] eqn:Hd.
    + split; [simpl; lra|]. split; [intros row Hin; by apply elem_of_nil in Hin|].
      split; [by left|]. left. eauto.
    + split; [done|]. intros row Hin. by apply elem_of_nil in Hin.
  - specialize (IH (track_best d (entry_category row) (savings_per_month row))).
    rewrite dd_lookup_track_best in IH.
    destruct (dd_lookup (fold_left _ rows _) c) as [v|].
    + destruct IH as (Hge & Hall & Hattained & Htracked).
      destruct (decide (c = entry_category row)) as [Hc|Hc].
      * subst c. simpl in Hge, Hattained.
        assert (default 0%Q (dd_lookup d (entry_category row)) <= v
                ∧ savings_per_month row <= v)%Q as [Hold Hnew].
        { destruct (Qltb _ (savings_per_month row)) eqn:Hlt.
          - apply Qltb_lt in Hlt. split; lra.
          - apply Qltb_ge in Hlt. split; lra. }
        split; [done|]. split.
        { intros row' [->|Hin]%elem_of_cons Hcat; [done|by apply Hall]. }
        split.
        { destruct Hattained as [Hv|(row' & Hin & Hcat & Hv)].
          - destruct (Qltb _ (savings_per_month row)); [right|by left].
            exists row. split; [constructor|done].
          - right. exists row'. split; [by constructor|done]. }
        right. exists row. split; [constructor|done].
      * split; [done|]. split.
        { intros row' [->|Hin]%elem_of_cons Hcat; [done|by apply Hall]. }
        split.
        { destruct Hattained as [Hv|(row' & Hin & Hcat & Hv)]; [by left|].
          right. exists row'. split; [by constructor|done]. }
        destruct Htracked as [Hsome|(row' & Hin & Hcat)]; [by left|].
        right. exists row'. split; [by constructor|done].
    + destruct (decide (c = entry_category row)) as [Hc|Hc];
        [by destruct IH|].
      destruct IH as [Hnone Hall]. split; [done|].
      intros row' [->|Hin]%elem_of_cons; [done|by apply Hall].
Qed.

(** Adding the best savings to the totals: without a category held twice,
    each total grows by the value tracked for its category, or not at all
    when the category is not tracked. *)
Lemma add_to_totals_exact (items : defaultdict) (totals : gmap category Q) :
  NoDup items.*1 →
  (∀ c, is_Some (totals !! c)) →
  ∃ totals',
    add_to_totals totals items = Return totals'
    ∧ ∀ c t, totals !! c = Some t →
        ∃ t', totals' !! c = Some t'
              ∧ (t' == t + default 0 (dd_lookup items c))%Q.
Proof.
  revert totals. induction items as [|[c0 s0] items IH]; intros totals Hnodup Hall.
  - exists totals. split; [done|]. intros c t Ht. exists t. split; [done|].
    simpl. lra.
  - rewrite fmap_cons in Hnodup. cbn [fst] in Hnodup.
    apply NoDup_cons in Hnodup as [Hfresh Hnodup].
    cbn [add_to_totals]. unfold add_to_total.
    destruct (Hall c0) as [t0 Ht0]. rewrite Ht0.
    destruct (IH (<[c0 := (t0 + s0)%Q]> totals) Hnodup)
      as (totals' & Hrun & Hrel).
    { intros c. destruct (decide (c0 = c)) as [->|Hne].
      - rewrite lookup_insert_eq. eauto.
      - rewrite lookup_insert_ne; auto. }
    exists totals'. split; [done|]. intros c t Ht. cbn [dd_lookup].
    destruct (decide (c = c0)) as [->|Hne].
    + destruct (Hrel c0 (t0 + s0)%Q) as (t' & Ht' & Hsum).
      { by rewrite lookup_insert_eq. }
      assert (t = t0) as -> by congruence.
      exists t'. split; [done|].
      apply dd_lookup_None in Hfresh. rewrite Hfresh in Hsum. simpl in *. lra.
    + destruct (Hrel c t) as (t' & Ht' & Hsum).
      { by rewrite lookup_insert_ne. }
      exists t'. by split.
Qed.

End BestSavings.

(** ** What an analyzed instance adds to the totals *)

Section InstanceContribution.

Import Enhanced.

Variable self_region : string.
Variable pricing : pricing_client.
Variable cloudwatch : cloudwatch_client.
Variable check_metrics : bool.

Lemma analyze_instance_plain (instance : Instance) (acc : Totals) (w : World) :
  (∀ c, is_Some (total_potential_savings acc !! c)) →
  ∃ acc' best rows w',
    analyze_instance self_region pricing cloudwatch check_metrics instance acc w
    = (Return (acc', best), w')
    ∧ recommendations w' = recommendations w ++ rows
    ∧ (best = None → acc' = acc ∧ rows = [])
    ∧ (∀ d, best = Some d →
         instances_analyzed acc' = S (instances_analyzed acc)
         ∧ d = fold_left
                 (λ b row,
                    track_best b (entry_category row) (savings_per_month row))
                 rows []
         ∧ add_to_totals (total_potential_savings acc) d
           = Return (total_potential_savings acc')).
Proof.
  intros Hall.
  destruct (analyze_instance_run self_region pricing cloudwatch check_metrics
              (λ _, True) (λ _, True))
    with (instance := instance) (acc := acc) (w := w)
    as (acc' & best & rows & w' & Hrun & _ & Hrows & _ & Hskip & Hdone);
    try done.
  exists acc', best, rows, w'. split; [done|]. split; [done|]. split; [done|].
  intros d Hd.
  destruct (Hdone d Hd) as (cp & cpu & _ & _ & _ & _ & Hn & _ & Hfold & Hadd & _).
  done.
Qed.

(** X12: An analyzed instance is counted once and adds to each category total
    exactly the value tracked for the category, and nothing to a category
    that is not tracked; a skipped instance changes no accumulator. *)
Theorem totals_grow_by_best
    (instance : Instance) (acc : Totals) (w : World) :
  (∀ c, is_Some (total_potential_savings acc !! c)) →
  ∃ acc' best w',
    analyze_instance self_region pricing cloudwatch check_metrics instance acc w
    = (Return (acc', best), w')
    ∧ (best = None → acc' = acc)
    ∧ ∀ d, best = Some d →
        instances_analyzed acc' = S (instances_analyzed acc)
        ∧ ∀ c, ∃ t t',
            total_potential_savings acc !! c = Some t
            ∧ total_potential_savings acc' !! c = Some t'
            ∧ (t' == t + default 0 (dd_lookup d c))%Q.
Proof.
  intros Hall.
  destruct (analyze_instance_plain instance acc w Hall)
    as (acc' & best & rows & w' & Hrun & _ & Hskip & Hdone).
  exists acc', best, w'. split; [done|]. split; [by intros [? ?]%Hskip|].
  intros d Hd. destruct (Hdone d Hd) as (Hn & Hfold & Hadd).
  split; [done|]. intros c. destruct (Hall c) as [t Ht].
  destruct (add_to_totals_exact d (total_potential_savings acc)) as (totals' & Hadd' & Hrel).
  { rewrite Hfold. apply fold_track_best_NoDup. constructor. }
  { done. }
  rewrite Hadd in Hadd'. injection Hadd' as <-.
  destruct (Hrel c t Ht) as (t' & Ht' & Hsum). by exists t, t'.
Qed.

End InstanceContribution.

Section InstanceContributionExamples.

Import Enhanced.

Lemma totals_grow_by_best_witness :
  ∃ acc' best w',
    analyze_instance "us-east-1" Spec.table_pricing Spec.idle_cloudwatch true
      Spec.m5_large_running initial_totals empty_world
    = (Return (acc', best), w')
    ∧ (best = None → acc' = initial_totals)
    ∧ ∀ d, best = Some d →
        instances_analyzed acc' = S (instances_analyzed initial_totals)
        ∧ ∀ c, ∃ t t',
            total_potential_savings initial_totals !! c = Some t
            ∧ total_potential_savings acc' !! c = Some t'
            ∧ (t' == t + default 0 (dd_lookup d c))%Q.
Proof.
  apply (totals_grow_by_best "us-east-1" Spec.table_pricing
           Spec.idle_cloudwatch true Spec.m5_large_running initial_totals
           empty_world).
  intros []; vm_compute; eauto.
Defined.

End InstanceContributionExamples.

(** ** The summary *)

Section Summary.

Import Enhanced.

Lemma fold_max_spec (xs : list Q) (m0 : Q) :
  (m0 <= fold_left (λ m y, if Qltb m y then y else m) xs m0)%Q
  ∧ (∀ y, y ∈ xs → (y <= fold_left (λ m y, if Qltb m y then y else m) xs m0)%Q)
  ∧ (fold_left (λ m y, if Qltb m y then y else m) xs m0 = m0
     ∨ fold_left (λ m y, if Qltb m y then y else m) xs m0 ∈ xs).
Proof.
  revert m0. induction xs as [|x xs IH]; intros m0; cbn [fold_left].
  - split; [lra|]. split; [|by left]. intros y Hy. by apply elem_of_nil in Hy.
  - destruct (IH (if Qltb m0 x then x else m0)) as (Hge & Hall & Hattained).
    assert (m0 <= (if Qltb m0 x then x else m0)
            ∧ x <= (if Qltb m0 x then x else m0))%Q as [Hm0 Hx].
    { destruct (Qltb m0 x) eqn:Hlt.
      - apply Qltb_lt in Hlt. split; lra.
      - apply Qltb_ge in Hlt. split; lra. }
    split; [lra|]. split.
    + intros y [->|Hy]%elem_of_cons; [lra|by apply Hall].
    + destruct Hattained as [Hsame|Hin].
      * rewrite Hsame. destruct (Qltb m0 x); [right; constructor|by left].
      * right. by constructor.
Qed.

(** [max] of a list that is not empty returns one of its elements, and no
    element is larger. *)
Lemma py_max_spec (x : Q) (xs : list Q) :
  ∃ mx,
    py_max (x :: xs) = Return mx
    ∧ mx ∈ x :: xs
    ∧ ∀ y, y ∈ x :: xs → (y <= mx)%Q.
Proof.
  eexists. split; [reflexivity|].
  destruct (fold_max_spec xs x) as (Hge & Hall & Hattained). split.
  - destruct Hattained as [->|Hin]; [constructor|by constructor].
  - intros y [->|Hy]%elem_of_cons; [done|by apply Hall].
Qed.

Lemma values_complete (savings : gmap category Q) :
  (∀ c, is_Some (savings !! c)) →
  ∃ g a i d,
    savings !! graviton = Some g ∧ savings !! amd = Some a
    ∧ savings !! intel = Some i ∧ savings !! downsize = Some d
    ∧ values savings = [g; a; i; d].
Proof.
  intros Hall.
  destruct (Hall graviton) as [g Hg]. destruct (Hall amd) as [a Ha].
  destruct (Hall intel) as [i Hi]. destruct (Hall downsize) as [d Hd].
  exists g, a, i, d. unfold values. cbn [omap list_omap].
  by rewrite Hg, Ha, Hi, Hd.
Qed.

Lemma savings_block_unfold
    (savings : gmap category Q) (c : category) (current_cost v : Q) :
  savings !! c = Some v →
  savings_block savings c current_cost
  = if Qltb 0 v then
      if Qeq_bool current_cost 0 then Raise "float division by zero"
      else Return (Some {| line_savings := v;
                           line_percent := (v / current_cost * 100)%Q;
                           line_new_cost := (current_cost - v)%Q |})
    else Return None.
Proof.
  intros Hv. unfold savings_block, getitem, mbind, outcome_bind, truediv.
  rewrite Hv. destruct (Qltb 0 v); [|done]. by destruct (Qeq_bool current_cost 0).
Qed.

(** X19: When [print_summary] returns, the maximum it prints is a total of one
    of the four categories, the intel total included, that no total exceeds;
    it prints none when no total is positive. *)
Theorem print_summary_maximum
    (count : nat) (current_cost : Q) (savings : gmap category Q) (s : summary) :
  (∀ c, is_Some (savings !! c)) →
  print_summary count current_cost savings = Return s →
  match maximum_block s with
  | Some (mx, pct) =>
      (0 < mx)%Q
      ∧ (pct = mx / current_cost * 100)%Q
      ∧ (∃ c, savings !! c = Some mx)
      ∧ ∀ c t, savings !! c = Some t → (t <= mx)%Q
  | None => ∀ c t, savings !! c = Some t → (t <= 0)%Q
  end.
Proof.
  intros Hall.
  destruct (values_complete savings Hall) as (g & a & i & d & Hg & Ha & Hi & Hd & Hvalues).
  unfold print_summary. rewrite Hvalues.
  destruct (py_max_spec g [a; i; d]) as (mx & -> & Hin & Hmax).
  assert (∃ c, savings !! c = Some mx) as Hattained.
  { repeat (apply elem_of_cons in Hin as [Heq|Hin]; [rewrite Heq; eauto|]).
    by apply elem_of_nil in Hin. }
  assert (∀ c t, savings !! c = Some t → (t <= mx)%Q) as Hbound.
  { intros c t Ht. apply Hmax.
    destruct c; assert (t = g ∨ t = a ∨ t = i ∨ t = d) as Hcases
      by (rewrite ?Hg, ?Ha, ?Hi, ?Hd in Ht; injection Ht as <-; tauto);
      destruct Hcases as [-> | [-> | [-> | ->]]];
      repeat first [apply list_elem_of_here | apply list_elem_of_further]. }
  unfold mbind, outcome_bind.
  destruct (savings_block savings graviton current_cost); [|discriminate].
  destruct (savings_block savings amd current_cost); [|discriminate].
  destruct (savings_block savings downsize current_cost); [|discriminate].
  destruct (Qltb 0 mx) eqn:Hpos.
  - unfold truediv. destruct (Qeq_bool current_cost 0); [discriminate|].
    intros [= <-]. simpl. apply Qltb_lt in Hpos. done.
  - intros [= <-]. simpl. apply Qltb_ge in Hpos.
    intros c t Ht. specialize (Hbound c t Ht). lra.
Qed.

Lemma print_summary_maximum_witness :
  match maximum_block
          {| summary_count := 1; summary_current_cost := 100;
             graviton_block := None; amd_block := None; downsize_block := None;
             maximum_block := None |} with
  | Some (mx, pct) =>
      (0 < mx)%Q
      ∧ (pct = mx / 100 * 100)%Q
      ∧ (∃ c, total_potential_savings initial_totals !! c = Some mx)
      ∧ ∀ c t, total_potential_savings initial_totals !! c = Some t → (t <= mx)%Q
  | None =>
      ∀ c t, total_potential_savings initial_totals !! c = Some t → (t <= 0)%Q
  end.
Proof.
  apply (print_summary_maximum 1 100%Q
           (total_potential_savings initial_totals)).
  - intros []; vm_compute; eauto.
  - vm_compute. reflexivity.
Defined.

(** X20: [print_summary] divides by the current cost without a test: with a
    current cost of 0 and a positive total in any category it raises. *)
Theorem print_summary_zero_cost_raises
    (count : nat) (current_cost : Q) (savings : gmap category Q)
    (c : category) (t : Q) :
  (∀ c, is_Some (savings !! c)) →
  (current_cost == 0)%Q →
  savings !! c = Some t →
  (0 < t)%Q →
  ∃ e, print_summary count current_cost savings = Raise e.
Proof.
  intros Hall Hzero Hc Hpos. apply Qeq_bool_iff in Hzero.
  destruct (values_complete savings Hall) as (g & a & i & d & Hg & Ha & Hi & Hd & Hvalues).
  unfold print_summary. rewrite Hvalues.
  rewrite (savings_block_unfold _ _ _ _ Hg), (savings_block_unfold _ _ _ _ Ha),
    (savings_block_unfold _ _ _ _ Hd), Hzero.
  destruct (py_max_spec g [a; i; d]) as (mx & -> & _ & Hmax).
  unfold mbind, outcome_bind, truediv. rewrite Hzero.
  destruct (Qltb 0 g) eqn:Hg0; [eauto|].
  destruct (Qltb 0 a) eqn:Ha0; [eauto|].
  destruct (Qltb 0 d) eqn:Hd0; [eauto|].
  assert (Qltb 0 mx = true) as ->; [|eauto].
  apply Qltb_lt. apply Qltb_ge in Hg0, Ha0, Hd0.
  assert (t <= mx)%Q; [|lra]. apply Hmax.
  destruct c; rewrite ?Hg, ?Ha, ?Hi, ?Hd in Hc; injection Hc as <-;
    repeat first [apply list_elem_of_here | apply list_elem_of_further].
Qed.

Lemma print_summary_zero_cost_witness :
  ∃ e,
    print_summary 1 0%Q (<[intel := 5%Q]> (total_potential_savings initial_totals))
    = Raise e.
Proof.
  apply (print_summary_zero_cost_raises 1 0%Q
           (<[intel := 5%Q]> (total_potential_savings initial_totals)) intel 5%Q).
  - intros []; vm_compute; eauto.
  - reflexivity.
  - vm_compute. reflexivity.
  - reflexivity.
Defined.

(** With a positive current cost and every total between 0 and the current
    cost, [print_summary] returns; each block it prints has a percentage
    above 0 and at most 100 and a new cost that is not negative. *)
Lemma print_summary_within_bounds
    (count : nat) (current_cost : Q) (savings : gmap category Q) :
  (∀ c, is_Some (savings !! c)) →
  (0 < current_cost)%Q →
  (∀ c t, savings !! c = Some t → (0 <= t)%Q ∧ (t <= current_cost)%Q) →
  ∃ s,
    print_summary count current_cost savings = Return s
    ∧ summary_current_cost s = current_cost
    ∧ Forall
        (λ block, ∀ b, block = Some b →
           (0 < line_percent b)%Q ∧ (line_percent b <= 100)%Q
           ∧ (0 <= line_new_cost b)%Q)
        [graviton_block s; amd_block s; downsize_block s]
    ∧ ∀ mx pct, maximum_block s = Some (mx, pct) →
        (0 < pct)%Q ∧ (pct <= 100)%Q.
Proof.
  intros Hall Hcost Hbounds.
  assert (Qeq_bool current_cost 0 = false) as Hnz.
  { apply not_true_iff_false. intros Hz%Qeq_bool_iff. lra. }
  assert (∀ v, (0 < v)%Q → (v <= current_cost)%Q →
            (0 < v / current_cost * 100)%Q ∧ (v / current_cost * 100 <= 100)%Q)
    as Hpct.
  { intros v Hv Hle.
    assert (0 < v / current_cost)%Q by (apply Qlt_shift_div_l; lra).
    assert (v / current_cost <= 1)%Q by (apply Qle_shift_div_r; lra).
    split; lra. }
  destruct (values_complete savings Hall) as (g & a & i & d & Hg & Ha & Hi & Hd & Hvalues).
  unfold print_summary. rewrite Hvalues.
  rewrite (savings_block_unfold _ _ _ _ Hg), (savings_block_unfold _ _ _ _ Ha),
    (savings_block_unfold _ _ _ _ Hd), Hnz.
  destruct (py_max_spec g [a; i; d]) as (mx & -> & Hin & _).
  assert ((0 <= mx)%Q ∧ (mx <= current_cost)%Q) as [Hmx0 Hmx1].
  { repeat (apply elem_of_cons in Hin as [Heq|Hin];
            [rewrite Heq; by eapply Hbounds|]).
    by apply elem_of_nil in Hin. }
  destruct (Hbounds _ _ Hg) as [? ?]. destruct (Hbounds _ _ Ha) as [? ?].
  destruct (Hbounds _ _ Hd) as [? ?].
  unfold mbind, outcome_bind, truediv. rewrite Hnz.
  assert (∀ v b,
            Qltb 0 v = true → (v <= current_cost)%Q →
            Some {| line_savings := v;
                    line_percent := (v / current_cost * 100)%Q;
                    line_new_cost := (current_cost - v)%Q |} = Some b →
            (0 < line_percent b)%Q ∧ (line_percent b <= 100)%Q
            ∧ (0 <= line_new_cost b)%Q) as Hblock.
  { intros v b Hv%Qltb_lt Hle [= <-]. cbn [line_percent line_new_cost].
    split; [by apply Hpct|]. split; [by apply Hpct|lra]. }
  destruct (Qltb 0 g) eqn:Hg0, (Qltb 0 a) eqn:Ha0, (Qltb 0 d) eqn:Hd0,
    (Qltb 0 mx) eqn:Hm0;
    (eexists; split; [reflexivity|]; split; [reflexivity|]; split;
     [ cbn [graviton_block amd_block downsize_block];
       repeat apply Forall_cons_2; try apply Forall_nil_2;
       intros b Hb;
       first [discriminate Hb | refine (Hblock _ _ _ _ Hb); done]
     | cbn [maximum_block]; intros mx' pct Hm;
       first [ discriminate Hm
             | injection Hm as <- <-; apply Qltb_lt in Hm0; by apply Hpct ] ]).
Qed.

End Summary.

(** ** Runs with prices that are not negative *)

Section PricedRun.

Import Enhanced.

Variable self_region : string.
Variable pricing : pricing_client.
Variable cloudwatch : cloudwatch_client.
Variable check_metrics : bool.

(** The Pricing client never answers with a negative price. *)
Hypothesis pricing_not_negative :
  ∀ served instance_type location items price,
    pricing served instance_type location = Return (Return price :: items) →
    (0 <= price)%Q.

Lemma get_instance_price_not_negative
    (instance_type : string) (region : option string) (w : World)
    (price : Q) (w' : World) :
  map_Forall (λ _ p, (0 <= p)%Q) (pricing_cache w) →
  get_instance_price self_region pricing instance_type region w
  = (Return price, w') →
  map_Forall (λ _ p, (0 <= p)%Q) (pricing_cache w') ∧ (0 <= price)%Q.
Proof.
  intros Hcache. rewrite get_instance_price_unfold; simpl.
  destruct (pricing_cache w !! _) as [cached|] eqn:Hlookup.
  - intros [= <- <-]. split; [done|]. by apply (Hcache _ _ Hlookup).
  - destruct (pricing _ _ _) as [[|[found|e] items]|e] eqn:Hanswer; simpl;
      intros [= <- <-]; simpl; try (split; [done|lra]).
    pose proof (pricing_not_negative _ _ _ _ _ Hanswer).
    split; [by apply map_Forall_insert_2|done].
Qed.

Lemma track_best_upper (bound : Q) (d : defaultdict) (c : category) (s : Q) :
  (0 <= bound)%Q → (s <= bound)%Q →
  Forall (λ kv : category * Q, (kv.2 <= bound)%Q) d →
  Forall (λ kv : category * Q, (kv.2 <= bound)%Q) (track_best d c s).
Proof.
  intros Hbound Hs Hd. unfold track_best, dd_getitem.
  destruct (dd_lookup d c) as [v|].
  - destruct (Qltb v s); [|done]. by apply dd_setitem_Forall.
  - assert (Forall (λ kv : category * Q, (kv.2 <= bound)%Q) (d ++ [(c, 0%Q)])).
    { apply Forall_app. split; [done|]. by repeat constructor. }
    destruct (Qltb 0 s); [|done]. by apply dd_setitem_Forall.
Qed.

Lemma fold_track_best_upper
    (bound : Q) (rows : list savings_entry) (d : defaultdict) :
  (0 <= bound)%Q →
  Forall (λ row, (savings_per_month row <= bound)%Q) rows →
  Forall (λ kv : category * Q, (kv.2 <= bound)%Q) d →
  Forall (λ kv : category * Q, (kv.2 <= bound)%Q)
    (fold_left
       (λ b row, track_best b (entry_category row) (savings_per_month row))
       rows d).
Proof.
  intros Hbound Hrows. revert d.
  induction Hrows as [|row rows Hrow _ IH]; intros d Hd; simpl; [done|].
  by apply IH, track_best_upper.
Qed.

(** The loop keeps the current cost positive once an instance is analyzed,
    and every category total between 0 and the current cost. *)
Lemma analyze_loop_within_cost (instances : list Instance) (w : World) :
  map_Forall (λ _ p, (0 <= p)%Q) (pricing_cache w) →
  ∃ acc w',
    analyze_loop self_region pricing cloudwatch check_metrics instances
      initial_totals w
    = (Return acc, w')
    ∧ (∀ c, is_Some (total_potential_savings acc !! c))
    ∧ (instances_analyzed acc ≠ 0%nat → (0 < total_current_cost acc)%Q)
    ∧ ∀ c t, total_potential_savings acc !! c = Some t →
        (0 <= t)%Q ∧ (t <= total_current_cost acc)%Q.
Proof.
  intros Hcache.
  destruct (analyze_loop_rule self_region pricing cloudwatch check_metrics
              (λ _ acc w',
                 (∀ c, is_Some (total_potential_savings acc !! c))
                 ∧ map_Forall (λ _ p, (0 <= p)%Q) (pricing_cache w')
                 ∧ (0 <= total_current_cost acc)%Q
                 ∧ (instances_analyzed acc ≠ 0%nat → (0 < total_current_cost acc)%Q)
                 ∧ ∀ c t, total_potential_savings acc !! c = Some t →
                     (0 <= t)%Q ∧ (t <= total_current_cost acc)%Q)
              instances) with (n := 0%nat) (acc := initial_totals) (w := w)
    as (acc & w' & Hrun & Hall & _ & _ & Hpos & Hbounds).
  - apply Forall_forall.
    intros instance _ n acc w1 (Hall & Hw1 & Hcost & Hpos & Hbounds).
    destruct (analyze_instance_run self_region pricing cloudwatch check_metrics
                (λ w', map_Forall (λ _ p, (0 <= p)%Q) (pricing_cache w'))
                (λ p, (0 <= p)%Q))
      with (instance := instance) (acc := acc) (w := w1)
      as (acc' & best & rows & w2 & Hrun & Hw2 & _ & Hall' & Hskip & Hdone);
      try done.
    + intros instance_type region w2 price w3 Hw2 Hprice.
      by eapply get_instance_price_not_negative.
    + intros instance' w2 m w3 Hw2 Hm.
      destruct (measure_frame cloudwatch check_metrics instance' w2)
        as (m' & w3' & Hm' & Hsame & _).
      rewrite Hm in Hm'. injection Hm' as _ <-. by rewrite Hsame.
    + exists acc', best, w2. split; [done|]. split; [done|]. split; [done|].
      destruct best as [d|]; [|by destruct (Hskip eq_refl) as [-> _]].
      destruct (Hdone d eq_refl)
        as (cp & cpu & Hcp & Hnz & _ & _ & Hn & Hcost' & Hd & Hadd & Hpriced).
      assert (0 < cp)%Q as Hcp0.
      { destruct (Qle_lt_or_eq _ _ Hcp) as [?|Heq]; [done|].
        destruct Hnz. by symmetry. }
      rewrite Hcost'. split; [lra|]. split; [intros _; lra|].
      intros c t' Ht'.
      destruct (add_to_totals_exact d (total_potential_savings acc))
        as (totals' & Hadd' & Hrel).
      { rewrite Hd. apply fold_track_best_NoDup. constructor. }
      { done. }
      rewrite Hadd in Hadd'. injection Hadd' as <-.
      destruct (Hall c) as [t Ht]. destruct (Hrel c t Ht) as (t'' & Ht'' & Hsum).
      rewrite Ht' in Ht''. injection Ht'' as <-.
      destruct (Hbounds c t Ht) as [Ht0 Ht1].
      assert ((0 <= default 0 (dd_lookup d c))%Q
              ∧ (default 0 (dd_lookup d c) <= cp * 730)%Q) as [Hb0 Hb1].
      { destruct (dd_lookup d c) as [v|] eqn:Hv; simpl; [|lra].
        apply dd_lookup_elem in Hv. split.
        - assert (Forall (λ kv : category * Q,
                            (0 <= kv.2)%Q ∧ (False → (kv.2 == 0)%Q)) d) as Hnn.
          { rewrite Hd.
            apply (fold_track_best_invariant (λ _, False)); [done|constructor]. }
          rewrite Forall_forall in Hnn. by destruct (Hnn _ Hv).
        - assert (Forall (λ kv : category * Q, (kv.2 <= cp * 730)%Q) d) as Hup.
          { rewrite Hd. apply fold_track_best_upper; [lra| |constructor].
            eapply Forall_impl; [exact Hpriced|].
            intros row (Hprice & _ & -> & _). lra. }
          rewrite Forall_forall in Hup. by apply (Hup _ Hv). }
      rewrite Hsum. split; lra.
  - split; [apply initial_totals_complete|]. split; [done|].
    split; [simpl; lra|]. split; [done|].
    intros c t Ht. assert (t = 0%Q) as ->; [|simpl; split; lra].
    destruct c; vm_compute in Ht; congruence.
  - by exists acc, w'.
Qed.

(** X17: When the Pricing client and the cache hold no negative price, a run
    returns, and when it has a summary to print the current cost is
    positive and every category total lies between 0 and the current
    cost. *)
Theorem savings_within_cost (reservations : list (list Instance)) (w : World) :
  map_Forall (λ _ p, (0 <= p)%Q) (pricing_cache w) →
  ∃ result w',
    analyze_instances self_region pricing cloudwatch check_metrics
      reservations w
    = (Return result, w')
    ∧ ∀ acc, result = Some acc →
        (0 < total_current_cost acc)%Q
        ∧ ∀ c t, total_potential_savings acc !! c = Some t →
            (0 <= t)%Q ∧ (t <= total_current_cost acc)%Q.
Proof.
  intros Hcache. unfold analyze_instances, mbind, M_bind, bind.
  destruct (analyze_loop_within_cost (concat reservations) w Hcache)
    as (acc & w' & -> & _ & Hpos & Hbounds).
  destruct (instances_analyzed acc =? 0)%nat eqn:Hn.
  - exists None, w'. by split.
  - exists (Some acc), w'. split; [done|]. intros acc' [= <-].
    apply Nat.eqb_neq in Hn. split; [by apply Hpos|done].
Qed.

(** X18: Under the same conditions the summary is printed without a division by
    zero: the run with its summary returns, every block printed has a
    percentage above 0 and at most 100 and a new cost that is not negative,
    and so has the maximum. *)
Theorem summary_never_fails (reservations : list (list Instance)) (w : World) :
  map_Forall (λ _ p, (0 <= p)%Q) (pricing_cache w) →
  ∃ result w',
    analyze_instances_summary self_region pricing cloudwatch check_metrics
      reservations w
    = (Return result, w')
    ∧ ∀ s, result = Some s →
        (0 < summary_current_cost s)%Q
        ∧ Forall
            (λ block, ∀ b, block = Some b →
               (0 < line_percent b)%Q ∧ (line_percent b <= 100)%Q
               ∧ (0 <= line_new_cost b)%Q)
            [graviton_block s; amd_block s; downsize_block s]
        ∧ ∀ mx pct, maximum_block s = Some (mx, pct) →
            (0 < pct)%Q ∧ (pct <= 100)%Q.
Proof.
  intros Hcache.
  unfold analyze_instances_summary, analyze_instances, mbind, M_bind, bind.
  destruct (analyze_loop_within_cost (concat reservations) w Hcache)
    as (acc & w' & -> & Hall & Hpos & Hbounds).
  destruct (instances_analyzed acc =? 0)%nat eqn:Hn.
  - exists None, w'. by split.
  - apply Nat.eqb_neq in Hn. specialize (Hpos Hn).
    destruct (print_summary_within_bounds (instances_analyzed acc)
                (total_current_cost acc) (total_potential_savings acc)
                Hall Hpos Hbounds) as (s & Hs & Hcost & Hblocks & Hmax).
    exists (Some s), w'. unfold ret, lift. rewrite Hs. split; [done|].
    intros s' [= <-]. rewrite Hcost. done.
Qed.

End PricedRun.

Section PricedRunExamples.

Import Enhanced.

Lemma flaky_pricing_not_negative
    (served : nat) (instance_type location : string)
    (items : list (outcome Q)) (price : Q) :
  Spec.flaky_pricing served instance_type location
  = Return (Return price :: items) →
  (0 <= price)%Q.
Proof. destruct served; intros [= <- _]. discriminate. Qed.

Lemma savings_within_cost_witness :
  ∃ result w',
    analyze_instances "us-east-1" Spec.flaky_pricing Spec.idle_cloudwatch true
      [[Spec.m5_large_running]; [Spec.t3a_large_stopped]] empty_world
    = (Return result, w')
    ∧ ∀ acc, result = Some acc →
        (0 < total_current_cost acc)%Q
        ∧ ∀ c t, total_potential_savings acc !! c = Some t →
            (0 <= t)%Q ∧ (t <= total_current_cost acc)%Q.
Proof.
  apply (savings_within_cost "us-east-1" Spec.flaky_pricing
           Spec.idle_cloudwatch true flaky_pricing_not_negative
           [[Spec.m5_large_running]; [Spec.t3a_large_stopped]] empty_world).
  apply map_Forall_empty.
Defined.

Lemma summary_never_fails_witness :
  ∃ result w',
    analyze_instances_summary "us-east-1" Spec.flaky_pricing
      Spec.idle_cloudwatch true
      [[Spec.m5_large_running]; [Spec.t3a_large_stopped]] empty_world
    = (Return result, w')
    ∧ ∀ s, result = Some s →
        (0 < summary_current_cost s)%Q
        ∧ Forall
            (λ block, ∀ b, block = Some b →
               (0 < line_percent b)%Q ∧ (line_percent b <= 100)%Q
               ∧ (0 <= line_new_cost b)%Q)
            [graviton_block s; amd_block s; downsize_block s]
        ∧ ∀ mx pct, maximum_block s = Some (mx, pct) →
            (0 < pct)%Q ∧ (pct <= 100)%Q.
Proof.
  apply (summary_never_fails "us-east-1" Spec.flaky_pricing
           Spec.idle_cloudwatch true flaky_pricing_not_negative
           [[Spec.m5_large_running]; [Spec.t3a_large_stopped]] empty_world).
  apply map_Forall_empty.
Defined.

End PricedRunExamples.

(** ** Terminated instances *)

Section Terminated.

Import Enhanced.

Variable self_region : string.
Variable pricing : pricing_client.
Variable cloudwatch : cloudwatch_client.
Variable check_metrics : bool.

Lemma analyze_loop_without_terminated
    (instances : list Instance) (acc : Totals) (w : World) :
  analyze_loop self_region pricing cloudwatch check_metrics instances acc w
  = analyze_loop self_region pricing cloudwatch check_metrics
      (filter (λ instance, State_Name instance ≠ "terminated") instances) acc w.
Proof.
  revert acc w. induction instances as [|instance rest IH]; intros acc w; [done|].
  rewrite filter_cons. destruct (decide (State_Name instance ≠ "terminated")) as [Hlive|Hdead].
  - cbn [analyze_loop]. unfold mbind, M_bind, bind.
    destruct (analyze_instance _ _ _ _ instance acc w) as [[r|e] w']; [apply IH|done].
  - apply dec_stable in Hdead.
    cbn [analyze_loop]. unfold mbind, M_bind, bind, analyze_instance.
    rewrite Hdead. cbn. apply IH.
Qed.

(** X16: Terminated instances are transparent: a run on a fleet and a run on
    the fleet without its terminated instances return the same result and
    leave the same state (the same cache, output and requests). *)
Theorem terminated_instances_ignored
    (reservations : list (list Instance)) (w : World) :
  analyze_instances self_region pricing cloudwatch check_metrics reservations w
  = analyze_instances self_region pricing cloudwatch check_metrics
      (map (filter (λ instance, State_Name instance ≠ "terminated")) reservations)
      w.
Proof.
  assert (concat
            (map (filter (λ instance, State_Name instance ≠ "terminated"))
               reservations)
          = filter (λ instance, State_Name instance ≠ "terminated")
              (concat reservations)) as Hconcat.
  { induction reservations as [|r rs IH]; [done|].
    cbn [map concat]. by rewrite filter_app, IH. }
  unfold analyze_instances, mbind, M_bind, bind.
  by rewrite Hconcat, <- analyze_loop_without_terminated.
Qed.

End Terminated.

(** ** The requests of a run *)

Section Requests.

Import Enhanced.

Variable self_region : string.
Variable pricing : pricing_client.
Variable cloudwatch : cloudwatch_client.
Variable check_metrics : bool.

Lemma get_instance_price_requests
    (instance_type : string) (region : option string) (w : World) :
  ∃ price w',
    get_instance_price self_region pricing instance_type region w
    = (Return price, w')
    ∧ metrics_calls w' = metrics_calls w
    ∧ length (pricing_calls w') ≤ S (length (pricing_calls w)).
Proof.
  rewrite get_instance_price_unfold; simpl.
  destruct (pricing_cache w !! _); eexists _, _; (split; [reflexivity|]);
    simpl; (split; [done|]); rewrite ?length_app; simpl; lia.
Qed.

Lemma evaluate_alternatives_requests
    (current_price : Q) (alternatives : list alternative)
    (best : defaultdict) (w : World) :
  ∃ best' w',
    evaluate_alternatives self_region pricing current_price alternatives best w
    = (Return best', w')
    ∧ metrics_calls w' = metrics_calls w
    ∧ length (pricing_calls w')
      ≤ length (pricing_calls w) + length alternatives.
Proof.
  revert best w.
  induction alternatives as [|[[a_type a_description] a_category] rest IH];
    intros best w.
  - exists best, w. simpl. split; [done|]. split; [done|]. lia.
  - cbn [evaluate_alternatives length]. unfold mbind, M_bind, bind at 1.
    destruct (get_instance_price_requests a_type (Some self_region) w)
      as (a_price & w1 & -> & Hm1 & Hp1).
    destruct (Qeq_bool a_price 0).
    + destruct (IH best w1) as (best' & w' & -> & Hm & Hp).
      exists best', w'. split; [done|]. split; [congruence|]. lia.
    + unfold bind at 1, lift.
      destruct (compute_savings_percent_returns
                  (current_price - a_price) current_price) as [percent ->].
      unfold bind at 1, print_recommendation, modify.
      match goal with
      | |- context [evaluate_alternatives _ _ _ rest ?b ?w2] =>
          destruct (IH b w2) as (best' & w' & -> & Hm & Hp)
      end.
      exists best', w'. split; [done|]. simpl in Hm, Hp.
      split; [congruence|]. lia.
Qed.

(** What one iteration sends: at most five requests to the Pricing
    client, and to CloudWatch nothing, or one request for the instance over
    14 days when the metrics are enabled and the instance is running. *)
Lemma analyze_instance_requests (instance : Instance) (acc : Totals) (w : World) :
  (∀ c, is_Some (total_potential_savings acc !! c)) →
  ∃ acc' best w',
    analyze_instance self_region pricing cloudwatch check_metrics instance acc w
    = (Return (acc', best), w')
    ∧ (∀ c, is_Some (total_potential_savings acc' !! c))
    ∧ length (pricing_calls w') ≤ length (pricing_calls w) + 5
    ∧ (metrics_calls w' = metrics_calls w
       ∨ (check_metrics = true ∧ State_Name instance = "running"
          ∧ metrics_calls w'
            = metrics_calls w ++ [(InstanceId instance, 14%nat)])).
Proof.
  intros Hall. unfold analyze_instance.
  destruct (String.eqb (State_Name instance) "terminated").
  { exists acc, None, w. split; [done|]. split; [done|]. split; [lia|by left]. }
  unfold mbind, M_bind, bind at 1.
  destruct (get_instance_price_requests (InstanceType instance)
              (Some self_region) w) as (current_price & w1 & -> & Hm1 & Hp1).
  destruct (Qeq_bool current_price 0).
  { exists acc, None, w1. split; [done|]. split; [done|]. split; [lia|by left]. }
  unfold bind at 1.
  destruct (measure_frame cloudwatch check_metrics instance w1)
    as (m & w2 & -> & _ & Hp2 & _ & Hoff & Hon).
  assert (metrics_calls w2 = metrics_calls w
          ∨ (check_metrics = true ∧ State_Name instance = "running"
             ∧ metrics_calls w2
               = metrics_calls w ++ [(InstanceId instance, 14%nat)])) as Hm2.
  { destruct (check_metrics && String.eqb (State_Name instance) "running") eqn:Hc.
    - right. apply andb_true_iff in Hc as [-> Hrun%String.eqb_eq].
      split; [done|]. split; [done|]. rewrite <- Hm1. by apply Hon.
    - left. destruct (Hoff eq_refl) as [_ ->]. done. }
  destruct (get_alternative_instances (InstanceType instance) (cpu_avg m))
    as [|alternative alternatives] eqn:Halts.
  { exists acc, None, w2. split; [done|]. split; [done|].
    split; [rewrite Hp2; lia|done]. }
  assert (length (alternative :: alternatives) ≤ 4) as Hfour.
  { rewrite <- Halts. unfold get_alternative_instances.
    destruct (split_dot (InstanceType instance)) as [|family [|size [|more parts]]];
      cbn [length]; try lia.
    rewrite length_app.
    pose proof (family_alternatives_length family size).
    destruct (downsize_alternatives_cases family size (cpu_avg m))
      as [->|(avg & smaller & _ & _ & _ & ->)]; cbn [length]; lia. }
  unfold bind at 1.
  destruct (evaluate_alternatives_requests current_price
              (alternative :: alternatives) [] w2)
    as (best & w3 & -> & Hm3 & Hp3).
  unfold bind at 1, lift.
  destruct (add_to_totals_spec best (total_potential_savings acc) Hall)
    as (totals' & -> & Hall' & _).
  eexists _, _, w3. split; [reflexivity|]. split; [done|].
  split; [rewrite Hp2 in Hp3; lia|]. by rewrite Hm3.
Qed.

(** X15: A run sends at most five requests per instance to the Pricing client.
    It asks CloudWatch only about running instances of the fleet, at most
    once each, in the order of the fleet, and over 14 days. *)
Theorem requests_of_a_run (reservations : list (list Instance)) (w : World) :
  ∃ result w' asked,
    analyze_instances self_region pricing cloudwatch check_metrics
      reservations w
    = (Return result, w')
    ∧ length (pricing_calls w')
      ≤ length (pricing_calls w) + 5 * length (concat reservations)
    ∧ sublist asked
        (filter (λ instance, State_Name instance = "running")
           (concat reservations))
    ∧ metrics_calls w'
      = metrics_calls w
          ++ map (λ instance, (InstanceId instance, 14%nat)) asked.
Proof.
  assert (∀ instances acc w0,
            (∀ c, is_Some (total_potential_savings acc !! c)) →
            ∃ acc' w' asked,
              analyze_loop self_region pricing cloudwatch check_metrics
                instances acc w0
              = (Return acc', w')
              ∧ length (pricing_calls w')
                ≤ length (pricing_calls w0) + 5 * length instances
              ∧ sublist asked
                  (filter (λ instance, State_Name instance = "running") instances)
              ∧ metrics_calls w'
                = metrics_calls w0
                    ++ map (λ instance, (InstanceId instance, 14%nat)) asked)
    as Hloop.
  { induction instances as [|instance rest IH]; intros acc w0 Hall.
    - exists acc, w0, []. split; [done|]. split; [simpl; lia|].
      split; [constructor|]. by rewrite app_nil_r.
    - cbn [analyze_loop length]. unfold mbind, M_bind, bind at 1.
      destruct (analyze_instance_requests instance acc w0 Hall)
        as (acc1 & best & w1 & -> & Hall1 & Hp1 & Hm1).
      destruct (IH acc1 w1 Hall1) as (acc' & w' & asked & Hrest & Hp & Hsub & Hm).
      rewrite filter_cons.
      destruct Hm1 as [Hm1|(_ & Hrun & Hm1)].
      + exists acc', w', asked. split; [done|]. split; [lia|].
        split; [|by rewrite Hm, Hm1].
        destruct (decide (State_Name instance = "running"));
          [by apply sublist_cons|done].
      + exists acc', w', (instance :: asked). split; [done|]. split; [lia|].
        split.
        * destruct (decide (State_Name instance = "running")); [|done].
          by apply sublist_skip.
        * rewrite Hm, Hm1. cbn [map]. by rewrite <- app_assoc. }
  unfold analyze_instances, mbind, M_bind, bind.
  destruct (Hloop (concat reservations) initial_totals w initial_totals_complete)
    as (acc & w' & asked & -> & Hp & Hsub & Hm).
  exists (if (instances_analyzed acc =? 0)%nat then None else Some acc), w', asked.
  split; [by destruct (instances_analyzed acc =? 0)%nat|]. done.
Qed.

End Requests.

(** ** The tables of the basic script *)

Section BasicTables.

#[local] Arguments Basic.get_instance_pricing_estimate : simpl never.

Lemma pricing_map_positive (instance_type : string) (price : Q) :
  Basic.pricing_map !! instance_type = Some price → (0 < price)%Q.
Proof.
  intros Hprice. apply elem_of_list_to_map_2 in Hprice.
  repeat (apply elem_of_cons in Hprice as [Hprice|Hprice];
          [injection Hprice as _ ->; reflexivity|]).
  by apply elem_of_nil in Hprice.
Qed.

(** X21: The estimate of a price is never negative, and it is 0 exactly for the
    instance types that the table does not list. *)
Theorem estimate_zero_iff_unlisted (instance_type : string) :
  (0 <= Basic.get_instance_pricing_estimate instance_type)%Q
  ∧ ((Basic.get_instance_pricing_estimate instance_type == 0)%Q
     ↔ Basic.pricing_map !! instance_type = None).
Proof.
  unfold Basic.get_instance_pricing_estimate.
  destruct (Basic.pricing_map !! instance_type) as [price|] eqn:Hprice; simpl.
  - apply pricing_map_positive in Hprice. split; [lra|].
    split; [intros Hz; lra|discriminate].
  - split; [lra|]. split; [done|reflexivity].
Qed.

Lemma basic_alternatives_listed
    (current_type : string) (alternatives : list Basic.alternative) :
  Basic.get_alternative_instances current_type = alternatives →
  alternatives ≠ [] →
  (current_type, alternatives)
    ∈ [ ("t3.nano", [("t4g.nano", "Graviton2 ARM"); ("t3a.nano", "AMD")]);
        ("t3.micro", [("t4g.micro", "Graviton2 ARM"); ("t3a.micro", "AMD")]);
        ("t3.small", [("t4g.small", "Graviton2 ARM"); ("t3a.small", "AMD")]);
        ("t3.medium", [("t4g.medium", "Graviton2 ARM"); ("t3a.medium", "AMD")]);
        ("t3.large", [("t4g.large", "Graviton2 ARM"); ("t3a.large", "AMD")]);
        ("t3.xlarge", [("t4g.xlarge", "Graviton2 ARM"); ("t3a.xlarge", "AMD")]);
        ("t3.2xlarge", [("t4g.2xlarge", "Graviton2 ARM"); ("t3a.2xlarge", "AMD")]);
        ("m5.large",
         [("m7g.large", "Graviton3"); ("m6a.large", "AMD");
          ("m6i.large", "Intel 6th gen")]);
        ("m5.xlarge",
         [("m7g.xlarge", "Graviton3"); ("m6a.xlarge", "AMD");
          ("m6i.xlarge", "Intel 6th gen")]);
        ("m5.2xlarge",
         [("m7g.2xlarge", "Graviton3"); ("m6a.2xlarge", "AMD");
          ("m6i.2xlarge", "Intel 6th gen")]) ].
Proof.
  unfold Basic.get_alternative_instances.
  destruct (Basic.t3_to_alternatives !! current_type) as [found|] eqn:Ht3.
  - intros <- _. apply elem_of_list_to_map_2 in Ht3.
    repeat (apply elem_of_cons in Ht3 as [Ht3|Ht3];
            [rewrite Ht3;
             repeat first [apply list_elem_of_here | apply list_elem_of_further]|]).
    by apply elem_of_nil in Ht3.
  - destruct (Basic.m5_to_alternatives !! current_type) as [found|] eqn:Hm5;
      [|by intros <-].
    intros <- _. apply elem_of_list_to_map_2 in Hm5.
    repeat (apply elem_of_cons in Hm5 as [Hm5|Hm5];
            [rewrite Hm5;
             repeat first [apply list_elem_of_here | apply list_elem_of_further]|]).
    by apply elem_of_nil in Hm5.
Qed.

(** X22: The basic script never recommends a dearer type: every alternative
    that has a price estimate costs at most what the current type costs. *)
Theorem basic_never_dearer (current_type alt_type description : string) :
  (alt_type, description) ∈ Basic.get_alternative_instances current_type →
  ¬ (Basic.get_instance_pricing_estimate alt_type == 0)%Q →
  (Basic.get_instance_pricing_estimate alt_type
   <= Basic.get_instance_pricing_estimate current_type)%Q.
Proof.
  intros Hin Hpriced.
  pose proof (basic_alternatives_listed current_type _ eq_refl) as Hlisted.
  destruct (Basic.get_alternative_instances current_type) as [|first rest] eqn:Halts;
    [by apply elem_of_nil in Hin|].
  specialize (Hlisted ltac:(discriminate)).
  repeat (apply elem_of_cons in Hlisted as [Hlisted|Hlisted];
          [injection Hlisted as -> -> ->;
           repeat (apply elem_of_cons in Hin as [Hin|Hin];
                   [injection Hin as -> ->;
                    first [ by vm_compute | by destruct Hpriced ]|]);
           by apply elem_of_nil in Hin|]).
  by apply elem_of_nil in Hlisted.
Qed.

Lemma basic_never_dearer_witness :
  (Basic.get_instance_pricing_estimate "m6i.large"
   <= Basic.get_instance_pricing_estimate "m5.large")%Q.
Proof.
  apply (basic_never_dearer "m5.large" "m6i.large" "Intel 6th gen").
  - vm_compute. do 2 apply list_elem_of_further. apply list_elem_of_here.
  - vm_compute. discriminate.
Defined.

(** X23: For every instance type the basic script covers, the enhanced script
    without utilization data generates the same alternative types in the
    same order, and the basic script counts an alternative as Graviton
    exactly when the enhanced script tags it with that category. *)
Theorem basic_agrees_with_enhanced (current_type : string) :
  Basic.get_alternative_instances current_type ≠ [] →
  map fst (Basic.get_alternative_instances current_type)
  = map (λ a : Enhanced.alternative, a.1.1)
      (Enhanced.get_alternative_instances current_type None)
  ∧ map (λ a : Basic.alternative, Basic.is_graviton a.2)
      (Basic.get_alternative_instances current_type)
    = map (λ a : Enhanced.alternative, bool_decide (a.2 = Enhanced.graviton))
        (Enhanced.get_alternative_instances current_type None).
Proof.
  intros Hcovered.
  pose proof (basic_alternatives_listed current_type _ eq_refl Hcovered) as Hlisted.
  destruct (Basic.get_alternative_instances current_type) as [|first rest];
    [done|].
  repeat (apply elem_of_cons in Hlisted as [Hlisted|Hlisted];
          [injection Hlisted as -> -> ->; by vm_compute|]).
  by apply elem_of_nil in Hlisted.
Qed.

Lemma basic_agrees_with_enhanced_witness :
  map fst (Basic.get_alternative_instances "m5.xlarge")
  = map (λ a : Enhanced.alternative, a.1.1)
      (Enhanced.get_alternative_instances "m5.xlarge" None)
  ∧ map (λ a : Basic.alternative, Basic.is_graviton a.2)
      (Basic.get_alternative_instances "m5.xlarge")
    = map (λ a : Enhanced.alternative, bool_decide (a.2 = Enhanced.graviton))
        (Enhanced.get_alternative_instances "m5.xlarge" None).
Proof.
  apply (basic_agrees_with_enhanced "m5.xlarge"). vm_compute. discriminate.
Defined.

End BasicTables.

(** ** The totals and the summary of the basic script *)

Section BasicSummary.

Import Basic.

#[local] Arguments get_instance_pricing_estimate : simpl never.
#[local] Arguments get_alternative_instances : simpl never.
#[local] Arguments is_graviton : simpl never.
#[local] Arguments compute_savings_percent : simpl never.

Lemma estimate_not_negative (instance_type : string) :
  (0 <= get_instance_pricing_estimate instance_type)%Q.
Proof.
  unfold get_instance_pricing_estimate.
  destruct (pricing_map !! instance_type) as [price|] eqn:Hprice; simpl; [|lra].
  apply pricing_map_positive in Hprice. lra.
Qed.

(** No best saving of an instance exceeds the monthly cost of the
    instance. *)
Lemma basic_evaluate_alternatives_upper
    (current_price : Q) (alternatives : list alternative) (g n : Q) :
  (g <= current_price * 730)%Q →
  (n <= current_price * 730)%Q →
  ∃ g' n',
    evaluate_alternatives current_price alternatives g n = Return (g', n')
    ∧ (g' <= current_price * 730)%Q ∧ (n' <= current_price * 730)%Q.
Proof.
  revert g n.
  induction alternatives as [|[alt_type description] rest IH]; intros g n Hg Hn;
    cbn [evaluate_alternatives].
  - by exists g, n.
  - destruct (Qeq_bool (get_instance_pricing_estimate alt_type) 0);
      [by apply IH|].
    destruct (compute_savings_percent_returns
                (current_price - get_instance_pricing_estimate alt_type)
                current_price) as [percent ->].
    pose proof (estimate_not_negative alt_type).
    destruct (is_graviton description); apply IH; try done;
      destruct (Qltb _ _); lra.
Qed.

(** The loop of [main] returns; it keeps both totals between 0 and the
    current cost, and the current cost positive once an instance is
    analyzed. *)
Lemma basic_analyze_loop_within_cost (instances : list Instance) (acc : Totals) :
  (0 <= total_graviton_savings acc)%Q →
  (total_graviton_savings acc <= total_current_cost acc)%Q →
  (0 <= total_non_graviton_savings acc)%Q →
  (total_non_graviton_savings acc <= total_current_cost acc)%Q →
  (instances_analyzed acc ≠ 0%nat → (0 < total_current_cost acc)%Q) →
  ∃ acc',
    analyze_loop instances acc = Return acc'
    ∧ (0 <= total_graviton_savings acc')%Q
    ∧ (total_graviton_savings acc' <= total_current_cost acc')%Q
    ∧ (0 <= total_non_graviton_savings acc')%Q
    ∧ (total_non_graviton_savings acc' <= total_current_cost acc')%Q
    ∧ (instances_analyzed acc' ≠ 0%nat → (0 < total_current_cost acc')%Q).
Proof.
  revert acc. induction instances as [|instance rest IH];
    intros acc Hg0 Hg1 Hn0 Hn1 Hpos; cbn [analyze_loop].
  - by exists acc.
  - unfold analyze_instance.
    destruct (get_alternative_instances (InstanceType instance))
      as [|alternative alternatives] eqn:Halts.
    + by apply IH.
    + pose proof (estimate_not_negative (InstanceType instance)) as Hprice.
      assert (0 < get_instance_pricing_estimate (InstanceType instance))%Q
        as Hpriced.
      { destruct (Qle_lt_or_eq _ _ Hprice) as [?|Hzero]; [done|].
        symmetry in Hzero.
        pose proof (basic_unpriced_type_skipped instance acc Hzero) as Hskip.
        unfold analyze_instance in Hskip. rewrite Halts in Hskip.
        destruct (evaluate_alternatives _ _ _ _) as [[? ?]|?]; discriminate. }
      destruct (basic_evaluate_alternatives_spec
                  (get_instance_pricing_estimate (InstanceType instance))
                  (alternative :: alternatives) 0%Q 0%Q)
        as (g' & n' & Hrun & Hg' & Hn' & _).
      destruct (basic_evaluate_alternatives_upper
                  (get_instance_pricing_estimate (InstanceType instance))
                  (alternative :: alternatives) 0%Q 0%Q)
        as (g'' & n'' & Hrun' & Hg'' & Hn''); [lra|lra|].
      rewrite Hrun in Hrun'. injection Hrun' as <- <-. rewrite Hrun.
      apply IH; cbn [total_graviton_savings total_non_graviton_savings
                       total_current_cost instances_analyzed fst]; lra.
Qed.

(** X24: The summary of the basic script never fails; when it is printed the
    current cost is positive, and each block printed has a percentage above
    0 and at most 100 and a new cost that is not negative. *)
Theorem basic_summary_within_bounds (reservations : list (list Instance)) :
  ∃ result,
    main_summary reservations = Return result
    ∧ ∀ acc g n, result = Some (acc, g, n) →
        (0 < total_current_cost acc)%Q
        ∧ Forall
            (λ block, ∀ b, block = Some b →
               (0 < line_percent b)%Q ∧ (line_percent b <= 100)%Q
               ∧ (0 <= line_new_cost b)%Q)
            [g; n].
Proof.
  unfold main_summary, main_totals, mbind, outcome_bind.
  destruct (basic_analyze_loop_within_cost (concat reservations) initial_totals)
    as (acc & -> & Hg0 & Hg1 & Hn0 & Hn1 & Hpos); simpl; try lra; [done|].
  destruct (instances_analyzed acc =? 0)%nat eqn:Hcount.
  { exists None. by split. }
  apply Nat.eqb_neq in Hcount. specialize (Hpos Hcount).
  assert (∀ total,
            (0 <= total)%Q → (total <= total_current_cost acc)%Q →
            ∃ block,
              savings_block total (total_current_cost acc) = Return block
              ∧ ∀ b, block = Some b →
                  (0 < line_percent b)%Q ∧ (line_percent b <= 100)%Q
                  ∧ (0 <= line_new_cost b)%Q) as Hblock.
  { intros total Ht0 Ht1. unfold savings_block, mbind, outcome_bind, truediv.
    destruct (Qltb 0 total) eqn:Htotal; [|by exists None].
    apply Qltb_lt in Htotal.
    assert (Qltb 0 (total_current_cost acc) = true) as -> by by apply Qltb_lt.
    assert (Qeq_bool (total_current_cost acc) 0 = false) as ->.
    { apply not_true_iff_false. intros Hz%Qeq_bool_iff. lra. }
    eexists. split; [reflexivity|]. intros b [= <-].
    cbn [line_percent line_new_cost].
    assert (0 < total / total_current_cost acc)%Q
      by (apply Qlt_shift_div_l; lra).
    assert (total / total_current_cost acc <= 1)%Q
      by (apply Qle_shift_div_r; lra).
    split; [lra|]. split; lra. }
  destruct (Hblock _ Hg0 Hg1) as (g & -> & Hg).
  destruct (Hblock _ Hn0 Hn1) as (n & -> & Hn).
  eexists. split; [reflexivity|]. intros acc' g' n' [= <- <- <-].
  split; [done|].
  apply Forall_cons_2; [done|]. apply Forall_cons_2; [done|]. apply Forall_nil_2.
Qed.

End BasicSummary.

(** ** The recommendation rows *)

Section Rows.

Import Enhanced.

Variable self_region : string.
Variable pricing : pricing_client.

Lemma get_instance_price_set_recommendations
    (rows : list savings_entry) (instance_type : string)
    (region : option string) (w : World) :
  get_instance_price self_region pricing instance_type region
    (Spec.set_recommendations rows w)
  = (fst (get_instance_price self_region pricing instance_type region w),
     Spec.set_recommendations rows
       (snd (get_instance_price self_region pricing instance_type region w))).
Proof.
  rewrite !get_instance_price_unfold. cbv zeta.
  unfold Spec.set_recommendations at 1. cbn [pricing_cache pricing_calls].
  destruct (pricing_cache w !! _); reflexivity.
Qed.

Lemma resolve_prices_set_recommendations
    (rows : list savings_entry) (types : list string) (w : World) :
  Spec.resolve_prices self_region pricing types (Spec.set_recommendations rows w)
  = (fst (Spec.resolve_prices self_region pricing types w),
     Spec.set_recommendations rows
       (snd (Spec.resolve_prices self_region pricing types w))).
Proof.
  revert w. induction types as [|instance_type types IH]; intros w;
    cbn [Spec.resolve_prices]; [reflexivity|].
  rewrite get_instance_price_set_recommendations. cbn [fst snd].
  by rewrite IH.
Qed.


Lemma compute_savings_percent_value (savings_per_hour current_price : Q) :
  compute_savings_percent savings_per_hour current_price
  = Return (if Qltb 0 current_price
            then (savings_per_hour / current_price * 100)%Q else 0%Q).
Proof.
  unfold compute_savings_percent, truediv.
  destruct (Qltb 0 current_price) eqn:Hpos; [|reflexivity].
  apply Qltb_lt in Hpos.
  destruct (Qeq_bool current_price 0) eqn:Hzero; [|reflexivity].
  apply Qeq_bool_eq in Hzero. rewrite Hzero in Hpos.
  by apply Qlt_irrefl in Hpos.
Qed.

Lemma rows_of_cons
    (current_price : Q) (a : alternative) (alternatives : list alternative)
    (price : Q) (prices : list Q) :
  Spec.rows_of current_price (a :: alternatives) (price :: prices)
  = if Qeq_bool price 0 then Spec.rows_of current_price alternatives prices
    else
      {| alt_type := a.1.1; description := a.1.2; entry_category := a.2;
         alt_price := price;
         savings_per_hour := (current_price - price)%Q;
         savings_per_month := ((current_price - price) * 730)%Q;
         savings_percent :=
           if Qltb 0 current_price
           then ((current_price - price) / current_price * 100)%Q
           else 0%Q |}
      :: Spec.rows_of current_price alternatives prices.
Proof.
  unfold Spec.rows_of. cbn [zip zip_with omap list_omap fst snd].
  destruct (Spec.row_of current_price a price) as [row|] eqn:Hrow;
    unfold Spec.row_of in Hrow; destruct (Qeq_bool price 0);
    by simplify_eq.
Qed.

(** The loop over the alternatives does what resolving all the prices
    first and printing the rows afterwards would do. *)
Lemma evaluate_alternatives_exact
    (current_price : Q) (alternatives : list alternative)
    (best : defaultdict) (w : World) :
  evaluate_alternatives self_region pricing current_price alternatives best w
  = (Return
       (Spec.track_rows
          (Spec.rows_of current_price alternatives
             (fst (Spec.resolve_prices self_region pricing
                     (map (λ a : alternative, a.1.1) alternatives) w)))
          best),
     Spec.set_recommendations
       (recommendations w
        ++ Spec.rows_of current_price alternatives
             (fst (Spec.resolve_prices self_region pricing
                     (map (λ a : alternative, a.1.1) alternatives) w)))
       (snd (Spec.resolve_prices self_region pricing
               (map (λ a : alternative, a.1.1) alternatives) w))).
Proof.
  revert best w.
  induction alternatives as [|[[a_type a_description] a_category] rest IH];
    intros best w.
  - cbn. rewrite app_nil_r. by destruct w.
  - cbn [evaluate_alternatives map Spec.resolve_prices fst snd].
    unfold mbind, M_bind, bind at 1.
    destruct (get_instance_price_returns self_region pricing a_type
                (Some self_region) w) as (a_price & w1 & -> & Hrows1 & _).
    cbn [fst snd]. rewrite rows_of_cons. cbn [fst snd].
    destruct (Qeq_bool a_price 0) eqn:Hzero.
    + rewrite IH, Hrows1. reflexivity.
    + unfold bind at 1, lift. rewrite compute_savings_percent_value.
      unfold bind at 1, print_recommendation, modify.
      rewrite IH.
      change {| pricing_cache := pricing_cache w1; stdout := stdout w1;
                recommendations := recommendations w1 ++ [?row];
                pricing_calls := pricing_calls w1;
                metrics_calls := metrics_calls w1 |}
        with (Spec.set_recommendations (recommendations w1 ++ [row]) w1).
      rewrite resolve_prices_set_recommendations. cbn [fst snd].
      unfold Spec.set_recommendations at 2.
      cbn [recommendations pricing_cache stdout pricing_calls metrics_calls].
      rewrite Hrows1, <- app_assoc. reflexivity.
Qed.

Lemma rows_of_elem
    (current_price : Q) (alternatives : list alternative) (prices : list Q)
    (row : savings_entry) :
  row ∈ Spec.rows_of current_price alternatives prices
  ↔ ∃ (a : alternative) (price : Q),
      (a, price) ∈ zip alternatives prices
      ∧ ¬ (price == 0)%Q
      ∧ row = {| alt_type := a.1.1; description := a.1.2;
                 entry_category := a.2; alt_price := price;
                 savings_per_hour := (current_price - price)%Q;
                 savings_per_month := ((current_price - price) * 730)%Q;
                 savings_percent :=
                   if Qltb 0 current_price
                   then ((current_price - price) / current_price * 100)%Q
                   else 0%Q |}.
Proof.
  unfold Spec.rows_of. rewrite list_elem_of_omap. split.
  - intros ([a price] & Hin & Hrow). exists a, price. split; [done|].
    unfold Spec.row_of in Hrow. cbn [fst snd] in Hrow.
    destruct (Qeq_bool price 0) eqn:Hzero; [discriminate Hrow|].
    apply Qeq_bool_neq in Hzero. split; [done|]. by injection Hrow as <-.
  - intros (a & price & Hin & Hprice & ->). exists (a, price). split; [done|].
    unfold Spec.row_of. cbn [fst snd].
    destruct (Qeq_bool price 0) eqn:Hzero; [|reflexivity].
    by apply Qeq_bool_eq in Hzero.
Qed.


End Rows.

(** ** The best savings of an instance and its priced alternatives *)

Section TrackedSavings.

Import Enhanced.

Variable self_region : string.
Variable pricing : pricing_client.
Variable cloudwatch : cloudwatch_client.
Variable check_metrics : bool.

(** The best savings tracked, from nothing, over the rows of a list of
    priced alternatives. *)
Lemma track_rows_maxima
    (current_price : Q) (alternatives : list alternative) (prices : list Q)
    (c : category) :
  match dd_lookup
          (Spec.track_rows (Spec.rows_of current_price alternatives prices) [])
          c with
  | Some v =>
      (0 <= v)%Q
      ∧ (∀ (a : alternative) (price : Q),
           (a, price) ∈ zip alternatives prices → ¬ (price == 0)%Q →
           a.2 = c → ((current_price - price) * 730 <= v)%Q)
      ∧ (v = 0%Q
         ∨ ∃ (a : alternative) (price : Q),
             (a, price) ∈ zip alternatives prices ∧ ¬ (price == 0)%Q
             ∧ a.2 = c ∧ v = ((current_price - price) * 730)%Q)
      ∧ ∃ (a : alternative) (price : Q),
          (a, price) ∈ zip alternatives prices ∧ ¬ (price == 0)%Q ∧ a.2 = c
  | None =>
      ∀ (a : alternative) (price : Q),
        (a, price) ∈ zip alternatives prices → a.2 = c → (price == 0)%Q
  end.
Proof.
  unfold Spec.track_rows.
  pose proof (fold_track_best_max
                (Spec.rows_of current_price alternatives prices) [] c) as Hmax.
  destruct (dd_lookup _ c) as [v|].
  - destruct Hmax as (Hge & Hle & Hattained & Htracked).
    split; [exact Hge|]. split; [|split].
    + intros a price Hin Hprice Hc.
      apply (Hle {| alt_type := a.1.1; description := a.1.2;
                    entry_category := a.2; alt_price := price;
                    savings_per_hour := (current_price - price)%Q;
                    savings_per_month := ((current_price - price) * 730)%Q;
                    savings_percent :=
                      if Qltb 0 current_price
                      then ((current_price - price) / current_price * 100)%Q
                      else 0%Q |}); [|exact Hc].
      apply rows_of_elem. by exists a, price.
    + destruct Hattained as [Hsame | (row & Hin & Hc & Hv)]; [by left|].
      right. apply rows_of_elem in Hin as (a & price & Hin & Hprice & ->).
      by exists a, price.
    + destruct Htracked as [[? Hsome] | (row & Hin & Hc)]; [discriminate Hsome|].
      apply rows_of_elem in Hin as (a & price & Hin & Hprice & ->).
      by exists a, price.
  - destruct Hmax as [_ Hno]. intros a price Hin Hc.
    destruct (Qeq_bool price 0) eqn:Hzero; [by apply Qeq_bool_eq|].
    apply Qeq_bool_neq in Hzero. exfalso.
    apply (Hno {| alt_type := a.1.1; description := a.1.2;
                  entry_category := a.2; alt_price := price;
                  savings_per_hour := (current_price - price)%Q;
                  savings_per_month := ((current_price - price) * 730)%Q;
                  savings_percent :=
                    if Qltb 0 current_price
                    then ((current_price - price) / current_price * 100)%Q
                    else 0%Q |}); [|exact Hc].
    apply rows_of_elem. by exists a, price.
Qed.

(** X11: For an analyzed instance, with the price resolved for its type, the
    utilization measured and the prices resolved for its alternatives, in
    this order: the value tracked for a category is at least 0 and at
    least the monthly saving (current price minus price, times 730) of
    every alternative of the category whose price is not 0; it is 0 or one
    of these savings; and a category is tracked exactly when one of its
    alternatives has a price other than 0. *)
Theorem best_savings_are_maxima
    (instance : Instance) (acc : Totals) (w : World) :
  (∀ c, is_Some (total_potential_savings acc !! c)) →
  ∃ acc' best w',
    analyze_instance self_region pricing cloudwatch check_metrics instance acc w
    = (Return (acc', best), w')
    ∧ ∀ d, best = Some d →
        ∃ current_price m w1 w2,
          get_instance_price self_region pricing (InstanceType instance)
            (Some self_region) w = (Return current_price, w1)
          ∧ measure cloudwatch check_metrics instance w1 = (Return m, w2)
          ∧ let alternatives :=
              get_alternative_instances (InstanceType instance) (cpu_avg m) in
            let prices :=
              fst (Spec.resolve_prices self_region pricing
                     (map (λ a : alternative, a.1.1) alternatives) w2) in
            ∀ c,
              match dd_lookup d c with
              | Some v =>
                  (0 <= v)%Q
                  ∧ (∀ (a : alternative) (price : Q),
                       (a, price) ∈ zip alternatives prices →
                       ¬ (price == 0)%Q → a.2 = c →
                       ((current_price - price) * 730 <= v)%Q)
                  ∧ (v = 0%Q
                     ∨ ∃ (a : alternative) (price : Q),
                         (a, price) ∈ zip alternatives prices
                         ∧ ¬ (price == 0)%Q ∧ a.2 = c
                         ∧ v = ((current_price - price) * 730)%Q)
                  ∧ ∃ (a : alternative) (price : Q),
                      (a, price) ∈ zip alternatives prices
                      ∧ ¬ (price == 0)%Q ∧ a.2 = c
              | None =>
                  ∀ (a : alternative) (price : Q),
                    (a, price) ∈ zip alternatives prices → a.2 = c →
                    (price == 0)%Q
              end.
Proof.
  intros Hall.
  destruct (analyze_instance_plain self_region pricing cloudwatch check_metrics
              instance acc w Hall)
    as (acc' & best & rows & w' & Hrun & _).
  exists acc', best, w'. split; [exact Hrun|]. intros d ->.
  revert Hrun. unfold analyze_instance.
  destruct (String.eqb (State_Name instance) "terminated");
    [unfold ret; intros Hrun; discriminate Hrun|].
  unfold mbind, M_bind, bind at 1.
  destruct (get_instance_price_returns self_region pricing
              (InstanceType instance) (Some self_region) w)
    as (current_price & w1 & Hprice & _).
  rewrite Hprice.
  destruct (Qeq_bool current_price 0);
    [unfold ret; intros Hrun; discriminate Hrun|].
  unfold bind at 1.
  destruct (measure_frame cloudwatch check_metrics instance w1)
    as (m & w2 & Hm & _).
  rewrite Hm.
  destruct (get_alternative_instances (InstanceType instance) (cpu_avg m))
    as [|a alternatives] eqn:Halternatives;
    [unfold ret; intros Hrun; discriminate Hrun|].
  unfold bind at 1. rewrite evaluate_alternatives_exact.
  unfold bind at 1, lift.
  destruct (add_to_totals _ _); [|intros Hrun; discriminate Hrun].
  unfold ret. intros Hrun. injection Hrun as _ <- _.
  exists current_price, m, w1, w2.
  split; [first [exact Hprice | reflexivity]|].
  split; [first [exact Hm | reflexivity]|]. rewrite ?Halternatives.
  cbv zeta. intros c. apply track_rows_maxima.
Qed.

End TrackedSavings.

Section TrackedSavingsExamples.

Import Enhanced.

Lemma best_savings_are_maxima_witness :
  ∃ acc' best w',
    analyze_instance "us-east-1" Spec.table_pricing Spec.idle_cloudwatch true
      Spec.m5_large_running initial_totals empty_world
    = (Return (acc', best), w')
    ∧ ∀ d, best = Some d →
        ∃ current_price m w1 w2,
          get_instance_price "us-east-1" Spec.table_pricing
            (InstanceType Spec.m5_large_running) (Some "us-east-1") empty_world
          = (Return current_price, w1)
          ∧ measure Spec.idle_cloudwatch true Spec.m5_large_running w1
            = (Return m, w2)
          ∧ let alternatives :=
              get_alternative_instances (InstanceType Spec.m5_large_running)
                (cpu_avg m) in
            let prices :=
              fst (Spec.resolve_prices "us-east-1" Spec.table_pricing
                     (map (λ a : alternative, a.1.1) alternatives) w2) in
            ∀ c,
              match dd_lookup d c with
              | Some v =>
                  (0 <= v)%Q
                  ∧ (∀ (a : alternative) (price : Q),
                       (a, price) ∈ zip alternatives prices →
                       ¬ (price == 0)%Q → a.2 = c →
                       ((current_price - price) * 730 <= v)%Q)
                  ∧ (v = 0%Q
                     ∨ ∃ (a : alternative) (price : Q),
                         (a, price) ∈ zip alternatives prices
                         ∧ ¬ (price == 0)%Q ∧ a.2 = c
                         ∧ v = ((current_price - price) * 730)%Q)
                  ∧ ∃ (a : alternative) (price : Q),
                      (a, price) ∈ zip alternatives prices
                      ∧ ¬ (price == 0)%Q ∧ a.2 = c
              | None =>
                  ∀ (a : alternative) (price : Q),
                    (a, price) ∈ zip alternatives prices → a.2 = c →
                    (price == 0)%Q
              end.
Proof.
  apply (best_savings_are_maxima "us-east-1" Spec.table_pricing
           Spec.idle_cloudwatch true Spec.m5_large_running initial_totals
           empty_world).
  intros []; vm_compute; eauto.
Defined.

End TrackedSavingsExamples.
